(** * Wikipedia MCP servers and CLI research assistant (pydata-mcp-workshop)

    A shallow embedding of
      - solution/servers/wikipedia_server.py   (search, summary, content, info),
      - solution/advanced/wikipedia_server.py  (smart_summarize,
        interactive_search, get_article_with_progress),
      - solution/clients/cli_client.py         (MCPResearchAssistant.chat_session,
        display_chat_history, ChatMessage.convert_messages_for_display),
      - solution/clients/config.py             (validate_environment,
        get_agent_config),
    together with the Python built-ins these functions rely on.

    Conventions.
      - A Python [str] is a Rocq [string]; a character is a code point below
        256 (Latin-1), which is what the 8-bit [ascii] type enumerates.
      - A Python [int] is a [Z]; [len] returns a [Z].
      - A Python [float] is an IEEE-754 binary64 value, a [spec_float] with
        precision 53 and maximal exponent 1024.
      - A call either returns or raises: [outcome].  A tool function runs in
        the monad [M], which also records the calls made to the external
        collaborators (HTTP search endpoint, wikipediaapi client, MCP context).
        Calls to the [logging] module are local and are not recorded. *)

From Stdlib Require Import ZArith NArith List String Ascii Bool Lia.
From Stdlib Require Import Floats.SpecFloat.
From Stdlib Require Import Numbers.DecimalString.
From Stdlib Require Import Numbers.DecimalPos Sorting.Sorted.
Import ListNotations.

Local Open Scope string_scope.
Local Open Scope Z_scope.

(* ================================================================== *)
(** ** Python built-ins on [str], [list], [int] and [float]           *)
(* ================================================================== *)

Module Py.

(** The line feed, written ["\n"] in the source. *)
Definition LF : ascii := "010"%char.
Definition nl : string := String LF EmptyString.

(** [len(s)] *)
Definition len (s : string) : Z := Z.of_nat (String.length s).

(** [len(l)] on a list *)
Definition llen {A} (l : list A) : Z := Z.of_nat (List.length l).

(** [not s]: a string is falsy exactly when it is empty. *)
Definition is_empty (s : string) : bool :=
  match s with
  | EmptyString => true
  | String _ _ => false
  end.

(** [str.isspace] on one character: TAB, LF, VT, FF, CR, the separators
    FS, GS, RS, US, the space, NEL (0x85) and the no-break space (0xA0). *)
Definition isspace (c : ascii) : bool :=
  let n := N_of_ascii c in
  (((9 <=? n) && (n <=? 13)) || ((28 <=? n) && (n <=? 32))
   || (n =? 133) || (n =? 160))%N.

(** [str.lower] on one character: A-Z, and the Latin-1 capitals
    0xC0-0xDE except the multiplication sign 0xD7, move up by 32. *)
Definition lower_char (c : ascii) : ascii :=
  let n := N_of_ascii c in
  if (((65 <=? n) && (n <=? 90)) || ((192 <=? n) && (n <=? 214))
      || ((216 <=? n) && (n <=? 222)))%N
  then ascii_of_N (n + 32) else c.

(** [s.lower()] *)
Fixpoint lower (s : string) : string :=
  match s with
  | EmptyString => EmptyString
  | String c r => String (lower_char c) (lower r)
  end.

(** [s.lstrip()], [s.rstrip()], [s.strip()] with no argument. *)
Fixpoint lstrip (s : string) : string :=
  match s with
  | EmptyString => EmptyString
  | String c r => if isspace c then lstrip r else s
  end.

Fixpoint rstrip (s : string) : string :=
  match s with
  | EmptyString => EmptyString
  | String c r =>
      match rstrip r with
      | EmptyString => if isspace c then EmptyString else String c EmptyString
      | r' => String c r'
      end
  end.

Definition strip (s : string) : string := rstrip (lstrip s).

(** [s.split(sep)] for a one-character separator: never the empty list. *)
Fixpoint split (s : string) (sep : ascii) : list string :=
  match s with
  | EmptyString => [EmptyString]
  | String c r =>
      if Ascii.eqb c sep then EmptyString :: split r sep
      else match split r sep with
           | h :: t => String c h :: t
           | [] => [String c EmptyString]
           end
  end.

(** [sep.join(l)] *)
Definition join (sep : string) (l : list string) : string :=
  String.concat sep l.

(** [s.startswith(sub)] *)
Definition startswith (s sub : string) : bool := String.prefix sub s.

(** [sub in s] *)
Fixpoint str_in (sub s : string) : bool :=
  startswith s sub ||
  match s with
  | EmptyString => false
  | String _ r => str_in sub r
  end.

(** [s.endswith(suffix)] *)
Fixpoint endswith (s suffix : string) : bool :=
  String.eqb s suffix ||
  match s with
  | EmptyString => false
  | String _ r => endswith r suffix
  end.

(** [s.rfind(sub)]: the highest index at which [sub] starts, or [-1].
    [rfind_at sub s i] scans [s], whose first character has index [i]. *)
Fixpoint rfind_at (sub s : string) (i : Z) : Z :=
  let here := if startswith s sub then i else -1 in
  match s with
  | EmptyString => here
  | String _ r => Z.max here (rfind_at sub r (i + 1))
  end.

Definition rfind (s sub : string) : Z := rfind_at sub s 0.

(** [s[:stop]]: a negative [stop] counts from the end. *)
Definition slice_to (s : string) (stop : Z) : string :=
  if stop <? 0 then String.substring 0 (Z.to_nat (len s + stop)) s
  else String.substring 0 (Z.to_nat stop) s.

(** [l[:stop]] on a list. *)
Definition lslice_to {A} (l : list A) (stop : Z) : list A :=
  if stop <? 0 then firstn (Z.to_nat (llen l + stop)) l
  else firstn (Z.to_nat stop) l.

(** [str(n)] for an [int]. *)
Definition str_of_int (n : Z) : string := NilZero.string_of_int (Z.to_int n).

(** *** [int(s)] for a [str] argument, base 10

    Surrounding whitespace is dropped, one sign is allowed, then decimal
    digits with single underscores between digits.  CPython refuses more
    than [int_max_str_digits] digits (4300 unless reconfigured). *)

Definition is_digit (c : ascii) : bool :=
  let n := N_of_ascii c in ((48 <=? n) && (n <=? 57))%N.

Definition digit_val (c : ascii) : Z := Z.of_N (N_of_ascii c) - 48.

Definition int_max_str_digits : nat := 4300.

(** The characters after a digit; [acc] is the value so far and [n] the
    number of digits read. *)
Fixpoint int_digits (s : string) (acc : Z) (n : nat) : option (Z * nat) :=
  match s with
  | EmptyString => Some (acc, n)
  | String c r =>
      if is_digit c then int_digits r (10 * acc + digit_val c) (S n)
      else if Ascii.eqb c "_" then
        match r with
        | String d r' =>
            if is_digit d then int_digits r' (10 * acc + digit_val d) (S n)
            else None
        | EmptyString => None
        end
      else None
  end.

Definition int_unsigned (s : string) : option Z :=
  match s with
  | String c r =>
      if is_digit c then
        match int_digits r (digit_val c) 1 with
        | Some (v, n) => if (n <=? int_max_str_digits)%nat then Some v else None
        | None => None
        end
      else None
  | EmptyString => None
  end.

(** [int(s)]: [None] stands for the [ValueError] it raises. *)
Definition int (s : string) : option Z :=
  match strip s with
  | String "+" r => int_unsigned r
  | String "-" r => option_map Z.opp (int_unsigned r)
  | t => int_unsigned t
  end.

(** *** Floats *)

Definition prec : Z := 53.
Definition emax : Z := 1024.

(** [float(n)] for an [int], rounded to nearest-even. *)
Definition float_of_int (n : Z) : spec_float := binary_normalize prec emax n 0 false.

(** [x * y] on floats. *)
Definition fmul (x y : spec_float) : spec_float := SFmul prec emax x y.

(** The literal [0.8]: the double nearest to 8/10, 0x1.999999999999ap-1. *)
Definition float_0_8 : spec_float := S754_finite false 7205759403792794 (-53).

(** [n > x] for an [int] [n] and a [float] [x]: Python compares the exact
    values.  A comparison with NaN is false. *)
Definition int_gt_float (n : Z) (x : spec_float) : bool :=
  match x with
  | S754_zero _ => 0 <? n
  | S754_infinity s => s
  | S754_nan => false
  | S754_finite s m e =>
      let v := if s then Z.neg m else Z.pos m in
      if e <? 0 then v <? n * 2 ^ (- e) else v * 2 ^ e <? n
  end.

End Py.

(* ================================================================== *)
(** ** Exceptions, external collaborators and the tool monad          *)
(* ================================================================== *)

(** The exception classes the code distinguishes.  The first four are
    instances of [Exception] ([OtherException] stands for any other
    subclass of it); [KeyboardInterrupt], [SystemExit], [GeneratorExit],
    [asyncio.CancelledError] and any other direct subclass of
    [BaseException] are not. *)
Inductive exn : Type :=
| ValueError (msg : string)
| RequestException (msg : string)
| AttributeError (msg : string)
| OtherException (msg : string)
| KeyboardInterrupt
| SystemExit
| GeneratorExit
| CancelledError
| OtherBaseException (msg : string).

(** [str(e)] *)
Definition exn_str (e : exn) : string :=
  match e with
  | ValueError m | RequestException m | AttributeError m | OtherException m
  | OtherBaseException m => m
  | KeyboardInterrupt | SystemExit | GeneratorExit | CancelledError => ""
  end.

(** [isinstance(e, Exception)] *)
Definition is_Exception (e : exn) : bool :=
  match e with
  | ValueError _ | RequestException _ | AttributeError _ | OtherException _ => true
  | KeyboardInterrupt | SystemExit | GeneratorExit | CancelledError
  | OtherBaseException _ => false
  end.

(** [isinstance(e, KeyboardInterrupt)] *)
Definition is_KeyboardInterrupt (e : exn) : bool :=
  match e with
  | KeyboardInterrupt => true
  | _ => false
  end.

(** [isinstance(e, ValueError)] *)
Definition is_ValueError (e : exn) : bool :=
  match e with
  | ValueError _ => true
  | _ => false
  end.

(** [isinstance(e, requests.exceptions.RequestException)] *)
Definition is_RequestException (e : exn) : bool :=
  match e with
  | RequestException _ => true
  | _ => false
  end.

Inductive outcome (A : Type) : Type :=
| Return (a : A)
| Raise (e : exn).
Arguments Return {A} a.
Arguments Raise {A} e.

(** A [wikipediaapi] page object.  Its attributes are fetched lazily, so
    reading any of them may raise. *)
Record WikipediaPage : Type := {
  page_exists : outcome bool;
  page_title : outcome string;
  page_fullurl : outcome string;
  page_summary : outcome string;
  page_text : outcome string;
  page_categories : outcome (list string);   (* list(page.categories.keys()) *)
  page_links : outcome Z                     (* len(page.links) *)
}.

(** What [ctx.elicit] hands back: [action == "accept"] carries [data]. *)
Inductive ElicitationResult : Type :=
| AcceptedElicitation (data : string)
| DeclinedElicitation
| CancelledElicitation.

(** The outside world of the servers.
    [requests_get q limit] stands for the GET on the search endpoint with
    parameters [q] and [limit], followed by [raise_for_status], [json] and
    the extraction of the page titles. *)
Record World : Type := {
  requests_get : string -> Z -> outcome (list string);
  wiki_page : string -> WikipediaPage;
  ctx_elicit : string -> outcome ElicitationResult
}.

(** Calls that leave the process, in the order they are made. *)
Inductive event : Type :=
| HttpGet (q : string) (limit : Z)
| WikiPage (title : string)
| CtxInfo (msg : string)
| CtxReportProgress (progress total : Z)
| CtxElicit (msg : string).

(** A computation records its calls and returns or raises. *)
Definition M (A : Type) : Type := (list event * outcome A)%type.

Definition ret {A} (a : A) : M A := ([], Return a).
Definition raise {A} (e : exn) : M A := ([], Raise e).
Definition emit (ev : event) : M unit := ([ev], Return tt).
Definition lift {A} (o : outcome A) : M A := ([], o).

Definition bind {A B} (m : M A) (k : A -> M B) : M B :=
  match m with
  | (t, Return a) => let (t', r) := k a in ((t ++ t')%list, r)
  | (t, Raise e) => (t, Raise e)
  end.

(** [try: m  except <class> as e: h e] where [catches e] tells whether [e]
    is an instance of the class. *)
Definition try_except {A} (m : M A) (catches : exn -> bool) (h : exn -> M A) : M A :=
  match m with
  | (t, Raise e) =>
      if catches e then let (t', r) := h e in ((t ++ t')%list, r) else (t, Raise e)
  | ok => ok
  end.

Definition trace_of {A} (m : M A) : list event := fst m.
Definition result_of {A} (m : M A) : outcome A := snd m.

Declare Scope tool_scope.
Delimit Scope tool_scope with tool.
Notation "x <- m ;; k" := (bind m (fun x => k))
  (at level 61, m at next level, right associativity) : tool_scope.
Notation "m ;;; k" := (bind m (fun _ => k))
  (at level 61, right associativity) : tool_scope.
Local Open Scope tool_scope.

(* ================================================================== *)
(** ** solution/servers/wikipedia_server.py                           *)
(* ================================================================== *)

Module WikipediaServer.
Import Py.

(** The text appended to content that was cut. *)
Definition truncation_marker : string := nl ++ nl ++ "[Content truncated...]".

Definition search_wikipedia (w : World) (query : string) (limit : Z) : M (list string) :=
  if is_empty query || is_empty (strip query) then
    raise (ValueError "Query cannot be empty")
  else if (limit <? 1) || (limit >? 10) then
    raise (ValueError "Limit must be between 1 and 10")
  else
    try_except
      (emit (HttpGet (strip query) limit) ;;;
       titles <- lift (requests_get w (strip query) limit) ;;
       ret titles)
      is_Exception
      (fun e =>
         if is_RequestException e then
           raise (ValueError ("Failed to search Wikipedia: " ++ exn_str e))
         else
           raise (ValueError ("Search failed: " ++ exn_str e))).

(** The handler shared by the three article tools:
    [if "not found" in str(e).lower(): raise] and otherwise a
    [ValueError] with the tool's own prefix. *)
Definition reraise_not_found {A} (prefix : string) (e : exn) : M A :=
  if str_in "not found" (lower (exn_str e)) then raise e
  else raise (ValueError (prefix ++ exn_str e)).

(** [[s.strip() for s in summary.split(".") if s.strip()]] *)
Definition sentences_of (summary : string) : list string :=
  map strip (filter (fun s => negb (is_empty (strip s))) (split summary ".")).

Definition get_article_summary (w : World) (title : string) (sentences : Z) : M string :=
  if is_empty title || is_empty (strip title) then
    raise (ValueError "Article title cannot be empty")
  else if (sentences <? 1) || (sentences >? 10) then
    raise (ValueError "Sentences must be between 1 and 10")
  else
    try_except
      (emit (WikiPage (strip title)) ;;;
       let page := wiki_page w (strip title) in
       ex <- lift (page_exists page) ;;
       if negb ex then
         raise (ValueError ("Article '" ++ title ++ "' not found on Wikipedia"))
       else
         summary <- lift (page_summary page) ;;
         if is_empty summary then
           raise (ValueError ("No summary available for article '" ++ title ++ "'"))
         else
           let sentences_list := sentences_of summary in
           let limited_sentences := lslice_to sentences_list sentences in
           let result := join ". " limited_sentences in
           let result :=
             if negb (is_empty result) && negb (endswith result ".")
             then result ++ "." else result in
           ret result)
      is_Exception
      (reraise_not_found "Failed to get article summary: ").

(** The truncation step of [get_article_content], for content longer than
    [max_length]. *)
Definition truncate (content : string) (max_length : Z) : string :=
  let truncated := slice_to content max_length in
  let last_period := rfind truncated "." in
  let last_newline := rfind truncated nl in
  let break_point := Z.max last_period last_newline in
  if int_gt_float break_point (fmul (float_of_int max_length) float_0_8) then
    slice_to content (break_point + 1) ++ nl ++ nl ++ "[Content truncated...]"
  else
    truncated ++ "..." ++ nl ++ nl ++ "[Content truncated...]".

Definition get_article_content (w : World) (title : string) (max_length : Z) : M string :=
  if is_empty title || is_empty (strip title) then
    raise (ValueError "Article title cannot be empty")
  else if (max_length <? 100) || (max_length >? 10000) then
    raise (ValueError "max_length must be between 100 and 10000")
  else
    try_except
      (emit (WikiPage (strip title)) ;;;
       let page := wiki_page w (strip title) in
       ex <- lift (page_exists page) ;;
       if negb ex then
         raise (ValueError ("Article '" ++ title ++ "' not found on Wikipedia"))
       else
         content <- lift (page_text page) ;;
         if is_empty content then
           raise (ValueError ("No content available for article '" ++ title ++ "'"))
         else
           let content :=
             if len content >? max_length then truncate content max_length
             else content in
           ret content)
      is_Exception
      (reraise_not_found "Failed to get article content: ").

(** The dictionary returned by [get_article_info]. *)
Record ArticleInfo : Type := {
  info_title : string;
  info_url : string;
  info_summary_length : Z;
  info_content_length : Z;
  info_categories : list string;
  info_links_count : Z
}.

Definition get_article_info (w : World) (title : string) : M ArticleInfo :=
  if is_empty title || is_empty (strip title) then
    raise (ValueError "Article title cannot be empty")
  else
    try_except
      (emit (WikiPage (strip title)) ;;;
       let page := wiki_page w (strip title) in
       ex <- lift (page_exists page) ;;
       if negb ex then
         raise (ValueError ("Article '" ++ title ++ "' not found on Wikipedia"))
       else
         t <- lift (page_title page) ;;
         u <- lift (page_fullurl page) ;;
         s <- lift (page_summary page) ;;
         c <- lift (page_text page) ;;
         cats <- lift (page_categories page) ;;
         n <- lift (page_links page) ;;
         ret {| info_title := t;
                info_url := u;
                info_summary_length := len s;
                info_content_length := len c;
                info_categories := lslice_to cats 10;
                info_links_count := n |})
      is_Exception
      (reraise_not_found "Failed to get article info: ").

End WikipediaServer.

(* ================================================================== *)
(** ** solution/advanced/wikipedia_server.py                          *)
(* ================================================================== *)

Module AdvancedServer.
Import Py.
Import WikipediaServer.

(** [[f"{i + 1}. {title}" for i, title in enumerate(search_results)]],
    with [i] the index of the head of [l]. *)
Fixpoint option_lines (i : Z) (l : list string) : list string :=
  match l with
  | [] => []
  | title :: rest =>
      (str_of_int (i + 1) ++ ". " ++ title) :: option_lines (i + 1) rest
  end.

Definition elicit_message (query : string) (search_results : list string) : string :=
  "Found " ++ str_of_int (llen search_results) ++ " Wikipedia articles for '"
  ++ query ++ "':" ++ nl ++ nl ++ join nl (option_lines 0 search_results)
  ++ nl ++ nl ++ "Which article would you like?".

(** The loop [for title in search_results: if user_input.lower() in
    title.lower(): ... return]: the title at which it returns, if any. *)
Fixpoint first_title_match (user_input : string) (search_results : list string)
  : option string :=
  match search_results with
  | [] => None
  | title :: rest =>
      if str_in (lower user_input) (lower title) then Some title
      else first_title_match user_input rest
  end.

Definition invalid_selection (user_input : string) (search_results : list string)
  : string :=
  "Invalid selection '" ++ user_input
  ++ "'. Please enter a title name or number 1-"
  ++ str_of_int (llen search_results) ++ ".".

(** What a module-level name decorated with [@mcp.tool()] is bound to.
    The decorator of [mcp.server.fastmcp], which the server module uses,
    hands the function back (its [test_server] calls the names directly);
    a registration with [fastmcp], and the mocks of the tests, bind an
    object that holds the function as its attribute [fn]. *)
Inductive binding (F : Type) : Type :=
| PlainFunction (f : F)
| ToolObject (fn : F).
Arguments PlainFunction {F} f.
Arguments ToolObject {F} fn.

(** [name.fn] *)
Definition attr_fn {F} (name : binding F) : outcome F :=
  match name with
  | PlainFunction _ => Raise (AttributeError "'function' object has no attribute 'fn'")
  | ToolObject fn => Return fn
  end.

Definition SearchTool : Type := World -> string -> Z -> M (list string).
Definition SummaryTool : Type := World -> string -> Z -> M string.

(** The [try: ... except ValueError: pass] block of the number fall-back:
    [Some s] when the block returns [s] from the function, [None] when
    control reaches the statement after it.  [get_article_summary] is the
    binding of that name in the module. *)
Definition number_selection (get_article_summary : binding SummaryTool)
           (w : World) (user_input : string) (search_results : list string)
  : M (option string) :=
  try_except
    (choice_num <- match int user_input with
                   | Some n => ret n
                   | None => raise (ValueError
                       ("invalid literal for int() with base 10: '" ++ user_input ++ "'"))
                   end ;;
     if (1 <=? choice_num) && (choice_num <=? llen search_results) then
       let selected_title := nth (Z.to_nat (choice_num - 1)) search_results "" in
       emit (CtxInfo ("User selected by number: " ++ selected_title)) ;;;
       fn <- lift (attr_fn get_article_summary) ;;
       s <- fn w selected_title 3 ;;
       ret (Some s)
     else ret None)
    is_ValueError
    (fun _ => ret None).

(** The body of [if result.action == "accept":], from the reply [data]
    to the value the tool returns. *)
Definition accepted_selection (get_article_summary : binding SummaryTool)
           (w : World) (data : string) (search_results : list string) : M string :=
  let user_input := strip data in
  match first_title_match user_input search_results with
  | Some title =>
      emit (CtxInfo ("User selected by title match: " ++ title)) ;;;
      fn <- lift (attr_fn get_article_summary) ;;
      fn w title 3
  | None =>
      r <- number_selection get_article_summary w user_input search_results ;;
      match r with
      | Some s => ret s
      | None => ret (invalid_selection user_input search_results)
      end
  end.

(** The body of [interactive_search], with the bindings of the two names
    it reads from the module: [search_wikipedia] and [get_article_summary]. *)
Definition interactive_search_in
           (search_wikipedia : binding SearchTool)
           (get_article_summary : binding SummaryTool)
           (w : World) (query : string) : M string :=
  if is_empty query || is_empty (strip query) then
    raise (ValueError "Query cannot be empty")
  else
    emit (CtxInfo ("Interactive search for: " ++ query)) ;;;
    fn <- lift (attr_fn search_wikipedia) ;;
    search_results <- fn w query 8 ;;
    match search_results with
    | [] => ret ("No Wikipedia articles found for '" ++ query ++ "'")
    | [only] =>
        emit (CtxInfo "Only one result found, retrieving summary...") ;;;
        fn <- lift (attr_fn get_article_summary) ;;
        fn w only 3
    | _ =>
        let msg := elicit_message query search_results in
        emit (CtxElicit msg) ;;;
        result <- lift (ctx_elicit w msg) ;;
        match result with
        | AcceptedElicitation data =>
            accepted_selection get_article_summary w data search_results
        | _ => ret "Search cancelled or invalid selection."
        end
    end.

(** [interactive_search] in the module as it is shipped: both names come
    from [solution.servers.wikipedia_server], where they are the functions
    themselves. *)
Definition interactive_search (w : World) (query : string) : M string :=
  interactive_search_in
    (PlainFunction WikipediaServer.search_wikipedia)
    (PlainFunction WikipediaServer.get_article_summary) w query.

(** [interactive_search] when both names are bound to tool objects holding
    the server's functions as [fn]: what a registration with [fastmcp]
    gives, and what the tests of the repository set up with their mocks. *)
Definition interactive_search_with_tools (w : World) (query : string) : M string :=
  interactive_search_in
    (ToolObject WikipediaServer.search_wikipedia)
    (ToolObject WikipediaServer.get_article_summary) w query.

Definition get_article_with_progress (w : World) (title : string) (max_length : Z)
  : M string :=
  if is_empty title || is_empty (strip title) then
    raise (ValueError "Article title cannot be empty")
  else if (max_length <? 100) || (max_length >? 10000) then
    raise (ValueError "max_length must be between 100 and 10000")
  else
    emit (CtxInfo ("Retrieving content for: " ++ title)) ;;;
    emit (CtxReportProgress 0 100) ;;;
    emit (WikiPage (strip title)) ;;;
    let page := wiki_page w (strip title) in
    ex <- lift (page_exists page) ;;
    if negb ex then
      raise (ValueError ("Article '" ++ title ++ "' not found on Wikipedia"))
    else
      emit (CtxReportProgress 25 100) ;;;
      content <- lift (page_text page) ;;
      if is_empty content then
        raise (ValueError ("No content available for article '" ++ title ++ "'"))
      else
        emit (CtxReportProgress 50 100) ;;;
        content <-
          (if len content >? max_length then
             emit (CtxInfo ("Content is " ++ str_of_int (len content)
                            ++ " chars, truncating to " ++ str_of_int max_length)) ;;;
             emit (CtxReportProgress 75 100) ;;;
             let truncated := slice_to content max_length in
             let last_period := rfind truncated "." in
             let last_newline := rfind truncated nl in
             let break_point := Z.max last_period last_newline in
             if int_gt_float break_point (fmul (float_of_int max_length) float_0_8) then
               ret (slice_to content (break_point + 1)
                    ++ nl ++ nl ++ "[Content truncated...]")
             else
               ret (truncated ++ "..." ++ nl ++ nl ++ "[Content truncated...]")
           else ret content) ;;
        emit (CtxReportProgress 100 100) ;;;
        emit (CtxInfo ("Retrieved content for: " ++ title ++ " ("
                       ++ str_of_int (len content) ++ " chars)")) ;;;
        ret content.

End AdvancedServer.

(* ================================================================== *)
(** ** solution/clients/cli_client.py                                 *)
(* ================================================================== *)

Module CliClient.
Import Py.

(** A message of the agent framework: only its kind and text matter. *)
Inductive ModelMessage : Type :=
| ModelRequest (content : string)
| ModelResponse (content : string).

Record AgentRunResult : Type := {
  output : string;
  new_messages : list ModelMessage;
  all_messages : list ModelMessage
}.

(** [agent.run(user_input, message_history=...)], awaited. *)
Definition Agent : Type := string -> list ModelMessage -> outcome AgentRunResult.

(** What the session writes to the console.  The constructors stand for
    the fixed texts of the source; [PrintHistory] is the table (or the
    "no history" line) drawn by [display_chat_history]. *)
Inductive console_output : Type :=
| PrintAgentNotInitialized
| PrintWelcome
| PrintBlank
| PrintThanks
| PrintHistory (last_result : option AgentRunResult)
| PrintHistoryCleared
| ProgressProcessing
| ProgressComplete
| ProgressFailed
| PrintAssistant (text : string)
| PrintGoodbye
| PrintError (e : string).

Inductive loop_ctl : Type := Break | Continue.

Definition get_message_history_for_next_run (last_result : option AgentRunResult)
  : list ModelMessage :=
  match last_result with
  | Some r => new_messages r
  | None => []
  end.

(** [x in [a, b, c]] for strings. *)
Definition str_mem (x : string) (l : list string) : bool :=
  existsb (String.eqb x) l.

(** The body of the [try] inside [while True], up to the first exception:
    console output so far, [self.last_result], and how the body ended. *)
Definition loop_body (agent : Agent) (last_result : option AgentRunResult)
           (input : outcome string)
  : list console_output * option AgentRunResult * outcome loop_ctl :=
  match input with
  | Raise e => ([], last_result, Raise e)
  | Return raw =>
      let user_input := strip raw in
      let user_input_lower := lower user_input in
      if str_mem user_input_lower ["quit"; "exit"; "q"] then
        ([PrintThanks], last_result, Return Break)
      else if str_mem user_input_lower ["history"; "hist"; "h"] then
        ([PrintHistory last_result; PrintBlank], last_result, Return Continue)
      else if str_mem user_input_lower ["clear"; "clear history"; "reset"] then
        ([PrintHistoryCleared; PrintBlank], None, Return Continue)
      else if is_empty user_input then
        ([], last_result, Return Continue)
      else
        let message_history := get_message_history_for_next_run last_result in
        match agent user_input message_history with
        | Return result =>
            ([ProgressProcessing; ProgressComplete;
              PrintBlank; PrintAssistant (output result); PrintBlank],
             Some result, Return Continue)
        | Raise e =>
            if is_Exception e then
              ([ProgressProcessing; ProgressFailed], last_result, Raise e)
            else
              ([ProgressProcessing], last_result, Raise e)
        end
  end.

(** One pass through [while True]: the body and the two [except] clauses.
    An exception that neither clause catches goes on out of the loop. *)
Definition chat_iteration (agent : Agent) (last_result : option AgentRunResult)
           (input : outcome string)
  : list console_output * option AgentRunResult * outcome loop_ctl :=
  match loop_body agent last_result input with
  | (out, st, Return ctl) => (out, st, Return ctl)
  | (out, st, Raise e) =>
      if is_KeyboardInterrupt e then
        ((out ++ [PrintGoodbye])%list, st, Return Break)
      else if is_Exception e then
        ((out ++ [PrintError (exn_str e)])%list, st, Return Continue)
      else (out, st, Raise e)
  end.

(** How a run over a finite script of console inputs ends: the loop was
    left by [break], it is waiting for the next input, or an exception
    left it and goes on to the caller of [chat_session]. *)
Inductive session_end : Type :=
| Terminated (last_result : option AgentRunResult)
| AwaitingInput (last_result : option AgentRunResult)
| Propagated (e : exn) (last_result : option AgentRunResult).

(** [while True] over the successive results of [console.input]. *)
Fixpoint chat_loop (agent : Agent) (last_result : option AgentRunResult)
         (inputs : list (outcome string)) : list console_output * session_end :=
  match inputs with
  | [] => ([], AwaitingInput last_result)
  | input :: rest =>
      match chat_iteration agent last_result input with
      | (out, st, Return Break) => (out, Terminated st)
      | (out, st, Return Continue) =>
          let (out', fin) := chat_loop agent st rest in
          ((out ++ out')%list, fin)
      | (out, st, Raise e) => (out, Propagated e st)
      end
  end.

Definition chat_session (agent : option Agent) (last_result : option AgentRunResult)
           (inputs : list (outcome string)) : list console_output * session_end :=
  match agent with
  | None => ([PrintAgentNotInitialized], Terminated last_result)
  | Some a =>
      let (out, fin) := chat_loop a last_result inputs in
      ((PrintWelcome :: PrintBlank :: out)%list, fin)
  end.

End CliClient.

(* ================================================================== *)
(** ** Auxiliary definitions used by the statements and proofs        *)
(* ================================================================== *)

Module Aux.
Import Py.

(** The last character of a string. *)
Fixpoint last_char (s : string) : option ascii :=
  match s with
  | EmptyString => None
  | String c EmptyString => Some c
  | String _ r => last_char r
  end.

(** [char_in c s]: the character [c] occurs in [s]. *)
Fixpoint char_in (c : ascii) (s : string) : Prop :=
  match s with
  | EmptyString => False
  | String d r => d = c \/ char_in c r
  end.

(** [n] copies of the character [c]. *)
Fixpoint replicate (n : nat) (c : ascii) : string :=
  match n with
  | O => EmptyString
  | S k => String c (replicate k c)
  end.

(** For one [max_length]: the product [max_length * 0.8] is a positive
    finite double whose integer part is the integer part of
    [4 * max_length / 5]. *)
Definition threshold_ok (max_length : Z) : bool :=
  match fmul (float_of_int max_length) float_0_8 with
  | S754_finite false m e =>
      (e <? 0) && (Z.pos m / 2 ^ (- e) =? 4 * max_length / 5)
  | _ => false
  end.

(** A page that exists, with the given summary and body text. *)
Definition page_with (summary text : string) : WikipediaPage :=
  {| page_exists := Return true;
     page_title := Return "Article";
     page_fullurl := Return "https://en.wikipedia.org/wiki/Article";
     page_summary := Return summary;
     page_text := Return text;
     page_categories := Return [];
     page_links := Return 0 |}.

(** A page the source reports as missing. *)
Definition missing_page : WikipediaPage :=
  {| page_exists := Return false;
     page_title := Return "";
     page_fullurl := Return "";
     page_summary := Return "";
     page_text := Return "";
     page_categories := Return [];
     page_links := Return 0 |}.

(** A world with fixed search results, one page for every title and a
    fixed answer to the elicitation. *)
Definition world_with (titles : list string) (page : WikipediaPage)
           (reply : ElicitationResult) : World :=
  {| requests_get := fun _ _ => Return titles;
     wiki_page := fun _ => page;
     ctx_elicit := fun _ => Return reply |}.

Definition python_titles : list string :=
  ["Python (programming language)"; "Python (mythology)"; "Python (snake)"].

End Aux.

(* ================================================================== *)
(** ** solution/advanced/wikipedia_server.py: smart_summarize         *)
(* ================================================================== *)

Module SmartSummarize.
Import Py.

(** [ctx.sample(prompt, max_tokens=n)], awaited: the [text] of the answer. *)
Definition Sampler : Type := string -> Z -> outcome string.

(** The calls of this tool: those of the other tools, and the sampling. *)
Inductive call : Type :=
| ServerCall (ev : event)
| CtxSample (prompt : string) (max_tokens : Z).

Definition sample_prompt (raw_text : string) : string :=
  "Make this Wikipedia summary more concise and engaging while preserving key facts:"
  ++ nl ++ nl ++ raw_text.

(** The title is used as it comes: this tool has no check for an empty one. *)
Definition smart_summarize (w : World) (ctx_sample : Sampler) (title : string)
  : list call * outcome string :=
  let started :=
    [ServerCall (CtxInfo ("Creating enhanced summary for: " ++ title));
     ServerCall (WikiPage (strip title))] in
  let page := wiki_page w (strip title) in
  match page_exists page with
  | Raise e => (started, Raise e)
  | Return false =>
      (started, Raise (ValueError ("Article '" ++ title ++ "' not found on Wikipedia")))
  | Return true =>
      match page_text page with
      | Raise e => (started, Raise e)
      | Return raw_text =>
          let prompt := sample_prompt raw_text in
          match ctx_sample prompt 800 with
          | Raise e => ((started ++ [CtxSample prompt 800])%list, Raise e)
          | Return enhanced_text =>
              ((started ++
                [CtxSample prompt 800;
                 ServerCall (CtxInfo ("Enhanced summary created for: " ++ title))])%list,
               Return enhanced_text)
          end
      end
  end.

End SmartSummarize.

(* ================================================================== *)
(** ** solution/clients/cli_client.py: the chat history display       *)
(* ================================================================== *)

Module ChatHistory.
Import Py.

(** A part of a message of the agent framework: the name of its class, its
    [content] attribute when it has one (a [str], as the display takes it
    to be), its [timestamp] when it has one. *)
Record Part : Type := {
  class_name : string;
  part_content : option string;
  part_timestamp : option Z
}.

(** A message is a request or a response, each a sequence of parts. *)
Inductive Message : Type :=
| RequestMessage (parts : list Part)
| ResponseMessage (parts : list Part) (timestamp : option Z).

Record ChatMessage : Type := {
  role : string;
  content : string;
  timestamp : Z
}.

(** [hasattr(part, "content") and part.content] *)
Definition has_content (part : Part) : bool :=
  match part_content part with
  | Some c => negb (is_empty c)
  | None => false
  end.

(** [part.content], read after [has_content]. *)
Definition content_of (part : Part) : string :=
  match part_content part with
  | Some c => c
  | None => ""
  end.

(** [getattr(x, "timestamp", datetime.now())] *)
Definition timestamp_or (now : Z) (t : option Z) : Z :=
  match t with
  | Some v => v
  | None => now
  end.

(** The inner loop over the parts of a request. *)
Fixpoint user_messages (now : Z) (parts : list Part) : list ChatMessage :=
  match parts with
  | [] => []
  | part :: rest =>
      if has_content part then
        if String.eqb (class_name part) "UserPromptPart" then
          {| role := "user"; content := content_of part;
             timestamp := timestamp_or now (part_timestamp part) |}
          :: user_messages now rest
        else user_messages now rest
      else user_messages now rest
  end.

(** The inner loop over the parts of a response: [content_parts]. *)
Fixpoint text_parts (parts : list Part) : list string :=
  match parts with
  | [] => []
  | part :: rest =>
      if has_content part then
        if String.eqb (class_name part) "TextPart" then
          content_of part :: text_parts rest
        else text_parts rest
      else text_parts rest
  end.

(** [ChatMessage.convert_messages_for_display]; [now] is the reading of the
    clock used where a timestamp is missing. *)
Fixpoint convert_messages_for_display (now : Z) (messages : list Message)
  : list ChatMessage :=
  match messages with
  | [] => []
  | RequestMessage parts :: rest =>
      (user_messages now parts ++ convert_messages_for_display now rest)%list
  | ResponseMessage parts t :: rest =>
      let content_parts := text_parts parts in
      match content_parts with
      | [] => convert_messages_for_display now rest
      | _ :: _ =>
          {| role := "assistant"; content := join " " content_parts;
             timestamp := timestamp_or now t |}
          :: convert_messages_for_display now rest
      end
  end.

(** The message cell of a table row: [content[:77] + "..."] above 80
    characters. *)
Definition message_cell (content : string) : string :=
  if len content >? 80 then slice_to content 77 ++ "..." else content.

(** A row of the table: time, colour, role (shown title-cased), cell. *)
Record Row : Type := {
  row_time : Z;
  row_color : string;
  row_role : string;
  row_cell : string
}.

Definition row_of (msg : ChatMessage) : Row :=
  {| row_time := timestamp msg;
     row_color := if String.eqb (role msg) "user" then "cyan" else "green";
     row_role := role msg;
     row_cell := message_cell (content msg) |}.

Inductive history_view : Type :=
| NoChatHistoryYet
| HistoryTable (rows : list Row).

(** [display_chat_history], with [last_result] given by the messages its
    [all_messages()] returns. *)
Definition display_chat_history (now : Z) (last_result : option (list Message))
  : history_view :=
  match last_result with
  | None => NoChatHistoryYet
  | Some all_messages =>
      match convert_messages_for_display now all_messages with
      | [] => NoChatHistoryYet
      | display_messages => HistoryTable (map row_of display_messages)
      end
  end.

End ChatHistory.

(* ================================================================== *)
(** ** solution/clients/config.py                                     *)
(* ================================================================== *)

Module Config.
Import Py.

(** What [get_wikipedia_server_path] finds at the server's path. *)
Inductive path_kind : Type := Missing | Directory | RegularFile.

(** The process environment and the one path the module looks at. *)
Record Environment : Type := {
  OPENAI_API_KEY : option string;
  OLLAMA_MODEL : option string;
  OLLAMA_BASE_URL : option string;
  server_path : string;
  server_path_kind : path_kind
}.

Definition get_openai_api_key (env : Environment) : option string :=
  OPENAI_API_KEY env.

(** [not api_key] for the result of [os.getenv]. *)
Definition falsy (v : option string) : bool :=
  match v with
  | Some s => is_empty s
  | None => true
  end.

Definition is_set (v : option string) : bool :=
  match v with
  | Some _ => true
  | None => false
  end.

Definition test_ollama_env_variables (env : Environment) : bool :=
  forallb (fun b : bool => b) [is_set (OLLAMA_MODEL env); is_set (OLLAMA_BASE_URL env)].

Inductive path_result : Type :=
| PathFound (p : string)
| FileNotFoundError (msg : string).

Definition get_wikipedia_server_path (env : Environment) : path_result :=
  match server_path_kind env with
  | Missing => FileNotFoundError ("Wikipedia server not found at " ++ server_path env)
  | _ => PathFound (server_path env)
  end.

(** [server_path.is_file()] *)
Definition is_file (env : Environment) : bool :=
  match server_path_kind env with
  | RegularFile => true
  | _ => false
  end.

(** [validate_environment]: the errors shown in the panel and the answer. *)
Definition validate_environment (env : Environment) : list string * bool :=
  let errors : list string := [] in
  let api_key := get_openai_api_key env in
  let errors :=
    if falsy api_key then
      if negb (test_ollama_env_variables env) then
        (errors
           ++ ["OLLAMA_MODEL and OLLAMA_BASE_URL environment variables are not set"]
           ++ ["OPENAI_API_KEY environment variable is not set"])%list
      else errors
    else if len (match api_key with Some k => k | None => "" end) <? 10 then
      (errors ++ ["OPENAI_API_KEY appears to be invalid (too short)"])%list
    else errors in
  let errors :=
    match get_wikipedia_server_path env with
    | PathFound p =>
        if negb (is_file env) then
          (errors ++ [("Wikipedia server file not found: " ++ p)%string])%list
        else errors
    | FileNotFoundError msg => (errors ++ [msg])%list
    end in
  match errors with
  | [] => ([], true)
  | _ :: _ => (errors, false)
  end.

(** The ["model"] entry of the agent configuration. *)
Inductive model_choice : Type :=
| OpenAIModelName (name : string)
| OllamaModel (model_name : option string) (base_url : string).

(** [get_ollama_model]: [os.getenv("OLLAMA_BASE_URL") + "/v1"] is a
    [TypeError] when the variable is not set. *)
Definition get_ollama_model (env : Environment) : outcome model_choice :=
  match OLLAMA_BASE_URL env with
  | Some url => Return (OllamaModel (OLLAMA_MODEL env) (url ++ "/v1"))
  | None =>
      Raise (OtherException "unsupported operand type(s) for +: 'NoneType' and 'str'")
  end.

Record AgentConfig : Type := {
  model : model_choice;
  system_prompt : string;
  timeout : Z
}.

(** [get_agent_config]; [get_system_prompt] is the outcome of loading the
    system template. *)
Definition get_agent_config (env : Environment) (get_system_prompt : outcome string)
  : outcome AgentConfig :=
  match (if negb (falsy (get_openai_api_key env))
         then Return (OpenAIModelName "openai:gpt-4o-mini")
         else get_ollama_model env) with
  | Raise e => Raise e
  | Return m =>
      match get_system_prompt with
      | Raise e => Raise e
      | Return p => Return {| model := m; system_prompt := p; timeout := 30 |}
      end
  end.

End Config.

(* ================================================================== *)
(** ** Observations on strings and traces used by further statements  *)
(* ================================================================== *)

Module Observe.
Import Py.

(** The number of occurrences of a character. *)
Fixpoint count_char (c : ascii) (s : string) : nat :=
  match s with
  | EmptyString => O
  | String d r => if Ascii.eqb d c then S (count_char c r) else count_char c r
  end.

(** The progress values reported, in order. *)
Fixpoint progress_reports (t : list event) : list Z :=
  match t with
  | [] => []
  | CtxReportProgress p _ :: rest => p :: progress_reports rest
  | _ :: rest => progress_reports rest
  end.

(** The titles looked up at the article source, in order. *)
Fixpoint lookups (t : list event) : list string :=
  match t with
  | [] => []
  | WikiPage title :: rest => title :: lookups rest
  | _ :: rest => lookups rest
  end.

(** The prompts sent to the user, in order. *)
Fixpoint elicitations (t : list event) : list string :=
  match t with
  | [] => []
  | CtxElicit msg :: rest => msg :: elicitations rest
  | _ :: rest => elicitations rest
  end.



(** What the [except Exception] handler of the article tools makes of an
    exception raised inside their [try] block. *)
Definition handled {A} (prefix : string) (e : exn) : outcome A :=
  if is_Exception e then
    if str_in "not found" (lower (exn_str e)) then Raise e
    else Raise (ValueError (prefix ++ exn_str e))
  else Raise e.

(** The session state a run of the chat loop ends with. *)
Definition state_of (fin : CliClient.session_end) : option CliClient.AgentRunResult :=
  match fin with
  | CliClient.Terminated st | CliClient.AwaitingInput st
  | CliClient.Propagated _ st => st
  end.

(** The input of an iteration is a quit command. *)
Definition quits (input : outcome string) : Prop :=
  exists raw, input = Return raw /\
              CliClient.str_mem (Py.lower (Py.strip raw)) ["quit"; "exit"; "q"] = true.

(** [e] is raised inside the [try] block of an iteration: by reading the
    input, or by the agent call the input is forwarded to. *)
Definition raised_in_iteration (agent : CliClient.Agent)
           (st : option CliClient.AgentRunResult) (input : outcome string)
           (e : exn) : Prop :=
  input = Raise e \/
  exists raw,
    input = Return raw /\
    CliClient.str_mem (Py.lower (Py.strip raw)) ["quit"; "exit"; "q"] = false /\
    CliClient.str_mem (Py.lower (Py.strip raw)) ["history"; "hist"; "h"] = false /\
    CliClient.str_mem (Py.lower (Py.strip raw)) ["clear"; "clear history"; "reset"]
    = false /\
    Py.is_empty (Py.strip raw) = false /\
    agent (Py.strip raw) (CliClient.get_message_history_for_next_run st) = Raise e.

(** The samplings of the client's model, in order. *)
Fixpoint samplings (calls : list SmartSummarize.call) : list (string * Z) :=
  match calls with
  | [] => []
  | SmartSummarize.CtxSample prompt n :: rest => (prompt, n) :: samplings rest
  | SmartSummarize.ServerCall _ :: rest => samplings rest
  end.

End Observe.

(** Unfold the monad operations of a tool body. *)
Ltac run_tool :=
  unfold try_except, bind, emit, lift, ret, raise, result_of, trace_of;
  cbn [fst snd negb AdvancedServer.attr_fn].


(* ================================================================== *)
(** ** Facts about the built-ins                                      *)
(* ================================================================== *)

Import Py Aux.

Lemma length_app (a b : string) :
  String.length (a ++ b) = (String.length a + String.length b)%nat.
Proof.
  induction a as [|c a IH]; simpl; [reflexivity | now rewrite IH].
Qed.

Lemma len_app (a b : string) : len (a ++ b) = len a + len b.
Proof. unfold len. rewrite length_app. lia. Qed.

Lemma length_substring0 (n : nat) (s : string) :
  String.length (substring 0 n s) = Nat.min n (String.length s).
Proof.
  revert s; induction n as [|n IH]; intros [|c s]; simpl; try reflexivity.
  now rewrite IH.
Qed.

Lemma len_nonneg (s : string) : 0 <= len s.
Proof. unfold len. lia. Qed.

Lemma len_slice_to (s : string) (n : Z) :
  0 <= n -> len (slice_to s n) = Z.min n (len s).
Proof.
  intros Hn. unfold slice_to.
  destruct (Z.ltb_spec n 0) as [H|_]; [lia|].
  unfold len. rewrite length_substring0. lia.
Qed.

Lemma is_empty_len (s : string) : is_empty s = true <-> len s = 0.
Proof.
  destruct s; unfold len; simpl; split; intros H; try reflexivity; try discriminate; lia.
Qed.

Lemma strip_empty_title (s : string) :
  is_empty (strip s) = false -> is_empty s || is_empty (strip s) = false.
Proof.
  intros H. rewrite H. destruct s; [discriminate H | reflexivity].
Qed.

Lemma startswith_nonempty_nil (sub : string) :
  is_empty sub = false -> startswith EmptyString sub = false.
Proof. destruct sub; [discriminate | reflexivity]. Qed.

(** [rfind] answers [-1] or an index inside the string. *)
Lemma rfind_at_bounds (sub s : string) (i : Z) :
  is_empty sub = false -> 0 <= i ->
  -1 <= rfind_at sub s i < i + len s.
Proof.
  intros Hsub. revert i. induction s as [|c s IH]; intros i Hi.
  - cbn [rfind_at]. rewrite (startswith_nonempty_nil _ Hsub). unfold len; simpl. lia.
  - cbn [rfind_at].
    specialize (IH (i + 1) ltac:(lia)).
    assert (Hl : len (String c s) = len s + 1) by (unfold len; simpl; lia).
    rewrite Hl.
    cbv zeta.
    pose proof (len_nonneg s).
    destruct (startswith (String c s) sub); lia.
Qed.

Lemma rfind_bounds (s sub : string) :
  is_empty sub = false -> -1 <= rfind s sub < len s.
Proof.
  intros H. unfold rfind.
  pose proof (rfind_at_bounds sub s 0 H ltac:(lia)). lia.
Qed.

Lemma endswith_app (a b : string) : endswith (a ++ b) b = true.
Proof.
  induction a as [|c a IH].
  - cbn [append]. destruct b; cbn [endswith];
      rewrite String.eqb_refl; reflexivity.
  - cbn [append endswith]. rewrite IH. apply orb_true_r.
Qed.

Lemma endswith_app_r (a b suffix : string) :
  endswith b suffix = true -> endswith (a ++ b) suffix = true.
Proof.
  intros H. induction a as [|c a IH]; [exact H|].
  cbn [append endswith]. rewrite IH. apply orb_true_r.
Qed.

Lemma prefix_app (a b : string) : String.prefix a (a ++ b) = true.
Proof.
  induction a as [|c a IH]; simpl.
  - destruct b; reflexivity.
  - destruct (ascii_dec c c) as [_|N]; [exact IH | now elim N].
Qed.

Lemma str_in_app_l (sub a s : string) :
  str_in sub s = true -> str_in sub (a ++ s) = true.
Proof.
  intros H. induction a as [|c a IH]; [exact H|].
  cbn [append str_in]. rewrite IH. apply orb_true_r.
Qed.

Lemma str_in_here (sub b : string) : str_in sub (sub ++ b) = true.
Proof.
  destruct (sub ++ b) eqn:E; cbn [str_in]; unfold startswith;
    rewrite <- E, prefix_app; reflexivity.
Qed.

(** [sub in a + sub + b] *)
Lemma str_in_middle (sub a b : string) : str_in sub (a ++ sub ++ b) = true.
Proof. apply str_in_app_l, str_in_here. Qed.

Lemma lower_app (a b : string) : lower (a ++ b) = lower a ++ lower b.
Proof.
  induction a as [|c a IH]; simpl; [reflexivity | now rewrite IH].
Qed.

(** *** The 80% test

    On the validated range, [break_point > max_length * 0.8] computed in
    binary64 agrees with the exact comparison [5 * break_point > 4 * max_length]. *)

Lemma ltb_scaled (v n k : Z) : 0 < k -> (v <? n * k) = (v / k <? n).
Proof.
  intros Hk.
  pose proof (Z.div_mod v k ltac:(lia)) as Hd.
  pose proof (Z.mod_pos_bound v k Hk) as Hm.
  destruct (Z.ltb_spec v (n * k)), (Z.ltb_spec (v / k) n); try reflexivity; nia.
Qed.

Lemma threshold_ok_range :
  forallb (fun n => threshold_ok (Z.of_nat n)) (seq 100 (Z.to_nat 9901)) = true.
Proof. vm_compute. reflexivity. Qed.

Lemma threshold_ok_valid (max_length : Z) :
  100 <= max_length <= 10000 -> threshold_ok max_length = true.
Proof.
  intros H.
  pose proof threshold_ok_range as Hall.
  rewrite forallb_forall in Hall.
  specialize (Hall (Z.to_nat max_length)).
  rewrite Z2Nat.id in Hall by lia.
  apply Hall. apply in_seq. lia.
Qed.

Lemma int_gt_float_80_percent (max_length break_point : Z) :
  100 <= max_length <= 10000 ->
  int_gt_float break_point (fmul (float_of_int max_length) float_0_8)
  = (4 * max_length <? 5 * break_point).
Proof.
  intros H. pose proof (threshold_ok_valid _ H) as Hok.
  unfold threshold_ok in Hok.
  destruct (fmul (float_of_int max_length) float_0_8) as [ | | |s m e];
    try discriminate.
  destruct s; [discriminate|].
  apply andb_true_iff in Hok. destruct Hok as [He Hq].
  apply Z.eqb_eq in Hq.
  unfold int_gt_float. rewrite He.
  assert (Hp : 0 < 2 ^ (- e)).
  { apply Z.pow_pos_nonneg; [lia|]. apply Z.ltb_lt in He. lia. }
  rewrite (ltb_scaled _ _ _ Hp), Hq.
  rewrite <- (ltb_scaled (4 * max_length) break_point 5) by lia.
  f_equal. lia.
Qed.

(** *** The built-ins on small inputs *)

Example split_keeps_empty_pieces :
  split "a.b..c." "." = ["a"; "b"; ""; "c"; ""] /\ split "" "." = [""].
Proof. split; reflexivity. Qed.

Example strip_both_ends : strip ("  a b " ++ nl) = "a b".
Proof. reflexivity. Qed.

Example rfind_last_or_minus_one : rfind "a.b.c" "." = 3 /\ rfind "abc" "." = -1.
Proof. split; reflexivity. Qed.

Example int_accepts :
  int " 12 " = Some 12 /\ int "+1_0" = Some 10 /\ int "-007" = Some (-7).
Proof. repeat split; reflexivity. Qed.

Example int_refuses :
  int "" = None /\ int "-" = None /\ int "1__0" = None /\ int "2nd" = None.
Proof. repeat split; reflexivity. Qed.

(** The literal is the correctly rounded quotient 4/5. *)
Example float_0_8_nearest :
  SFdiv prec emax (float_of_int 4) (float_of_int 5) = float_0_8.
Proof. reflexivity. Qed.

Example eighty_percent_of_100 :
  int_gt_float 80 (fmul (float_of_int 100) float_0_8) = false /\
  int_gt_float 81 (fmul (float_of_int 100) float_0_8) = true.
Proof. split; reflexivity. Qed.

(* ================================================================== *)
(** ** Running the tools                                              *)
(* ================================================================== *)

Import WikipediaServer.

Lemma range_check_passes (lo hi n : Z) :
  lo <= n <= hi -> (n <? lo) || (n >? hi) = false.
Proof.
  intros H. rewrite Z.gtb_ltb. apply orb_false_iff.
  split; apply Z.ltb_ge; lia.
Qed.

Lemma range_check_fails (lo hi n : Z) :
  n < lo \/ hi < n -> (n <? lo) || (n >? hi) = true.
Proof.
  intros H. rewrite Z.gtb_ltb. apply orb_true_iff.
  destruct H; [left | right]; apply Z.ltb_lt; lia.
Qed.

(** The message of the not-found error always triggers the bare [raise]. *)
Lemma not_found_message_reraised (title : string) :
  str_in "not found"
         (lower ("Article '" ++ title ++ "' not found on Wikipedia")) = true.
Proof.
  rewrite !lower_app.
  change (lower "' not found on Wikipedia")
    with ("' " ++ "not found" ++ " on wikipedia").
  do 2 apply str_in_app_l. apply str_in_middle.
Qed.

(** [get_article_content] on an existing article with a body. *)
Lemma get_article_content_found (w : World) (title content : string) (max_length : Z) :
  is_empty (strip title) = false ->
  100 <= max_length <= 10000 ->
  page_exists (wiki_page w (strip title)) = Return true ->
  page_text (wiki_page w (strip title)) = Return content ->
  is_empty content = false ->
  get_article_content w title max_length
  = ([WikiPage (strip title)],
     Return (if len content >? max_length then truncate content max_length
             else content)).
Proof.
  intros Ht Hr Hex Htext Hne.
  unfold get_article_content.
  rewrite (strip_empty_title _ Ht), (range_check_passes _ _ _ Hr).
  run_tool. rewrite Hex. cbn [negb]. rewrite Htext, Hne. reflexivity.
Qed.

Lemma get_article_with_progress_result (w : World) (title content : string)
      (max_length : Z) :
  is_empty (strip title) = false ->
  100 <= max_length <= 10000 ->
  page_exists (wiki_page w (strip title)) = Return true ->
  page_text (wiki_page w (strip title)) = Return content ->
  is_empty content = false ->
  result_of (AdvancedServer.get_article_with_progress w title max_length)
  = Return (if len content >? max_length then truncate content max_length
            else content).
Proof.
  intros Ht Hr Hex Htext Hne.
  unfold AdvancedServer.get_article_with_progress.
  rewrite (strip_empty_title _ Ht), (range_check_passes _ _ _ Hr).
  run_tool. rewrite Hex. cbn [negb]. rewrite Htext, Hne.
  unfold truncate.
  destruct (len content >? max_length); [|reflexivity].
  destruct (int_gt_float _ _); reflexivity.
Qed.

Lemma long_content_nonempty (content : string) (max_length : Z) :
  100 <= max_length -> len content > max_length -> is_empty content = false.
Proof.
  intros H1 H2. destruct (is_empty content) eqn:E; [|reflexivity].
  apply is_empty_len in E. lia.
Qed.

Lemma truncate_cases (content : string) (max_length : Z) :
  100 <= max_length <= 10000 ->
  let truncated := slice_to content max_length in
  let break_point := Z.max (rfind truncated ".") (rfind truncated nl) in
  truncate content max_length
  = if 4 * max_length <? 5 * break_point
    then slice_to content (break_point + 1) ++ nl ++ nl ++ "[Content truncated...]"
    else truncated ++ "..." ++ nl ++ nl ++ "[Content truncated...]".
Proof.
  intros H. unfold truncate. cbv zeta.
  rewrite (int_gt_float_80_percent _ _ H). reflexivity.
Qed.

Lemma break_point_bounds (s : string) :
  -1 <= Z.max (rfind s ".") (rfind s nl) < len s.
Proof.
  pose proof (rfind_bounds s "." eq_refl).
  pose proof (rfind_bounds s nl eq_refl).
  lia.
Qed.

Lemma append_marker_assoc (a b : string) :
  a ++ b ++ nl ++ nl ++ "[Content truncated...]" = (a ++ b) ++ truncation_marker.
Proof.
  unfold truncation_marker.
  induction a as [|c a IH]; [reflexivity|].
  cbn [append]. cbn [append] in IH. now rewrite IH.
Qed.

(** [get_article_content] on content longer than [max_length]. *)
Lemma get_article_content_truncated (w : World) (title content : string)
      (max_length : Z) :
  is_empty (strip title) = false ->
  100 <= max_length <= 10000 ->
  page_exists (wiki_page w (strip title)) = Return true ->
  page_text (wiki_page w (strip title)) = Return content ->
  len content > max_length ->
  let truncated := slice_to content max_length in
  let break_point := Z.max (rfind truncated ".") (rfind truncated nl) in
  len truncated = max_length /\
  result_of (get_article_content w title max_length)
  = Return (if 4 * max_length <? 5 * break_point
            then slice_to content (break_point + 1)
                 ++ nl ++ nl ++ "[Content truncated...]"
            else truncated ++ "..." ++ nl ++ nl ++ "[Content truncated...]").
Proof.
  intros Ht Hr Hex Htext Hlong truncated break_point.
  assert (Hne : is_empty content = false)
    by (apply (long_content_nonempty content max_length); lia).
  assert (Hgt : (len content >? max_length) = true)
    by (rewrite Z.gtb_ltb; apply Z.ltb_lt; lia).
  split.
  - unfold truncated. rewrite len_slice_to by lia. lia.
  - rewrite (get_article_content_found w title content max_length) by assumption.
    unfold result_of; cbn [snd].
    rewrite Hgt, truncate_cases by assumption. reflexivity.
Qed.

(* ================================================================== *)
(** ** Content truncation (get_article_content, get_article_with_progress) *)
(* ================================================================== *)

(** C1. For content longer than [max_length], [get_article_content] (and
    its twin [get_article_with_progress]) takes the prefix of length
    [max_length], lets [break_point] be the larger of the last index of a
    period and the last index of a newline in that prefix, and returns the
    content cut at [break_point + 1] followed by the marker on a new
    paragraph when [break_point] exceeds 80% of [max_length], and otherwise
    the prefix followed by ["..."] and the marker. *)
Theorem C1_truncation_policy (w : World) (title content : string) (max_length : Z) :
  is_empty (strip title) = false ->
  100 <= max_length <= 10000 ->
  page_exists (wiki_page w (strip title)) = Return true ->
  page_text (wiki_page w (strip title)) = Return content ->
  len content > max_length ->
  let truncated := slice_to content max_length in
  let break_point := Z.max (rfind truncated ".") (rfind truncated nl) in
  let expected :=
    if 4 * max_length <? 5 * break_point
    then slice_to content (break_point + 1) ++ nl ++ nl ++ "[Content truncated...]"
    else truncated ++ "..." ++ nl ++ nl ++ "[Content truncated...]" in
  len truncated = max_length /\
  result_of (get_article_content w title max_length) = Return expected /\
  result_of (AdvancedServer.get_article_with_progress w title max_length)
  = Return expected.
Proof.
  intros Ht Hr Hex Htext Hlong truncated break_point expected.
  destruct (get_article_content_truncated w title content max_length
              Ht Hr Hex Htext Hlong) as [Hlen Hres].
  split; [exact Hlen|]. split; [exact Hres|].
  assert (Hne : is_empty content = false)
    by (apply (long_content_nonempty content max_length); lia).
  assert (Hgt : (len content >? max_length) = true)
    by (rewrite Z.gtb_ltb; apply Z.ltb_lt; lia).
  rewrite (get_article_with_progress_result w title content max_length)
    by assumption.
  rewrite Hgt, truncate_cases by assumption. reflexivity.
Qed.

Lemma C1_truncation_policy_witness :
  let w := world_with [] (page_with "" (replicate 90 "a" ++ "." ++ replicate 20 "b"))
                      DeclinedElicitation in
  result_of (get_article_content w "Article" 100)
  = Return (replicate 90 "a" ++ "." ++ nl ++ nl ++ "[Content truncated...]").
Proof.
  intros w.
  assert (Hr : 100 <= 100 <= 10000) by lia.
  exact (proj1 (proj2
    (C1_truncation_policy w "Article"
       (replicate 90 "a" ++ "." ++ replicate 20 "b") 100
       eq_refl Hr eq_refl eq_refl eq_refl))).
Defined.

(** C2, as stated, fails: with no period or newline in the prefix the
    result is the prefix, three dots and the marker, which is three
    characters longer than [max_length] plus the marker. *)
Lemma C2_length_bound_counterexample :
  let content := replicate 101 "a" in
  let w := world_with [] (page_with "" content) DeclinedElicitation in
  len content > 100 /\
  exists r, result_of (get_article_content w "Article" 100) = Return r /\
            len r = 127 /\
            100 + len truncation_marker < len r.
Proof.
  cbv zeta. split; [reflexivity|].
  eexists. split; [vm_compute; reflexivity|].
  split; reflexivity.
Qed.

(** C2, amended. For content longer than [max_length] the result ends with
    the truncation marker and its length is at most [max_length] plus the
    three dots of the hard cut plus the length of the marker; when the cut
    is made at the break point the length is at most [max_length] plus the
    length of the marker. *)
Theorem C2_truncated_length_bound (w : World) (title content : string)
        (max_length : Z) :
  is_empty (strip title) = false ->
  100 <= max_length <= 10000 ->
  page_exists (wiki_page w (strip title)) = Return true ->
  page_text (wiki_page w (strip title)) = Return content ->
  len content > max_length ->
  let truncated := slice_to content max_length in
  let break_point := Z.max (rfind truncated ".") (rfind truncated nl) in
  exists r,
    result_of (get_article_content w title max_length) = Return r /\
    endswith r truncation_marker = true /\
    len r <= max_length + len "..." + len truncation_marker /\
    (4 * max_length < 5 * break_point -> len r <= max_length + len truncation_marker).
Proof.
  intros Ht Hr Hex Htext Hlong truncated break_point.
  destruct (get_article_content_truncated w title content max_length
              Ht Hr Hex Htext Hlong) as [Hlen Hres].
  cbv zeta in Hlen, Hres. fold truncated in Hlen, Hres. fold break_point in Hres.
  eexists. split; [exact Hres|].
  pose proof (break_point_bounds truncated) as Hb. fold break_point in Hb.
  destruct (Z.ltb_spec (4 * max_length) (5 * break_point)) as [Hc|Hc].
  - change (slice_to content (break_point + 1) ++ nl ++ nl ++ "[Content truncated...]")
      with (slice_to content (break_point + 1) ++ truncation_marker).
    split; [apply endswith_app|].
    rewrite len_app, len_slice_to by lia.
    change (len "...") with 3. split; [lia|]. intros _. lia.
  - rewrite append_marker_assoc.
    split; [apply endswith_app|].
    rewrite !len_app, Hlen. split; [lia|]. intros Hc'. lia.
Qed.

Lemma C2_truncated_length_bound_witness :
  let w := world_with [] (page_with "" (replicate 101 "a")) DeclinedElicitation in
  exists r,
    result_of (get_article_content w "Article" 100) = Return r /\
    endswith r truncation_marker = true /\
    len r <= 100 + len "..." + len truncation_marker.
Proof.
  intros w.
  assert (Hr : 100 <= 100 <= 10000) by lia.
  destruct (C2_truncated_length_bound w "Article" (replicate 101 "a") 100
              eq_refl Hr eq_refl eq_refl eq_refl) as (r & H1 & H2 & H3 & _).
  exists r. auto.
Defined.

(** C3. Non-empty content no longer than [max_length] is returned as it is. *)
Theorem C3_short_content_unchanged (w : World) (title content : string)
        (max_length : Z) :
  is_empty (strip title) = false ->
  100 <= max_length <= 10000 ->
  page_exists (wiki_page w (strip title)) = Return true ->
  page_text (wiki_page w (strip title)) = Return content ->
  is_empty content = false ->
  len content <= max_length ->
  result_of (get_article_content w title max_length) = Return content.
Proof.
  intros Ht Hr Hex Htext Hne Hshort.
  rewrite (get_article_content_found w title content max_length) by assumption.
  unfold result_of; cbn [snd].
  assert (Hgt : (len content >? max_length) = false)
    by (rewrite Z.gtb_ltb; apply Z.ltb_ge; lia).
  now rewrite Hgt.
Qed.

Lemma C3_short_content_unchanged_witness :
  let w := world_with [] (page_with "" "Short article content.") DeclinedElicitation in
  result_of (get_article_content w "Test Article" 2000)
  = Return "Short article content.".
Proof.
  intros w.
  apply (C3_short_content_unchanged w "Test Article" "Short article content." 2000);
    try reflexivity; [lia | apply Z.leb_le; reflexivity].
Defined.

(* ================================================================== *)
(** ** Argument validation and missing articles                       *)
(* ================================================================== *)

(** C7. A query that is empty after trimming or a limit outside [1,10]
    makes [search_wikipedia] raise its invalid-argument [ValueError] with
    no external call made; a title that is empty after trimming or a
    sentence count outside [1,10] does the same for [get_article_summary]. *)
Theorem C7_invalid_arguments_rejected_first
        (w : World) (query title : string) (limit sentences : Z) :
  (is_empty (strip query) = true \/ limit < 1 \/ 10 < limit ->
   exists msg,
     search_wikipedia w query limit = ([], Raise (ValueError msg)) /\
     (msg = "Query cannot be empty" \/ msg = "Limit must be between 1 and 10"))
  /\
  (is_empty (strip title) = true \/ sentences < 1 \/ 10 < sentences ->
   exists msg,
     get_article_summary w title sentences = ([], Raise (ValueError msg)) /\
     (msg = "Article title cannot be empty"
      \/ msg = "Sentences must be between 1 and 10")).
Proof.
  split; intros H.
  - unfold search_wikipedia.
    destruct (is_empty query || is_empty (strip query)) eqn:Eq.
    + eexists; split; [reflexivity | now left].
    + apply orb_false_iff in Eq. destruct Eq as [_ Eq].
      destruct H as [H|H]; [congruence|].
      rewrite (range_check_fails 1 10 limit H).
      eexists; split; [reflexivity | now right].
  - unfold get_article_summary.
    destruct (is_empty title || is_empty (strip title)) eqn:Eq.
    + eexists; split; [reflexivity | now left].
    + apply orb_false_iff in Eq. destruct Eq as [_ Eq].
      destruct H as [H|H]; [congruence|].
      rewrite (range_check_fails 1 10 sentences H).
      eexists; split; [reflexivity | now right].
Qed.

Lemma C7_invalid_arguments_rejected_first_witness :
  let w := world_with python_titles (page_with "A. B." "text") DeclinedElicitation in
  (exists msg,
     search_wikipedia w "   " 5 = ([], Raise (ValueError msg)) /\
     (msg = "Query cannot be empty" \/ msg = "Limit must be between 1 and 10"))
  /\
  (exists msg,
     get_article_summary w "Python" 11 = ([], Raise (ValueError msg)) /\
     (msg = "Article title cannot be empty"
      \/ msg = "Sentences must be between 1 and 10")).
Proof.
  intros w.
  destruct (C7_invalid_arguments_rejected_first w "   " "Python" 5 11) as [Hs Ht].
  split.
  - apply Hs. left. reflexivity.
  - apply Ht. right. right. reflexivity.
Defined.

(** The lookup is only issued once the arguments have passed validation. *)
Lemma summary_lookup_validated (w : World) (title t : string) (sentences : Z) :
  In (WikiPage t) (trace_of (get_article_summary w title sentences)) ->
  is_empty title || is_empty (strip title) = false /\
  (sentences <? 1) || (sentences >? 10) = false.
Proof.
  unfold get_article_summary.
  destruct (is_empty title || is_empty (strip title)); [intros []|].
  destruct ((sentences <? 1) || (sentences >? 10)); [intros []|].
  auto.
Qed.

Lemma content_lookup_validated (w : World) (title t : string) (max_length : Z) :
  In (WikiPage t) (trace_of (get_article_content w title max_length)) ->
  is_empty title || is_empty (strip title) = false /\
  (max_length <? 100) || (max_length >? 10000) = false.
Proof.
  unfold get_article_content.
  destruct (is_empty title || is_empty (strip title)); [intros []|].
  destruct ((max_length <? 100) || (max_length >? 10000)); [intros []|].
  auto.
Qed.

Lemma info_lookup_validated (w : World) (title t : string) :
  In (WikiPage t) (trace_of (get_article_info w title)) ->
  is_empty title || is_empty (strip title) = false.
Proof.
  unfold get_article_info.
  destruct (is_empty title || is_empty (strip title)); [intros []|].
  auto.
Qed.

(** C8. When the lookup of the title is issued and the source reports that
    the article does not exist, [get_article_summary], [get_article_content]
    and [get_article_info] each raise the not-found [ValueError], whose
    message contains the requested title. *)
Theorem C8_missing_article_not_found
        (w : World) (title : string) (sentences max_length : Z) :
  page_exists (wiki_page w (strip title)) = Return false ->
  let msg := "Article '" ++ title ++ "' not found on Wikipedia" in
  str_in title msg = true /\
  (In (WikiPage (strip title)) (trace_of (get_article_summary w title sentences)) ->
   result_of (get_article_summary w title sentences) = Raise (ValueError msg)) /\
  (In (WikiPage (strip title)) (trace_of (get_article_content w title max_length)) ->
   result_of (get_article_content w title max_length) = Raise (ValueError msg)) /\
  (In (WikiPage (strip title)) (trace_of (get_article_info w title)) ->
   result_of (get_article_info w title) = Raise (ValueError msg)).
Proof.
  intros Hex msg.
  pose proof (not_found_message_reraised title) as Hnf. fold msg in Hnf.
  split; [apply str_in_middle|].
  split; [|split]; intros Hin.
  - apply summary_lookup_validated in Hin. destruct Hin as [E1 E2].
    unfold get_article_summary, reraise_not_found. rewrite E1, E2.
    run_tool. rewrite Hex. cbn [negb is_Exception exn_str].
    fold msg. rewrite Hnf. reflexivity.
  - apply content_lookup_validated in Hin. destruct Hin as [E1 E2].
    unfold get_article_content, reraise_not_found. rewrite E1, E2.
    run_tool. rewrite Hex. cbn [negb is_Exception exn_str].
    fold msg. rewrite Hnf. reflexivity.
  - apply info_lookup_validated in Hin.
    unfold get_article_info, reraise_not_found. rewrite Hin.
    run_tool. rewrite Hex. cbn [negb is_Exception exn_str].
    fold msg. rewrite Hnf. reflexivity.
Qed.

Lemma C8_missing_article_not_found_witness :
  let w := world_with [] missing_page DeclinedElicitation in
  let msg := "Article 'NonExistentArticle123456' not found on Wikipedia" in
  result_of (get_article_summary w "NonExistentArticle123456" 3)
  = Raise (ValueError msg) /\
  result_of (get_article_content w "NonExistentArticle123456" 2000)
  = Raise (ValueError msg) /\
  result_of (get_article_info w "NonExistentArticle123456")
  = Raise (ValueError msg).
Proof.
  intros w msg.
  destruct (C8_missing_article_not_found w "NonExistentArticle123456" 3 2000 eq_refl)
    as (_ & Hs & Hc & Hi).
  split; [|split].
  - apply Hs. simpl. left. reflexivity.
  - apply Hc. simpl. left. reflexivity.
  - apply Hi. simpl. left. reflexivity.
Defined.

(* ================================================================== *)
(** ** Sentence-limited summaries (get_article_summary)               *)
(* ================================================================== *)

Lemma last_char_in (s : string) (c : ascii) : last_char s = Some c -> char_in c s.
Proof.
  induction s as [|d s IH]; [discriminate|].
  destruct s as [|e s].
  - intros H; injection H as ->. now left.
  - intros H. right. apply IH. exact H.
Qed.

Lemma last_char_app (a b : string) :
  is_empty b = false -> last_char (a ++ b) = last_char b.
Proof.
  intros Hb. induction a as [|c a IH]; [reflexivity|].
  cbn [append]. destruct (a ++ b) eqn:E.
  - destruct a; [|discriminate E]. cbn [append] in E. subst b. discriminate Hb.
  - cbn [last_char]. cbn [last_char] in IH. exact IH.
Qed.

Lemma is_empty_app_l (a b : string) :
  is_empty a = false -> is_empty (a ++ b) = false.
Proof. destruct a; [discriminate | reflexivity]. Qed.

Lemma endswith_char_last (s : string) (c : ascii) :
  endswith s (String c EmptyString) = true -> last_char s = Some c.
Proof.
  induction s as [|d s IH]; [discriminate|].
  cbn [endswith]. intros H. apply orb_true_iff in H. destruct H as [H|H].
  - apply String.eqb_eq in H. injection H as -> ->. reflexivity.
  - specialize (IH H). destruct s; [discriminate IH | exact IH].
Qed.

(** A string that ends with two periods still ends with one when its last
    character is dropped. *)
Lemma endswith_two_periods (s : string) :
  endswith (s ++ ".") ".." = true -> last_char s = Some "."%char.
Proof.
  induction s as [|d s IH]; [discriminate|].
  cbn [append endswith]. intros H. apply orb_true_iff in H. destruct H as [H|H].
  - apply String.eqb_eq in H. injection H as Hd Hs.
    destruct s as [|e s]; [subst d; reflexivity|].
    cbn [append] in Hs. injection Hs as _ Hs. destruct s; discriminate Hs.
  - specialize (IH H). destruct s; [discriminate IH | exact IH].
Qed.

Lemma split_no_sep (s : string) (sep : ascii) (x : string) :
  In x (split s sep) -> ~ char_in sep x.
Proof.
  revert x. induction s as [|c s IH]; intros x Hin.
  - destruct Hin as [<-|[]]. intros [].
  - cbn [split] in Hin. destruct (Ascii.eqb_spec c sep) as [->|Hc].
    + destruct Hin as [<-|Hin]; [intros [] | now apply IH].
    + destruct (split s sep) as [|h t] eqn:E.
      * destruct Hin as [<-|[]]. intros [H|[]]. contradiction.
      * destruct Hin as [<-|Hin].
        -- intros [H|H]; [contradiction|]. apply (IH h); [now left | exact H].
        -- apply IH. now right.
Qed.

Lemma lstrip_char_in (c : ascii) (s : string) : char_in c (lstrip s) -> char_in c s.
Proof.
  induction s as [|d s IH]; [intros []|].
  cbn [lstrip]. destruct (isspace d); [|auto].
  intros H. right. auto.
Qed.

Lemma rstrip_char_in (c : ascii) (s : string) : char_in c (rstrip s) -> char_in c s.
Proof.
  induction s as [|d s IH]; [intros []|].
  cbn [rstrip]. destruct (rstrip s) as [|e r].
  - destruct (isspace d); [intros [] | intros [H|[]]; now left].
  - intros [H|H]; [now left | right; apply IH; exact H].
Qed.

Lemma strip_char_in (c : ascii) (s : string) : char_in c (strip s) -> char_in c s.
Proof. intros H. apply lstrip_char_in, rstrip_char_in, H. Qed.

(** Every sentence kept is non-empty and free of periods. *)
Lemma sentences_of_spec (summary x : string) :
  In x (sentences_of summary) -> is_empty x = false /\ ~ char_in "." x.
Proof.
  unfold sentences_of. intros H.
  apply in_map_iff in H. destruct H as (y & <- & H).
  apply filter_In in H. destruct H as [Hy Hne].
  split.
  - now apply negb_true_iff in Hne.
  - intros Hc. apply strip_char_in in Hc. exact (split_no_sep _ _ _ Hy Hc).
Qed.

Lemma firstn_incl {A} (n : nat) (l : list A) (x : A) : In x (firstn n l) -> In x l.
Proof.
  revert l; induction n as [|n IH]; intros [|a l]; cbn [firstn]; intros H;
    try contradiction.
  destruct H as [H|H]; [now left | right; auto].
Qed.

(** The join of non-empty pieces is non-empty and ends as one of them does. *)
Lemma join_last_char (sep : string) (l : list string) :
  l <> [] -> (forall x, In x l -> is_empty x = false) ->
  is_empty (join sep l) = false /\
  exists x, In x l /\ last_char (join sep l) = last_char x.
Proof.
  unfold join. induction l as [|a l IH]; [congruence|].
  intros _ Hall. destruct l as [|b l].
  - cbn [concat]. split; [apply Hall; now left|].
    exists a. split; [now left | reflexivity].
  - destruct IH as [Hne (x & Hx & Hl)]; [discriminate | intros; apply Hall; now right |].
    change (concat sep (a :: b :: l)) with (a ++ sep ++ concat sep (b :: l)).
    split; [apply is_empty_app_l, Hall; now left|].
    exists x. split; [now right|].
    rewrite <- Hl.
    assert (Hs : is_empty (sep ++ concat sep (b :: l)) = false).
    { destruct sep; [exact Hne | reflexivity]. }
    rewrite (last_char_app a _ Hs).
    now rewrite (last_char_app sep _ Hne).
Qed.

(** [get_article_summary] on an existing article with a summary. *)
Lemma get_article_summary_found (w : World) (title summary : string) (sentences : Z) :
  is_empty (strip title) = false ->
  1 <= sentences <= 10 ->
  page_exists (wiki_page w (strip title)) = Return true ->
  page_summary (wiki_page w (strip title)) = Return summary ->
  is_empty summary = false ->
  let result := join ". " (firstn (Z.to_nat sentences) (sentences_of summary)) in
  get_article_summary w title sentences
  = ([WikiPage (strip title)],
     Return (if negb (is_empty result) && negb (endswith result ".")
             then result ++ "." else result)).
Proof.
  intros Ht Hr Hex Hsum Hne result.
  unfold get_article_summary.
  rewrite (strip_empty_title _ Ht), (range_check_passes _ _ _ Hr).
  run_tool. rewrite Hex. cbn [negb]. rewrite Hsum, Hne.
  unfold lslice_to.
  destruct (Z.ltb_spec sentences 0) as [H|_]; [lia|].
  reflexivity.
Qed.

Lemma summary_join_not_period (summary : string) (n : nat) :
  firstn n (sentences_of summary) <> [] ->
  let result := join ". " (firstn n (sentences_of summary)) in
  is_empty result = false /\ endswith result "." = false /\
  last_char result <> Some "."%char.
Proof.
  intros Hne result.
  assert (Hall : forall x, In x (firstn n (sentences_of summary)) ->
                           is_empty x = false /\ ~ char_in "." x).
  { intros x Hx. apply (sentences_of_spec summary), (firstn_incl n), Hx. }
  destruct (join_last_char ". " _ Hne (fun x Hx => proj1 (Hall x Hx)))
    as [Hres (x & Hx & Hl)].
  fold result in Hres, Hl.
  assert (Hlast : last_char result <> Some "."%char).
  { rewrite Hl. intros E. apply last_char_in in E. exact (proj2 (Hall x Hx) E). }
  split; [exact Hres|]. split; [|exact Hlast].
  destruct (endswith result ".") eqn:E; [|reflexivity].
  apply endswith_char_last in E. contradiction.
Qed.

(** C4, as stated, fails: a non-empty summary made only of periods (and
    blanks) has no fragment left, and the result is the empty string, which
    does not end with a period. *)
Lemma C4_trailing_period_counterexample :
  let w := world_with [] (page_with "." "") DeclinedElicitation in
  is_empty "." = false /\
  result_of (get_article_summary w "Article" 3) = Return "" /\
  endswith "" "." = false.
Proof. cbv zeta. repeat split. Qed.

(** C4, amended. For a non-empty raw summary and [N] in [1,10],
    [get_article_summary] splits the text on periods, discards the
    fragments that are empty once stripped, strips and keeps the first [N],
    and, when at least one fragment is kept, returns them joined with
    [". "] and closed by exactly one period; when none is kept it returns
    the empty string.  An empty raw summary raises the no-content error. *)
Theorem C4_summary_sentence_limit (w : World) (title summary : string) (sentences : Z) :
  is_empty (strip title) = false ->
  1 <= sentences <= 10 ->
  page_exists (wiki_page w (strip title)) = Return true ->
  page_summary (wiki_page w (strip title)) = Return summary ->
  let fragments := split summary "." in
  let kept :=
    firstn (Z.to_nat sentences)
           (map strip (filter (fun s => negb (is_empty (strip s))) fragments)) in
  (is_empty summary = false ->
   exists r,
     result_of (get_article_summary w title sentences) = Return r /\
     match kept with
     | [] => r = ""
     | _ :: _ =>
         r = join ". " kept ++ "." /\
         endswith r "." = true /\ endswith r ".." = false
     end)
  /\
  (is_empty summary = true ->
   exists msg,
     result_of (get_article_summary w title sentences) = Raise (ValueError msg) /\
     endswith msg ("No summary available for article '" ++ title ++ "'") = true).
Proof.
  intros Ht Hr Hex Hsum fragments kept.
  change kept with (firstn (Z.to_nat sentences) (sentences_of summary)).
  split; intros Hne.
  - rewrite (get_article_summary_found w title summary sentences) by assumption.
    unfold result_of; cbn [snd]. eexists. split; [reflexivity|].
    destruct (firstn (Z.to_nat sentences) (sentences_of summary)) as [|a l] eqn:E.
    + reflexivity.
    + assert (Hnil : firstn (Z.to_nat sentences) (sentences_of summary) <> [])
        by (rewrite E; discriminate).
      destruct (summary_join_not_period summary _ Hnil) as (H1 & H2 & H3).
      rewrite E in H1, H2, H3. rewrite H1, H2. cbn [negb andb].
      split; [reflexivity|]. split.
      * apply (endswith_app (join ". " (a :: l)) ".").
      * destruct (endswith (join ". " (a :: l) ++ ".") "..") eqn:E2; [|reflexivity].
        apply endswith_two_periods in E2. contradiction.
  - unfold get_article_summary, reraise_not_found.
    rewrite (strip_empty_title _ Ht), (range_check_passes _ _ _ Hr).
    run_tool. rewrite Hex. cbn [negb]. rewrite Hsum, Hne.
    cbn [is_Exception exn_str].
    destruct (str_in "not found" _).
    + eexists. split; [reflexivity|]. apply (endswith_app EmptyString).
    + eexists. split; [reflexivity|]. apply endswith_app.
Qed.

Lemma C4_summary_sentence_limit_witness :
  let w := world_with [] (page_with "A. B. C. D." "") DeclinedElicitation in
  exists r,
    result_of (get_article_summary w "Article" 2) = Return r /\
    r = join ". " ["A"; "B"] ++ "." /\
    endswith r "." = true /\ endswith r ".." = false.
Proof.
  intros w.
  assert (Hr : 1 <= 2 <= 10) by lia.
  exact (proj1 (C4_summary_sentence_limit w "Article" "A. B. C. D." 2
                  eq_refl Hr eq_refl eq_refl) eq_refl).
Defined.

(** C10. [get_article_summary] is not the identity on summaries within the
    sentence budget: a summary of two sentences separated by a newline and
    lacking the final period comes back with the fragments stripped,
    joined by [". "] and closed by a period, for a budget of three. *)
Theorem C10_summary_not_identity :
  exists (w : World) (title summary r : string) (sentences : Z),
    1 <= sentences <= 10 /\
    page_summary (wiki_page w (strip title)) = Return summary /\
    is_empty summary = false /\
    llen (sentences_of summary) <= sentences /\
    result_of (get_article_summary w title sentences) = Return r /\
    r = join ". " (sentences_of summary) ++ "." /\
    String.eqb r summary = false.
Proof.
  exists (world_with [] (page_with ("First." ++ nl ++ "Second") "") DeclinedElicitation).
  exists "Article", ("First." ++ nl ++ "Second"), "First. Second.", 3.
  split; [lia|]. repeat split. apply Z.leb_le. reflexivity.
Qed.

(* ================================================================== *)
(** ** Interactive disambiguation (interactive_search)                *)
(* ================================================================== *)

Import AdvancedServer.

(** Reading [fn] off a tool object gives the function it holds. *)
Lemma bind_attr_fn_tool {F B} (f : F) (k : F -> M B) :
  bind (lift (attr_fn (ToolObject f))) k = k f.
Proof.
  unfold bind, lift. cbn [attr_fn app]. destruct (k f); reflexivity.
Qed.

(** Reading [fn] off a plain function raises [AttributeError]. *)
Lemma bind_attr_fn_plain {F B} (f : F) (k : F -> M B) :
  bind (lift (attr_fn (PlainFunction f))) k
  = ([], Raise (AttributeError "'function' object has no attribute 'fn'")).
Proof. reflexivity. Qed.

(** A search that returns has passed validation and made one request. *)
Lemma search_wikipedia_returns (w : World) (query : string) (limit : Z)
      (t : list event) (titles : list string) :
  search_wikipedia w query limit = (t, Return titles) ->
  is_empty query || is_empty (strip query) = false /\
  t = [HttpGet (strip query) limit].
Proof.
  unfold search_wikipedia.
  destruct (is_empty query || is_empty (strip query)); [discriminate|].
  destruct ((limit <? 1) || (limit >? 10)); [discriminate|].
  run_tool. destruct (requests_get w (strip query) limit) as [a|e].
  - cbn. intros H. injection H as <- _. auto.
  - destruct e; cbn; discriminate.
Qed.

(** The summary tool talks to the article source only. *)
Lemma summary_trace (w : World) (title : string) (sentences : Z) :
  trace_of (get_article_summary w title sentences) = []
  \/ trace_of (get_article_summary w title sentences) = [WikiPage (strip title)].
Proof.
  unfold get_article_summary, reraise_not_found.
  destruct (is_empty title || is_empty (strip title)); [now left|].
  destruct ((sentences <? 1) || (sentences >? 10)); [now left|].
  right. run_tool.
  destruct (page_exists (wiki_page w (strip title))) as [[|]|e]; cbn [negb].
  - destruct (page_summary (wiki_page w (strip title))) as [s|e].
    + destruct (is_empty s); [|reflexivity].
      cbn [is_Exception exn_str]. destruct (str_in _ _); reflexivity.
    + destruct (is_Exception e); [|reflexivity].
      destruct (str_in _ _); reflexivity.
  - cbn [is_Exception exn_str]. destruct (str_in _ _); reflexivity.
  - destruct (is_Exception e); [|reflexivity].
    destruct (str_in _ _); reflexivity.
Qed.

Lemma summary_never_elicits (w : World) (title msg : string) (sentences : Z) :
  ~ In (CtxElicit msg) (trace_of (get_article_summary w title sentences)).
Proof.
  destruct (summary_trace w title sentences) as [-> | ->].
  - intros [].
  - intros [H|[]]. discriminate H.
Qed.

(** The loop over the titles returns at the first title that matches. *)
Lemma first_title_match_find (user_input : string) (search_results : list string) :
  first_title_match user_input search_results
  = find (fun title => str_in (lower user_input) (lower title)) search_results.
Proof.
  induction search_results as [|title rest IH]; [reflexivity|].
  cbn [first_title_match find]. now rewrite IH.
Qed.

(** The number fall-back: the value with which the function returns from
    inside the [try] block, if it does. *)
Lemma number_selection_result (w : World) (user_input : string)
      (search_results : list string) :
  result_of (number_selection (ToolObject get_article_summary) w user_input search_results)
  = match int user_input with
    | Some n =>
        if (1 <=? n) && (n <=? llen search_results) then
          match result_of (get_article_summary
                             w (nth (Z.to_nat (n - 1)) search_results "") 3) with
          | Return s => Return (Some s)
          | Raise (ValueError _) => Return None
          | Raise e => Raise e
          end
        else Return None
    | None => Return None
    end.
Proof.
  unfold number_selection.
  destruct (int user_input) as [n|]; [|reflexivity].
  run_tool.
  destruct ((1 <=? n) && (n <=? llen search_results)); [|reflexivity].
  destruct (get_article_summary w (nth (Z.to_nat (n - 1)) search_results "") 3)
    as [t [s|e]]; cbn [fst snd]; [reflexivity|].
  destruct e; reflexivity.
Qed.

Lemma result_of_bind {A B} (m : M A) (k : A -> M B) :
  result_of (bind m k)
  = match result_of m with
    | Return a => result_of (k a)
    | Raise e => Raise e
    end.
Proof.
  destruct m as [t [a|e]]; unfold result_of; cbn [bind snd]; [|reflexivity].
  destruct (k a); reflexivity.
Qed.

Lemma trace_of_bind {A B} (m : M A) (k : A -> M B) :
  trace_of (bind m k)
  = match result_of m with
    | Return a => (trace_of m ++ trace_of (k a))%list
    | Raise e => trace_of m
    end.
Proof.
  destruct m as [t [a|e]]; unfold trace_of, result_of; cbn [bind fst snd];
    [|reflexivity].
  destruct (k a); reflexivity.
Qed.

Lemma accepted_selection_result (w : World) (data : string)
      (search_results : list string) :
  let reply := strip data in
  let invalid :=
    "Invalid selection '" ++ reply ++ "'. Please enter a title name or number 1-"
    ++ str_of_int (llen search_results) ++ "." in
  result_of (accepted_selection (ToolObject get_article_summary) w data search_results)
  = match find (fun title => str_in (lower reply) (lower title)) search_results with
    | Some title => result_of (get_article_summary w title 3)
    | None =>
        match int reply with
        | Some n =>
            if (1 <=? n) && (n <=? llen search_results) then
              match result_of (get_article_summary
                                 w (nth (Z.to_nat (n - 1)) search_results "") 3) with
              | Raise (ValueError _) => Return invalid
              | r => r
              end
            else Return invalid
        | None => Return invalid
        end
    end.
Proof.
  intros reply invalid. unfold accepted_selection. fold reply.
  rewrite first_title_match_find.
  destruct (find _ search_results) as [title|].
  - rewrite result_of_bind. cbn [emit result_of snd].
    now rewrite bind_attr_fn_tool.
  - rewrite result_of_bind, number_selection_result.
    change (invalid_selection reply search_results) with invalid.
    destruct (int reply) as [n|]; [|reflexivity].
    destruct ((1 <=? n) && (n <=? llen search_results)); [|reflexivity].
    destruct (result_of (get_article_summary _ _ _)) as [s|e]; [reflexivity|].
    destruct e; reflexivity.
Qed.

(** With both names bound to tool objects, two candidates or more and an
    accepted reply, the tool returns what the resolution of the reply
    returns. *)
Lemma interactive_search_accepted (w : World) (query data : string)
      (t : list event) (a b : string) (rest : list string) :
  search_wikipedia w query 8 = (t, Return (a :: b :: rest)) ->
  ctx_elicit w (elicit_message query (a :: b :: rest))
  = Return (AcceptedElicitation data) ->
  result_of (interactive_search_with_tools w query)
  = result_of (accepted_selection (ToolObject get_article_summary) w data (a :: b :: rest)).
Proof.
  intros Hs He. unfold interactive_search_with_tools, interactive_search_in.
  destruct (search_wikipedia_returns _ _ _ _ _ Hs) as [-> _].
  run_tool. rewrite Hs, He.
  destruct (accepted_selection (ToolObject get_article_summary) w data (a :: b :: rest)); reflexivity.
Qed.

(** *** The module as shipped *)

(** A query that is not blank gets as far as the first log line: reading
    [search_wikipedia.fn] raises. *)
Lemma interactive_search_attribute_error (w : World) (query : string) :
  is_empty query || is_empty (strip query) = false ->
  interactive_search w query
  = ([CtxInfo ("Interactive search for: " ++ query)],
     Raise (AttributeError "'function' object has no attribute 'fn'")).
Proof.
  intros Hq. unfold interactive_search, interactive_search_in.
  rewrite Hq. reflexivity.
Qed.

(** Resolving a reply ends on [get_article_summary.fn] as soon as a title
    is selected, by name or by number. *)
Lemma accepted_selection_attribute_error (w : World) (data : string)
      (search_results : list string) :
  let reply := strip data in
  (exists title, first_title_match reply search_results = Some title)
  \/ (exists n, int reply = Some n /\ 1 <= n <= llen search_results) ->
  result_of (accepted_selection (PlainFunction get_article_summary)
                                w data search_results)
  = Raise (AttributeError "'function' object has no attribute 'fn'").
Proof.
  intros reply H. unfold accepted_selection. fold reply.
  destruct (first_title_match reply search_results) as [title|] eqn:F;
    [reflexivity|].
  destruct H as [(title & H)|(n & Hn & Hr)]; [discriminate H|].
  unfold number_selection. rewrite Hn.
  assert (E : (1 <=? n) && (n <=? llen search_results) = true).
  { apply andb_true_iff. split; apply Z.leb_le; lia. }
  run_tool. rewrite E. reflexivity.
Qed.

(** C5 (the code departs from the claim).  [interactive_search] reads
    [search_wikipedia.fn] and [get_article_summary.fn], but both names are
    imported from the server module, where they are plain functions.  So
    with two candidates or more and a reply the user would accept, the tool
    raises [AttributeError] right after its first log line: the search is
    not made, the user is not prompted, no reply is resolved and nothing
    is returned.  The resolution step fails in the same way on its own as
    soon as the reply selects a title, by name or by number.  The reply
    "programming" to the query "python" therefore does not give the
    summary of "Python (programming language)". *)
Theorem C5_accepted_reply_not_resolved
        (w : World) (query data : string) (t : list event)
        (a b : string) (rest : list string) :
  let search_results := a :: b :: rest in
  search_wikipedia w query 8 = (t, Return search_results) ->
  ctx_elicit w (elicit_message query search_results)
  = Return (AcceptedElicitation data) ->
  interactive_search w query
  = ([CtxInfo ("Interactive search for: " ++ query)],
     Raise (AttributeError "'function' object has no attribute 'fn'"))
  /\
  (forall msg, ~ In (CtxElicit msg) (trace_of (interactive_search w query)))
  /\
  (forall s, result_of (interactive_search w query) <> Return s)
  /\
  ((exists title, first_title_match (strip data) search_results = Some title)
   \/ (exists n, int (strip data) = Some n /\ 1 <= n <= llen search_results) ->
   result_of (accepted_selection (PlainFunction get_article_summary)
                                 w data search_results)
   = Raise (AttributeError "'function' object has no attribute 'fn'")).
Proof.
  intros search_results Hs _.
  destruct (search_wikipedia_returns _ _ _ _ _ Hs) as [Hq _].
  rewrite (interactive_search_attribute_error w query Hq).
  split; [reflexivity|]. split; [|split].
  - intros msg [H|[]]. discriminate H.
  - intros s H. discriminate H.
  - exact (accepted_selection_attribute_error w data search_results).
Qed.

Lemma C5_accepted_reply_not_resolved_witness :
  let w := world_with python_titles (page_with "A. B." "")
                      (AcceptedElicitation "programming") in
  result_of (get_article_summary w "Python (programming language)" 3)
  = Return "A. B." /\
  result_of (interactive_search w "python")
  = Raise (AttributeError "'function' object has no attribute 'fn'") /\
  result_of (accepted_selection (PlainFunction get_article_summary)
                                w "programming" python_titles)
  = Raise (AttributeError "'function' object has no attribute 'fn'").
Proof.
  intros w.
  pose proof (C5_accepted_reply_not_resolved
                w "python" "programming" [HttpGet "python" 8]
                "Python (programming language)" "Python (mythology)"
                ["Python (snake)"] eq_refl eq_refl) as [Hrun [_ [_ Hsel]]].
  split; [reflexivity|]. split.
  - exact (f_equal snd Hrun).
  - exact (Hsel (or_introl (ex_intro _ "Python (programming language)" eq_refl))).
Defined.

(** C6 (the code departs from the claim).  For the same reason, when the
    search would yield exactly one title the tool does not return the
    summary of that title, and when it would yield none the tool does not
    return the no-results message: in both cases it raises
    [AttributeError] after its first log line, before the search is made,
    and returns nothing. *)
Theorem C6_single_result_not_summarized (w : World) (query : string)
        (t : list event) :
  (forall only,
     search_wikipedia w query 8 = (t, Return [only]) ->
     interactive_search w query
     = ([CtxInfo ("Interactive search for: " ++ query)],
        Raise (AttributeError "'function' object has no attribute 'fn'")) /\
     forall s, result_of (interactive_search w query) <> Return s)
  /\
  (search_wikipedia w query 8 = (t, Return []) ->
   interactive_search w query
   = ([CtxInfo ("Interactive search for: " ++ query)],
      Raise (AttributeError "'function' object has no attribute 'fn'")) /\
   result_of (interactive_search w query)
   <> Return ("No Wikipedia articles found for '" ++ query ++ "'")).
Proof.
  split.
  - intros only Hs.
    destruct (search_wikipedia_returns _ _ _ _ _ Hs) as [Hq _].
    rewrite (interactive_search_attribute_error w query Hq).
    split; [reflexivity|]. intros s H. discriminate H.
  - intros Hs.
    destruct (search_wikipedia_returns _ _ _ _ _ Hs) as [Hq _].
    rewrite (interactive_search_attribute_error w query Hq).
    split; [reflexivity|]. intros H. discriminate H.
Qed.

Lemma C6_single_result_not_summarized_witness :
  let one := world_with ["Single Article"] (page_with "Article summary." "")
                        DeclinedElicitation in
  let none := world_with [] (page_with "" "") DeclinedElicitation in
  result_of (get_article_summary one "Single Article" 3)
  = Return "Article summary." /\
  result_of (interactive_search one "unique query")
  = Raise (AttributeError "'function' object has no attribute 'fn'") /\
  result_of (interactive_search none "nothing")
  = Raise (AttributeError "'function' object has no attribute 'fn'").
Proof.
  intros one none. split; [reflexivity|]. split.
  - exact (f_equal snd
             (proj1 (proj1 (C6_single_result_not_summarized
                              one "unique query" [HttpGet "unique query" 8])
                           "Single Article" eq_refl))).
  - exact (f_equal snd
             (proj1 (proj2 (C6_single_result_not_summarized
                              none "nothing" [HttpGet "nothing" 8])
                           eq_refl))).
Defined.

(** *** The cases of advanced/test_wikipedia_server.py, which patch both
    names with objects that have [fn] *)

Example test_get_article_with_progress_truncates_long_content :
  let w := world_with [] (page_with "" (replicate 3000 "A" ++ ". More content here."))
                      DeclinedElicitation in
  exists r,
    result_of (get_article_with_progress w "Test Article" 1000) = Return r /\
    len r = 1027 /\ str_in "[Content truncated...]" r = true.
Proof. cbv zeta. eexists. split; [vm_compute; reflexivity|]. split; vm_compute; reflexivity. Qed.

Example test_interactive_search_handles_user_cancellation :
  let w := world_with ["Article 1"; "Article 2"] (page_with "A." "") DeclinedElicitation in
  result_of (interactive_search_with_tools w "query") = Return "Search cancelled or invalid selection.".
Proof. reflexivity. Qed.

(** The reply "2" is found inside the title "Article 2" before it is ever
    read as a number. *)
Example test_interactive_search_multiple_results_elicits_choice :
  let titles := ["Article 1"; "Article 2"; "Article 3"] in
  first_title_match "2" titles = Some "Article 2".
Proof. reflexivity. Qed.

(** A number in range whose summary cannot be fetched: the [ValueError] of
    [get_article_summary] is caught by the [except ValueError] that guards
    [int(user_input)]. *)
Example number_selection_swallows_summary_error :
  let w := world_with ["Alpha"; "Beta"] (page_with "" "") (AcceptedElicitation "2") in
  result_of (get_article_summary w "Beta" 3)
  = Raise (ValueError "Failed to get article summary: No summary available for article 'Beta'")
  /\
  result_of (interactive_search_with_tools w "greek")
  = Return "Invalid selection '2'. Please enter a title name or number 1-2.".
Proof. split; reflexivity. Qed.

(** X25. With both names bound to tool objects that hold the server's
    functions as [fn], an accepted reply is resolved, after stripping, by
    a case-insensitive substring match against the candidate titles in
    candidate order, the first match winning; when no title matches, the
    reply is parsed as an integer and used as a 1-based index if it is in
    range, and a [ValueError] raised while fetching that summary is
    swallowed by the [except ValueError] around the parse and answered
    with the invalid-selection message; in every other case the
    invalid-selection message naming both input forms is returned.  This is
    what the tool returns once the prompt has been accepted, and the reply
    "programming" picks "Python (programming language)" among the three
    Python titles. *)
Theorem selection_resolution_with_tools
        (w : World) (query data : string) (search_results : list string) :
  let reply := strip data in
  let invalid :=
    "Invalid selection '" ++ reply ++ "'. Please enter a title name or number 1-"
    ++ str_of_int (llen search_results) ++ "." in
  let resolved :=
    match find (fun title => str_in (lower reply) (lower title)) search_results with
    | Some title => result_of (get_article_summary w title 3)
    | None =>
        match int reply with
        | Some n =>
            if (1 <=? n) && (n <=? llen search_results) then
              match result_of (get_article_summary
                                 w (nth (Z.to_nat (n - 1)) search_results "") 3) with
              | Raise (ValueError _) => Return invalid
              | r => r
              end
            else Return invalid
        | None => Return invalid
        end
    end in
  result_of (accepted_selection (ToolObject get_article_summary) w data search_results) = resolved
  /\
  (forall t a b rest,
     search_results = a :: b :: rest ->
     search_wikipedia w query 8 = (t, Return search_results) ->
     ctx_elicit w (elicit_message query search_results)
     = Return (AcceptedElicitation data) ->
     result_of (interactive_search_with_tools w query) = resolved)
  /\
  (forall t,
     search_wikipedia w "python" 8 = (t, Return python_titles) ->
     ctx_elicit w (elicit_message "python" python_titles)
     = Return (AcceptedElicitation "programming") ->
     result_of (interactive_search_with_tools w "python")
     = result_of (get_article_summary w "Python (programming language)" 3)).
Proof.
  intros reply invalid resolved.
  pose proof (accepted_selection_result w data search_results) as Hres.
  cbv zeta in Hres. fold reply in Hres. fold invalid in Hres. fold resolved in Hres.
  split; [exact Hres|]. split.
  - intros t a b rest -> Hs He.
    rewrite (interactive_search_accepted w query data t a b rest Hs He).
    exact Hres.
  - intros t Hs He. unfold python_titles in Hs, He.
    rewrite (interactive_search_accepted w "python" "programming" t _ _ _ Hs He).
    rewrite (accepted_selection_result w "programming").
    reflexivity.
Qed.

Lemma selection_resolution_with_tools_witness :
  let by_number :=
    world_with python_titles (page_with "A. B." "") (AcceptedElicitation " 2 ") in
  let by_title :=
    world_with python_titles (page_with "A. B." "") (AcceptedElicitation "programming") in
  result_of (interactive_search_with_tools by_number "python")
  = result_of (get_article_summary by_number "Python (mythology)" 3) /\
  result_of (interactive_search_with_tools by_title "python")
  = result_of (get_article_summary by_title "Python (programming language)" 3).
Proof.
  intros by_number by_title. split.
  - exact (proj1 (proj2 (selection_resolution_with_tools by_number "python" " 2 " python_titles))
             [HttpGet "python" 8] _ _ _ eq_refl eq_refl eq_refl).
  - exact (proj2 (proj2 (selection_resolution_with_tools by_title "python" "programming"
                           python_titles))
             [HttpGet "python" 8] eq_refl eq_refl).
Defined.

(** X26. With both names bound to tool objects that hold the server's
    functions as [fn]: when the search yields exactly one title, the tool
    returns what [get_article_summary] returns for that title and never
    calls [ctx.elicit]; when it yields none, it returns the no-results
    message, again without eliciting. *)
Theorem single_or_no_result_with_tools (w : World) (query : string) (t : list event) :
  (forall only,
     search_wikipedia w query 8 = (t, Return [only]) ->
     result_of (interactive_search_with_tools w query)
     = result_of (get_article_summary w only 3) /\
     forall msg, ~ In (CtxElicit msg) (trace_of (interactive_search_with_tools w query)))
  /\
  (search_wikipedia w query 8 = (t, Return []) ->
   result_of (interactive_search_with_tools w query)
   = Return ("No Wikipedia articles found for '" ++ query ++ "'") /\
   forall msg, ~ In (CtxElicit msg) (trace_of (interactive_search_with_tools w query))).
Proof.
  split.
  - intros only Hs.
    destruct (search_wikipedia_returns _ _ _ _ _ Hs) as [Hq ->].
    unfold interactive_search_with_tools, interactive_search_in. rewrite Hq.
    run_tool. rewrite Hs.
    pose proof (fun msg => summary_never_elicits w only msg 3) as Hn.
    unfold trace_of in Hn.
    destruct (get_article_summary w only 3) as [ts rs]. cbn [fst snd] in *.
    split; [reflexivity|].
    intros msg [H|[H|[H|H]]]; try discriminate H.
    exact (Hn msg H).
  - intros Hs.
    destruct (search_wikipedia_returns _ _ _ _ _ Hs) as [Hq ->].
    unfold interactive_search_with_tools, interactive_search_in. rewrite Hq.
    run_tool. rewrite Hs. cbn [fst snd app].
    split; [reflexivity|].
    intros msg [H|[H|[]]]; discriminate H.
Qed.

Lemma single_or_no_result_with_tools_witness :
  let one := world_with ["Single Article"] (page_with "Article summary." "")
                        DeclinedElicitation in
  let none := world_with [] (page_with "" "") DeclinedElicitation in
  (result_of (interactive_search_with_tools one "unique query")
   = result_of (get_article_summary one "Single Article" 3) /\
   forall msg, ~ In (CtxElicit msg) (trace_of (interactive_search_with_tools one "unique query")))
  /\
  (result_of (interactive_search_with_tools none "nothing")
   = Return "No Wikipedia articles found for 'nothing'" /\
   forall msg, ~ In (CtxElicit msg) (trace_of (interactive_search_with_tools none "nothing"))).
Proof.
  intros one none. split.
  - exact (proj1 (single_or_no_result_with_tools one "unique query" [HttpGet "unique query" 8])
             "Single Article" eq_refl).
  - exact (proj2 (single_or_no_result_with_tools none "nothing" [HttpGet "nothing" 8]) eq_refl).
Defined.

(* ================================================================== *)
(** ** The CLI chat loop (MCPResearchAssistant.chat_session)          *)
(* ================================================================== *)

Import CliClient.

(** A run that is waiting for input goes on with the inputs that follow. *)
Lemma chat_loop_app (agent : Agent) (pre rest : list (outcome string)) :
  forall (st st' : option AgentRunResult) (out : list console_output),
    chat_loop agent st pre = (out, AwaitingInput st') ->
    chat_loop agent st (pre ++ rest)
    = let (out', fin) := chat_loop agent st' rest in ((out ++ out')%list, fin).
Proof.
  induction pre as [|input pre IH]; intros st st' out H.
  - cbn [chat_loop] in H. injection H as <- <-.
    cbn [app]. destruct (chat_loop agent st rest); reflexivity.
  - cbn [chat_loop app] in *.
    destruct (chat_iteration agent st input) as [[o s] [[|]|e]];
      [discriminate H| |discriminate H].
    destruct (chat_loop agent s pre) as [o' f] eqn:E.
    injection H as <- ->.
    rewrite (IH _ _ _ E).
    destruct (chat_loop agent st' rest) as [o'' f'].
    now rewrite app_assoc.
Qed.

Lemma quit_iteration (agent : Agent) (st : option AgentRunResult) (raw : string) :
  In raw ["quit"; "exit"; "q"] ->
  chat_iteration agent st (Return raw) = ([PrintThanks], st, Return Break).
Proof.
  intros [<-|[<-|[<-|[]]]]; reflexivity.
Qed.

Lemma failed_agent_iteration (agent : Agent) (st : option AgentRunResult)
      (raw : string) (e : exn) :
  let user_input := strip raw in
  str_mem (lower user_input) ["quit"; "exit"; "q"] = false ->
  str_mem (lower user_input) ["history"; "hist"; "h"] = false ->
  str_mem (lower user_input) ["clear"; "clear history"; "reset"] = false ->
  is_empty user_input = false ->
  agent user_input (get_message_history_for_next_run st) = Raise e ->
  is_Exception e = true ->
  chat_iteration agent st (Return raw)
  = ([ProgressProcessing; ProgressFailed; PrintError (exn_str e)], st,
     Return Continue).
Proof.
  intros user_input Hq Hh Hc Hne Ha He.
  unfold chat_iteration, loop_body. fold user_input.
  rewrite Hq, Hh, Hc, Hne, Ha, He.
  destruct e; try discriminate He; reflexivity.
Qed.

(** C9. At every iteration of the chat loop, reached after any inputs that
    left it waiting, the input "quit", "exit" or "q" ends the loop after
    the farewell line; and an [Exception] raised by the agent call is
    caught and reported, the session state is kept, and the loop goes on
    reading the inputs that follow. *)
Theorem C9_chat_loop_quit_and_recovery
        (agent : Agent) (st0 st : option AgentRunResult)
        (pre rest : list (outcome string)) (out : list console_output)
        (raw : string) :
  chat_loop agent st0 pre = (out, AwaitingInput st) ->
  (In raw ["quit"; "exit"; "q"] ->
   chat_loop agent st0 (pre ++ Return raw :: rest)
   = ((out ++ [PrintThanks])%list, Terminated st))
  /\
  (forall e : exn,
     let user_input := strip raw in
     str_mem (lower user_input) ["quit"; "exit"; "q"] = false ->
     str_mem (lower user_input) ["history"; "hist"; "h"] = false ->
     str_mem (lower user_input) ["clear"; "clear history"; "reset"] = false ->
     is_empty user_input = false ->
     agent user_input (get_message_history_for_next_run st) = Raise e ->
     is_Exception e = true ->
     chat_loop agent st0 (pre ++ Return raw :: rest)
     = let (out', fin) := chat_loop agent st rest in
       ((out ++ [ProgressProcessing; ProgressFailed; PrintError (exn_str e)]
             ++ out')%list, fin)).
Proof.
  intros Hpre. split.
  - intros Hq. rewrite (chat_loop_app agent pre _ _ _ _ Hpre).
    cbn [chat_loop]. rewrite (quit_iteration agent st raw Hq). reflexivity.
  - intros e user_input Hq Hh Hc Hne Ha He.
    rewrite (chat_loop_app agent pre _ _ _ _ Hpre).
    cbn [chat_loop].
    rewrite (failed_agent_iteration agent st raw e Hq Hh Hc Hne Ha He).
    destruct (chat_loop agent st rest) as [out' fin]. reflexivity.
Qed.

Lemma C9_chat_loop_quit_and_recovery_witness :
  let agent : Agent := fun _ _ => Raise (OtherException "connection lost") in
  chat_loop agent None [Return "hello"; Return "quit"; Return "ignored"]
  = ([ProgressProcessing; ProgressFailed; PrintError "connection lost"; PrintThanks],
     Terminated None)
  /\
  chat_loop agent None [Return "hello"; Return "again"]
  = ([ProgressProcessing; ProgressFailed; PrintError "connection lost";
      ProgressProcessing; ProgressFailed; PrintError "connection lost"],
     AwaitingInput None).
Proof.
  intros agent. split.
  - exact (proj1 (C9_chat_loop_quit_and_recovery
                    agent None None [Return "hello"] [Return "ignored"]
                    [ProgressProcessing; ProgressFailed; PrintError "connection lost"]
                    "quit" eq_refl)
             (or_introl eq_refl)).
  - exact (proj2 (C9_chat_loop_quit_and_recovery
                    agent None None [] [Return "again"] [] "hello" eq_refl)
             (OtherException "connection lost")
             eq_refl eq_refl eq_refl eq_refl eq_refl eq_refl).
Defined.

(* ================================================================== *)
(** ** Further properties: the search tool                            *)
(* ================================================================== *)

Import Observe.

(** X1. With a query that is not blank and a limit in [1,10],
    [search_wikipedia] makes exactly one request, for the stripped query and
    the given limit; it returns the titles of the response as they are, and
    every [Exception] of the request surfaces as a [ValueError] whose
    message tells a transport failure from any other; what is not an
    [Exception] passes through as it is. *)
Theorem search_wikipedia_one_request (w : World) (query : string) (limit : Z) :
  is_empty (strip query) = false ->
  1 <= limit <= 10 ->
  trace_of (search_wikipedia w query limit) = [HttpGet (strip query) limit] /\
  result_of (search_wikipedia w query limit)
  = match requests_get w (strip query) limit with
    | Return titles => Return titles
    | Raise (RequestException m) =>
        Raise (ValueError ("Failed to search Wikipedia: " ++ m))
    | Raise e =>
        if is_Exception e then Raise (ValueError ("Search failed: " ++ exn_str e))
        else Raise e
    end.
Proof.
  intros Hq Hl. unfold search_wikipedia.
  rewrite (strip_empty_title _ Hq), (range_check_passes _ _ _ Hl).
  run_tool.
  destruct (requests_get w (strip query) limit) as [titles|e];
    [|destruct e]; split; reflexivity.
Qed.

Lemma search_wikipedia_one_request_witness :
  let w := world_with python_titles missing_page DeclinedElicitation in
  trace_of (search_wikipedia w " python " 3) = [HttpGet "python" 3] /\
  result_of (search_wikipedia w " python " 3) = Return python_titles.
Proof.
  intros w.
  assert (Hl : 1 <= 3 <= 10) by lia.
  exact (search_wikipedia_one_request w " python " 3 eq_refl Hl).
Defined.

(* ================================================================== *)
(** ** Further properties: the article tools                          *)
(* ================================================================== *)

(** X2. A title that is blank, or a [max_length] outside [100,10000], makes
    [get_article_content], [get_article_info] and
    [get_article_with_progress] raise their [ValueError] before any call
    leaves the process, the progress tool not even logging to the context. *)
Theorem article_tools_validate_first (w : World) (title : string) (max_length : Z) :
  (is_empty (strip title) = true ->
   get_article_content w title max_length
   = ([], Raise (ValueError "Article title cannot be empty")) /\
   get_article_info w title
   = ([], Raise (ValueError "Article title cannot be empty")) /\
   get_article_with_progress w title max_length
   = ([], Raise (ValueError "Article title cannot be empty")))
  /\
  (is_empty (strip title) = false -> max_length < 100 \/ 10000 < max_length ->
   get_article_content w title max_length
   = ([], Raise (ValueError "max_length must be between 100 and 10000")) /\
   get_article_with_progress w title max_length
   = ([], Raise (ValueError "max_length must be between 100 and 10000"))).
Proof.
  split.
  - intros Hb.
    unfold get_article_content, get_article_info, get_article_with_progress.
    rewrite Hb, orb_true_r. auto.
  - intros Ht Hm.
    unfold get_article_content, get_article_with_progress.
    rewrite (strip_empty_title _ Ht), (range_check_fails 100 10000 _ Hm). auto.
Qed.

Lemma article_tools_validate_first_witness :
  let w := world_with [] (page_with "A." "text") DeclinedElicitation in
  get_article_info w "   " = ([], Raise (ValueError "Article title cannot be empty")) /\
  get_article_content w "Python" 99
  = ([], Raise (ValueError "max_length must be between 100 and 10000")).
Proof.
  intros w. split.
  - exact (proj1 (proj2 (proj1 (article_tools_validate_first w "   " 2000) eq_refl))).
  - apply (proj2 (article_tools_validate_first w "Python" 99)); [reflexivity | lia].
Defined.

(** X3. When reading [page.exists()] fails with an [Exception], the three
    article tools raise that very exception if its lower-cased message
    contains "not found", and otherwise a [ValueError] made of the tool's
    own prefix and the message. *)
Theorem lookup_failure_policy (w : World) (title : string)
        (sentences max_length : Z) (e : exn) :
  is_empty (strip title) = false ->
  1 <= sentences <= 10 ->
  100 <= max_length <= 10000 ->
  page_exists (wiki_page w (strip title)) = Raise e ->
  is_Exception e = true ->
  let wrapped (prefix : string) : outcome string :=
    if str_in "not found" (lower (exn_str e)) then Raise e
    else Raise (ValueError (prefix ++ exn_str e)) in
  result_of (get_article_summary w title sentences)
  = wrapped "Failed to get article summary: " /\
  result_of (get_article_content w title max_length)
  = wrapped "Failed to get article content: " /\
  result_of (get_article_info w title)
  = if str_in "not found" (lower (exn_str e)) then Raise e
    else Raise (ValueError ("Failed to get article info: " ++ exn_str e)).
Proof.
  intros Ht Hs Hm Hex He wrapped. unfold wrapped.
  unfold get_article_summary, get_article_content, get_article_info,
    reraise_not_found.
  rewrite (strip_empty_title _ Ht), (range_check_passes _ _ _ Hs),
    (range_check_passes _ _ _ Hm).
  run_tool. rewrite Hex, He.
  destruct (str_in "not found" (lower (exn_str e))); auto.
Qed.

Lemma lookup_failure_policy_witness :
  let failing := {| page_exists := Raise (OtherException "Connection reset");
                    page_title := Return ""; page_fullurl := Return "";
                    page_summary := Return ""; page_text := Return "";
                    page_categories := Return []; page_links := Return 0 |} in
  let w := world_with [] failing DeclinedElicitation in
  result_of (get_article_summary w "Python" 3)
  = Raise (ValueError "Failed to get article summary: Connection reset").
Proof.
  intros failing w.
  assert (Hs : 1 <= 3 <= 10) by lia.
  assert (Hm : 100 <= 2000 <= 10000) by lia.
  exact (proj1 (lookup_failure_policy w "Python" 3 2000
                  (OtherException "Connection reset")
                  eq_refl Hs Hm eq_refl eq_refl)).
Defined.

(** X4. An article whose body text is empty makes [get_article_content]
    and [get_article_with_progress] raise a [ValueError] whose message ends
    with the no-content text naming the title; the progress tool stops
    after reporting 25%. *)
Theorem empty_body_no_content (w : World) (title : string) (max_length : Z) :
  is_empty (strip title) = false ->
  100 <= max_length <= 10000 ->
  page_exists (wiki_page w (strip title)) = Return true ->
  page_text (wiki_page w (strip title)) = Return "" ->
  let no_content := "No content available for article '" ++ title ++ "'" in
  (exists msg,
     result_of (get_article_content w title max_length) = Raise (ValueError msg) /\
     endswith msg no_content = true) /\
  result_of (get_article_with_progress w title max_length)
  = Raise (ValueError no_content) /\
  progress_reports (trace_of (get_article_with_progress w title max_length))
  = [0; 25].
Proof.
  intros Ht Hm Hex Htext no_content. split; [|split].
  - unfold get_article_content, reraise_not_found.
    rewrite (strip_empty_title _ Ht), (range_check_passes _ _ _ Hm).
    run_tool. rewrite Hex. cbn [negb]. rewrite Htext.
    cbn [is_empty is_Exception exn_str]. fold no_content.
    destruct (str_in "not found" (lower no_content)).
    + eexists. split; [reflexivity|]. apply (endswith_app EmptyString).
    + eexists. split; [reflexivity|]. apply endswith_app.
  - unfold get_article_with_progress.
    rewrite (strip_empty_title _ Ht), (range_check_passes _ _ _ Hm).
    run_tool. rewrite Hex. cbn [negb]. rewrite Htext. reflexivity.
  - unfold get_article_with_progress.
    rewrite (strip_empty_title _ Ht), (range_check_passes _ _ _ Hm).
    run_tool. rewrite Hex. cbn [negb]. rewrite Htext. reflexivity.
Qed.

Lemma empty_body_no_content_witness :
  let w := world_with [] (page_with "Summary." "") DeclinedElicitation in
  result_of (get_article_with_progress w "Stub" 2000)
  = Raise (ValueError "No content available for article 'Stub'").
Proof.
  intros w.
  assert (Hm : 100 <= 2000 <= 10000) by lia.
  exact (proj1 (proj2 (empty_body_no_content w "Stub" 2000 eq_refl Hm eq_refl eq_refl))).
Defined.

(** X5. On an existing article whose attributes can all be read,
    [get_article_info] makes one lookup and returns the lengths of the
    summary and of the body and the first ten categories at most, in
    order. *)
Theorem article_info_fields (w : World) (title t u s c : string)
        (cats : list string) (n : Z) :
  is_empty (strip title) = false ->
  let page := wiki_page w (strip title) in
  page_exists page = Return true ->
  page_title page = Return t -> page_fullurl page = Return u ->
  page_summary page = Return s -> page_text page = Return c ->
  page_categories page = Return cats -> page_links page = Return n ->
  exists info,
    get_article_info w title = ([WikiPage (strip title)], Return info) /\
    info_title info = t /\ info_url info = u /\
    info_summary_length info = len s /\ info_content_length info = len c /\
    info_categories info = firstn 10 cats /\
    llen (info_categories info) = Z.min 10 (llen cats) /\
    info_links_count info = n.
Proof.
  intros Ht page Hex H1 H2 H3 H4 H5 H6. subst page.
  unfold get_article_info. rewrite (strip_empty_title _ Ht).
  run_tool. rewrite Hex. cbn [negb]. rewrite H1, H2, H3, H4, H5, H6.
  eexists. split; [reflexivity|]. cbn.
  repeat (split; [reflexivity|]). split; [|reflexivity].
  unfold llen. rewrite length_firstn. lia.
Qed.

Lemma article_info_fields_witness :
  let page := {| page_exists := Return true; page_title := Return "Python";
                 page_fullurl := Return "https://en.wikipedia.org/wiki/Python";
                 page_summary := Return "A snake."; page_text := Return "Long text";
                 page_categories :=
                   Return ["a"; "b"; "c"; "d"; "e"; "f"; "g"; "h"; "i"; "j"; "k"; "l"];
                 page_links := Return 7 |} in
  let w := world_with [] page DeclinedElicitation in
  exists info,
    get_article_info w "Python" = ([WikiPage "Python"], Return info) /\
    llen (info_categories info) = 10.
Proof.
  intros page w.
  destruct (article_info_fields w "Python" _ _ _ _ _ _
              eq_refl eq_refl eq_refl eq_refl eq_refl eq_refl eq_refl eq_refl)
    as (info & H & _ & _ & _ & _ & _ & Hl & _).
  exists info. split; [exact H | exact Hl].
Defined.

(** The outcome of [get_article_content], case by case. *)
Lemma get_article_content_outcome (w : World) (title : string) (max_length : Z) :
  result_of (get_article_content w title max_length)
  = if is_empty title || is_empty (strip title) then
      Raise (ValueError "Article title cannot be empty")
    else if (max_length <? 100) || (max_length >? 10000) then
      Raise (ValueError "max_length must be between 100 and 10000")
    else
      match page_exists (wiki_page w (strip title)) with
      | Raise e => handled "Failed to get article content: " e
      | Return false =>
          Raise (ValueError ("Article '" ++ title ++ "' not found on Wikipedia"))
      | Return true =>
          match page_text (wiki_page w (strip title)) with
          | Raise e => handled "Failed to get article content: " e
          | Return content =>
              if is_empty content then
                handled "Failed to get article content: "
                        (ValueError ("No content available for article '"
                                     ++ title ++ "'"))
              else
                Return (if len content >? max_length
                        then truncate content max_length else content)
          end
      end.
Proof.
  unfold get_article_content, reraise_not_found, handled.
  destruct (is_empty title || is_empty (strip title)); [reflexivity|].
  destruct ((max_length <? 100) || (max_length >? 10000)); [reflexivity|].
  run_tool.
  destruct (page_exists (wiki_page w (strip title))) as [[|]|e]; cbn [negb].
  - destruct (page_text (wiki_page w (strip title))) as [content|e].
    + destruct (is_empty content); [|reflexivity].
      cbn [is_Exception exn_str]. destruct (str_in _ _); reflexivity.
    + destruct (is_Exception e); [destruct (str_in _ _)|]; reflexivity.
  - cbn [is_Exception exn_str].
    rewrite (not_found_message_reraised title). reflexivity.
  - destruct (is_Exception e); [destruct (str_in _ _)|]; reflexivity.
Qed.

(** The outcome of [get_article_with_progress], case by case. *)
Lemma get_article_with_progress_outcome (w : World) (title : string) (max_length : Z) :
  result_of (get_article_with_progress w title max_length)
  = if is_empty title || is_empty (strip title) then
      Raise (ValueError "Article title cannot be empty")
    else if (max_length <? 100) || (max_length >? 10000) then
      Raise (ValueError "max_length must be between 100 and 10000")
    else
      match page_exists (wiki_page w (strip title)) with
      | Raise e => Raise e
      | Return false =>
          Raise (ValueError ("Article '" ++ title ++ "' not found on Wikipedia"))
      | Return true =>
          match page_text (wiki_page w (strip title)) with
          | Raise e => Raise e
          | Return content =>
              if is_empty content then
                Raise (ValueError ("No content available for article '"
                                   ++ title ++ "'"))
              else
                Return (if len content >? max_length
                        then truncate content max_length else content)
          end
      end.
Proof.
  unfold get_article_with_progress, truncate.
  destruct (is_empty title || is_empty (strip title)); [reflexivity|].
  destruct ((max_length <? 100) || (max_length >? 10000)); [reflexivity|].
  run_tool.
  destruct (page_exists (wiki_page w (strip title))) as [[|]|e]; cbn [negb];
    try reflexivity.
  destruct (page_text (wiki_page w (strip title))) as [content|e];
    [|reflexivity].
  destruct (is_empty content); [reflexivity|].
  destruct (len content >? max_length); [|reflexivity].
  destruct (int_gt_float _ _); reflexivity.
Qed.

Lemma handled_never_returns (prefix : string) (e : exn) (r : string) :
  handled prefix e <> Return r.
Proof.
  unfold handled. destruct (is_Exception e); [destruct (str_in _ _)|]; discriminate.
Qed.

(** X6. [get_article_with_progress] returns a text exactly when
    [get_article_content] returns it: the two tools agree on every result,
    and differ only in the exceptions they raise. *)
Theorem content_tools_agree (w : World) (title r : string) (max_length : Z) :
  result_of (get_article_with_progress w title max_length) = Return r <->
  result_of (get_article_content w title max_length) = Return r.
Proof.
  rewrite get_article_with_progress_outcome, get_article_content_outcome.
  destruct (is_empty title || is_empty (strip title)); [tauto|].
  destruct ((max_length <? 100) || (max_length >? 10000)); [tauto|].
  destruct (page_exists (wiki_page w (strip title))) as [[|]|e].
  - destruct (page_text (wiki_page w (strip title))) as [content|e].
    + destruct (is_empty content); [|tauto].
      split; [discriminate | intros H; elim (handled_never_returns _ _ _ H)].
    + split; [discriminate | intros H; elim (handled_never_returns _ _ _ H)].
  - tauto.
  - split; [discriminate | intros H; elim (handled_never_returns _ _ _ H)].
Qed.

(** The trace of [get_article_with_progress] after validation. *)
Lemma get_article_with_progress_progress (w : World) (title : string)
      (max_length : Z) :
  is_empty title || is_empty (strip title) = false ->
  (max_length <? 100) || (max_length >? 10000) = false ->
  progress_reports (trace_of (get_article_with_progress w title max_length))
  = match page_exists (wiki_page w (strip title)) with
    | Return true =>
        match page_text (wiki_page w (strip title)) with
        | Return content =>
            if is_empty content then [0; 25]
            else if len content >? max_length then [0; 25; 50; 75; 100]
                 else [0; 25; 50; 100]
        | Raise _ => [0; 25]
        end
    | _ => [0]
    end.
Proof.
  intros Ht Hm. unfold get_article_with_progress. rewrite Ht, Hm.
  run_tool.
  destruct (page_exists (wiki_page w (strip title))) as [[|]|e]; cbn [negb];
    try reflexivity.
  destruct (page_text (wiki_page w (strip title))) as [content|e];
    [|reflexivity].
  destruct (is_empty content); [reflexivity|].
  destruct (len content >? max_length); [|reflexivity].
  destruct (int_gt_float _ _); reflexivity.
Qed.

(** X7. The progress values reported by [get_article_with_progress] are
    strictly increasing, and the value 100 is reported exactly when the
    tool returns. *)
Theorem progress_reaches_100_iff_returns (w : World) (title : string)
        (max_length : Z) :
  let run := get_article_with_progress w title max_length in
  StronglySorted Z.lt (progress_reports (trace_of run)) /\
  (In 100 (progress_reports (trace_of run)) <-> exists r, result_of run = Return r).
Proof.
  intros run. subst run.
  rewrite get_article_with_progress_outcome.
  destruct (is_empty title || is_empty (strip title)) eqn:Et.
  { unfold get_article_with_progress. rewrite Et. cbn.
    split; [constructor|]. split; [intros [] | intros [r H]; discriminate H]. }
  destruct ((max_length <? 100) || (max_length >? 10000)) eqn:Em.
  { unfold get_article_with_progress. rewrite Et, Em. cbn.
    split; [constructor|]. split; [intros [] | intros [r H]; discriminate H]. }
  rewrite (get_article_with_progress_progress w title max_length Et Em).
  assert (S1 : StronglySorted Z.lt [0]) by (repeat constructor).
  assert (S2 : StronglySorted Z.lt [0; 25]) by (repeat constructor; lia).
  assert (S3 : StronglySorted Z.lt [0; 25; 50; 100]) by (repeat constructor; lia).
  assert (S4 : StronglySorted Z.lt [0; 25; 50; 75; 100]) by (repeat constructor; lia).
  assert (N1 : ~ In 100 [0]) by (cbn; lia).
  assert (N2 : ~ In 100 [0; 25]) by (cbn; lia).
  destruct (page_exists (wiki_page w (strip title))) as [[|]|e].
  - destruct (page_text (wiki_page w (strip title))) as [content|e].
    + destruct (is_empty content).
      * split; [exact S2|]. split; [tauto | intros [r H]; discriminate H].
      * destruct (len content >? max_length).
        -- split; [exact S4|]. split; [eauto | intros _; cbn; lia].
        -- split; [exact S3|]. split; [eauto | intros _; cbn; lia].
    + split; [exact S2|]. split; [tauto | intros [r H]; discriminate H].
  - split; [exact S1|]. split; [tauto | intros [r H]; discriminate H].
  - split; [exact S1|]. split; [tauto | intros [r H]; discriminate H].
Qed.

(** *** Where [rfind] points *)

Lemma rfind_at_range (sub s : string) (i : Z) :
  0 <= i -> rfind_at sub s i = -1 \/ i <= rfind_at sub s i.
Proof.
  revert i. induction s as [|c s IH]; intros i Hi; cbn [rfind_at]; cbv zeta.
  - destruct (startswith EmptyString sub); [right; lia | now left].
  - destruct (IH (i + 1) ltac:(lia)) as [E|E];
      destruct (startswith (String c s) sub); lia.
Qed.

Lemma startswith_char (c d : ascii) (s : string) :
  startswith (String d s) (String c EmptyString) = true -> d = c.
Proof.
  unfold startswith. cbn [prefix].
  destruct (ascii_dec c d) as [->|]; [reflexivity | discriminate].
Qed.

(** A non-negative answer of [rfind] for a one-character needle is an index
    at which that character stands. *)
Lemma rfind_at_char_get (c : ascii) (s : string) (i j : Z) :
  0 <= i -> rfind_at (String c EmptyString) s i = j -> i <= j ->
  String.get (Z.to_nat (j - i)) s = Some c.
Proof.
  revert i. induction s as [|d s IH]; intros i Hi Hj Hij.
  - cbn in Hj. lia.
  - cbn [rfind_at] in Hj. cbv zeta in Hj.
    destruct (rfind_at_range (String c EmptyString) s (i + 1) ltac:(lia)) as [E|E].
    + rewrite E in Hj.
      destruct (startswith (String d s) (String c EmptyString)) eqn:Es; [|lia].
      apply startswith_char in Es. subst d.
      replace (Z.to_nat (j - i)) with 0%nat by lia. reflexivity.
    + assert (Hr : rfind_at (String c EmptyString) s (i + 1) = j).
      { destruct (startswith (String d s) (String c EmptyString)); lia. }
      specialize (IH (i + 1) ltac:(lia) Hr ltac:(lia)).
      replace (Z.to_nat (j - i)) with (S (Z.to_nat (j - (i + 1)))) by lia.
      exact IH.
Qed.

Lemma get_substring0 (n b : nat) (s : string) :
  (n < b)%nat -> String.get n (substring 0 b s) = String.get n s.
Proof.
  revert n s. induction b as [|b IH]; intros n s Hn; [lia|].
  destruct s as [|c s]; [reflexivity|]. cbn [substring].
  destruct n as [|n]; [reflexivity|]. cbn [String.get]. apply IH. lia.
Qed.

Lemma last_char_substring0 (n : nat) (s : string) (c : ascii) :
  String.get n s = Some c -> last_char (substring 0 (S n) s) = Some c.
Proof.
  revert s. induction n as [|n IH]; intros [|d s] H; try discriminate H.
  - cbn in H. injection H as ->. cbn [substring]. destruct s; reflexivity.
  - cbn [String.get] in H. specialize (IH s H).
    change (substring 0 (S (S n)) (String d s))
      with (String d (substring 0 (S n) s)).
    destruct (substring 0 (S n) s) eqn:E; [discriminate IH | exact IH].
Qed.

(** The character of the prefix at the break point, read in the content. *)
Lemma break_point_char (content : string) (max_length : Z) (c : ascii) :
  0 <= max_length ->
  let truncated := slice_to content max_length in
  0 <= rfind truncated (String c EmptyString) ->
  last_char (slice_to content (rfind truncated (String c EmptyString) + 1)) = Some c.
Proof.
  intros Hm truncated Hj.
  pose proof (rfind_bounds truncated (String c EmptyString) eq_refl) as Hb.
  assert (Hlen : len truncated <= max_length).
  { unfold truncated. rewrite len_slice_to by lia. lia. }
  pose proof (rfind_at_char_get c truncated 0
                (rfind truncated (String c EmptyString)) ltac:(lia) eq_refl Hj) as Hg.
  rewrite Z.sub_0_r in Hg.
  unfold truncated at 2 in Hg. unfold slice_to in Hg.
  destruct (Z.ltb_spec max_length 0) as [|_]; [lia|].
  rewrite get_substring0 in Hg by lia.
  unfold slice_to.
  destruct (Z.ltb_spec (rfind truncated (String c EmptyString) + 1) 0) as [|_]; [lia|].
  replace (Z.to_nat (rfind truncated (String c EmptyString) + 1))
    with (S (Z.to_nat (rfind truncated (String c EmptyString)))) by lia.
  apply last_char_substring0. exact Hg.
Qed.

(** X8. Truncated content is made of the first [k] characters of the
    article, with [k] above 80% of [max_length] and at most [max_length],
    followed by the marker.  When the last period or newline among the
    first [max_length] characters stands above 80% of [max_length], [k] is
    one past it and the marker follows at once; otherwise [k] is
    [max_length] and three dots come before the marker.  So the dots are
    there exactly when that break point is not above 80% of [max_length]. *)
Theorem truncation_keeps_budget_prefix (w : World) (title content : string)
        (max_length : Z) :
  is_empty (strip title) = false ->
  100 <= max_length <= 10000 ->
  page_exists (wiki_page w (strip title)) = Return true ->
  page_text (wiki_page w (strip title)) = Return content ->
  len content > max_length ->
  let truncated := slice_to content max_length in
  let break_point := Z.max (rfind truncated ".") (rfind truncated nl) in
  exists (k : Z) (suffix : string),
    result_of (get_article_content w title max_length)
    = Return (slice_to content k ++ suffix) /\
    len (slice_to content k) = k /\
    4 * max_length < 5 * k /\ k <= max_length /\
    (4 * max_length < 5 * break_point ->
     k = break_point + 1 /\ suffix = truncation_marker) /\
    (5 * break_point <= 4 * max_length ->
     k = max_length /\ suffix = "..." ++ truncation_marker).
Proof.
  intros Ht Hm Hex Htext Hlong truncated break_point.
  destruct (get_article_content_truncated w title content max_length
              Ht Hm Hex Htext Hlong) as [Hlen Hres].
  cbv zeta in Hlen, Hres.
  pose proof (break_point_bounds (slice_to content max_length)) as Hb.
  rewrite Hlen in Hb.
  fold truncated in Hres, Hb. fold break_point in Hres, Hb.
  destruct (Z.ltb_spec (4 * max_length) (5 * break_point)) as [Hc|Hc].
  - exists (break_point + 1), truncation_marker. split; [exact Hres|].
    split; [rewrite len_slice_to by lia; lia|].
    split; [lia|]. split; [lia|].
    split; [intros _; split; reflexivity | intros H; lia].
  - exists max_length, ("..." ++ truncation_marker).
    split; [exact Hres|]. split; [exact Hlen|].
    split; [lia|]. split; [lia|].
    split; [intros H; lia | intros _; split; reflexivity].
Qed.

Lemma truncation_keeps_budget_prefix_witness :
  let content := replicate 99 "a" ++ "." ++ replicate 20 "b" in
  let w := world_with [] (page_with "" content) DeclinedElicitation in
  exists (k : Z) (suffix : string),
    result_of (get_article_content w "Article" 100)
    = Return (slice_to content k ++ suffix) /\
    len (slice_to content k) = k /\
    4 * 100 < 5 * k /\ k <= 100 /\
    (4 * 100 < 5 * 99 -> k = 99 + 1 /\ suffix = truncation_marker) /\
    (5 * 99 <= 4 * 100 -> k = 100 /\ suffix = "..." ++ truncation_marker).
Proof.
  intros content w.
  assert (Hm : 100 <= 100 <= 10000) by lia.
  exact (truncation_keeps_budget_prefix w "Article" content 100
           eq_refl Hm eq_refl eq_refl eq_refl).
Defined.

(** X9. When the cut is made at the break point, the text kept before the
    marker ends with a period or a newline. *)
Theorem clean_break_ends_at_boundary (w : World) (title content : string)
        (max_length : Z) :
  is_empty (strip title) = false ->
  100 <= max_length <= 10000 ->
  page_exists (wiki_page w (strip title)) = Return true ->
  page_text (wiki_page w (strip title)) = Return content ->
  len content > max_length ->
  let truncated := slice_to content max_length in
  let break_point := Z.max (rfind truncated ".") (rfind truncated nl) in
  4 * max_length < 5 * break_point ->
  exists kept,
    result_of (get_article_content w title max_length)
    = Return (kept ++ truncation_marker) /\
    kept = slice_to content (break_point + 1) /\
    (last_char kept = Some "."%char \/ last_char kept = Some LF).
Proof.
  intros Ht Hm Hex Htext Hlong truncated break_point Hc.
  destruct (get_article_content_truncated w title content max_length
              Ht Hm Hex Htext Hlong) as [_ Hres].
  cbv zeta in Hres. fold truncated in Hres. fold break_point in Hres.
  apply Z.ltb_lt in Hc. rewrite Hc in Hres.
  eexists. split; [exact Hres|]. split; [reflexivity|].
  apply Z.ltb_lt in Hc.
  unfold break_point in *.
  destruct (Z.max_spec (rfind truncated ".") (rfind truncated nl)) as [[_ E]|[_ E]];
    rewrite E in *.
  - right. apply (break_point_char content max_length LF); [lia|].
    fold truncated. change (String LF EmptyString) with nl. lia.
  - left. apply (break_point_char content max_length "."%char); [lia|].
    fold truncated. lia.
Qed.

Lemma clean_break_ends_at_boundary_witness :
  let content := replicate 90 "a" ++ "." ++ replicate 20 "b" in
  let w := world_with [] (page_with "" content) DeclinedElicitation in
  exists kept,
    result_of (get_article_content w "Article" 100)
    = Return (kept ++ truncation_marker) /\
    kept = slice_to content (90 + 1) /\
    (last_char kept = Some "."%char \/ last_char kept = Some LF).
Proof.
  intros content w.
  assert (Hm : 100 <= 100 <= 10000) by lia.
  exact (clean_break_ends_at_boundary w "Article" content 100
           eq_refl Hm eq_refl eq_refl eq_refl eq_refl).
Defined.

(* ================================================================== *)
(** ** Further properties: sentence-limited summaries                 *)
(* ================================================================== *)

Lemma count_char_app (c : ascii) (a b : string) :
  count_char c (a ++ b) = (count_char c a + count_char c b)%nat.
Proof.
  induction a as [|d a IH]; [reflexivity|].
  cbn [append count_char]. destruct (Ascii.eqb d c); lia.
Qed.

Lemma count_char_absent (c : ascii) (s : string) :
  ~ char_in c s -> count_char c s = O.
Proof.
  induction s as [|d s IH]; [reflexivity|].
  cbn [char_in count_char]. intros H.
  destruct (Ascii.eqb_spec d c) as [->|_]; [elim H; now left|].
  apply IH. intros Hc. apply H. now right.
Qed.

(** Pieces without periods, joined by [". "]: one period per separator. *)
Lemma count_periods_join (l : list string) :
  (forall x, In x l -> ~ char_in "." x) ->
  count_char "." (join ". " l) = Nat.pred (List.length l).
Proof.
  unfold join. induction l as [|a l IH]; intros Hall; [reflexivity|].
  destruct l as [|b l].
  - cbn [concat]. apply count_char_absent, Hall. now left.
  - change (concat ". " (a :: b :: l)) with (a ++ ". " ++ concat ". " (b :: l)).
    rewrite !count_char_app, IH by (intros x Hx; apply Hall; now right).
    rewrite (count_char_absent "." a) by (apply Hall; now left).
    reflexivity.
Qed.

(** X10. The text returned by [get_article_summary] holds exactly as many
    periods as fragments were kept, so at most [N]: the fragments carry
    none, every separator carries one and the closing period is the last. *)
Theorem summary_sentence_budget (w : World) (title summary : string) (sentences : Z) :
  is_empty (strip title) = false ->
  1 <= sentences <= 10 ->
  page_exists (wiki_page w (strip title)) = Return true ->
  page_summary (wiki_page w (strip title)) = Return summary ->
  is_empty summary = false ->
  exists r,
    result_of (get_article_summary w title sentences) = Return r /\
    count_char "." r
    = Nat.min (Z.to_nat sentences) (List.length (sentences_of summary)) /\
    Z.of_nat (count_char "." r) <= sentences.
Proof.
  intros Ht Hs Hex Hsum Hne.
  rewrite (get_article_summary_found w title summary sentences) by assumption.
  unfold result_of; cbn [snd]. eexists. split; [reflexivity|].
  assert (Hall : forall x, In x (firstn (Z.to_nat sentences) (sentences_of summary)) ->
                           ~ char_in "." x).
  { intros x Hx. apply (sentences_of_spec summary), (firstn_incl _ _ _ Hx). }
  pose proof (length_firstn (Z.to_nat sentences) (sentences_of summary)) as Hlen.
  assert (Hcount :
    count_char "."
      (if negb (is_empty (join ". " (firstn (Z.to_nat sentences) (sentences_of summary))))
          && negb (endswith (join ". " (firstn (Z.to_nat sentences)
                                               (sentences_of summary))) ".")
       then join ". " (firstn (Z.to_nat sentences) (sentences_of summary)) ++ "."
       else join ". " (firstn (Z.to_nat sentences) (sentences_of summary)))
    = List.length (firstn (Z.to_nat sentences) (sentences_of summary))).
  { destruct (firstn (Z.to_nat sentences) (sentences_of summary)) as [|a l] eqn:E.
    - reflexivity.
    - assert (Hnil : firstn (Z.to_nat sentences) (sentences_of summary) <> [])
        by (rewrite E; discriminate).
      destruct (summary_join_not_period summary _ Hnil) as (H1 & H2 & _).
      rewrite E in H1, H2. rewrite H1, H2. cbn [negb andb].
      rewrite count_char_app, count_periods_join by exact Hall.
      cbn [List.length Nat.pred count_char Ascii.eqb Bool.eqb]. lia. }
  rewrite Hcount, Hlen. split; [reflexivity | lia].
Qed.

Lemma summary_sentence_budget_witness :
  let w := world_with [] (page_with "A. B. C. D." "") DeclinedElicitation in
  exists r,
    result_of (get_article_summary w "Article" 2) = Return r /\
    count_char "." r = Nat.min (Z.to_nat 2) (List.length (sentences_of "A. B. C. D.")) /\
    Z.of_nat (count_char "." r) <= 2.
Proof.
  intros w.
  assert (Hs : 1 <= 2 <= 10) by lia.
  exact (summary_sentence_budget w "Article" "A. B. C. D." 2
           eq_refl Hs eq_refl eq_refl eq_refl).
Defined.

(** *** Stripping twice *)

Lemma lstrip_head (s : string) :
  lstrip s = EmptyString \/
  exists c r, lstrip s = String c r /\ isspace c = false.
Proof.
  induction s as [|c s IH]; [now left|].
  cbn [lstrip]. destruct (isspace c) eqn:E; [exact IH|].
  right. exists c, s. auto.
Qed.

Lemma rstrip_idem (s : string) : rstrip (rstrip s) = rstrip s.
Proof.
  induction s as [|c s IH]; [reflexivity|].
  cbn [rstrip]. destruct (rstrip s) as [|d r] eqn:E.
  - destruct (isspace c) eqn:Ec; [reflexivity|].
    cbn [rstrip]. now rewrite Ec.
  - cbn [rstrip]. cbn [rstrip] in IH. rewrite IH. reflexivity.
Qed.

Lemma rstrip_keeps_head (c : ascii) (r : string) :
  isspace c = false -> exists r', rstrip (String c r) = String c r'.
Proof.
  intros Hc. cbn [rstrip]. destruct (rstrip r).
  - rewrite Hc. eauto.
  - eauto.
Qed.

Lemma strip_idem (s : string) : strip (strip s) = strip s.
Proof.
  unfold strip.
  destruct (lstrip_head s) as [E|(c & r & E & Hc)]; rewrite E.
  - reflexivity.
  - destruct (rstrip_keeps_head c r Hc) as [r' Er].
    rewrite Er. cbn [lstrip]. rewrite Hc. rewrite <- Er. apply rstrip_idem.
Qed.

Lemma strip_space_prefix (s : string) : strip (" " ++ s) = strip s.
Proof. reflexivity. Qed.

Lemma split_piece (a rest : string) (sep : ascii) :
  ~ char_in sep a ->
  split (a ++ String sep rest) sep = a :: split rest sep.
Proof.
  induction a as [|c a IH]; intros Ha.
  - cbn [append split]. now rewrite Ascii.eqb_refl.
  - cbn [append split].
    destruct (Ascii.eqb_spec c sep) as [->|_]; [elim Ha; now left|].
    rewrite IH by (intros H; apply Ha; now right). reflexivity.
Qed.

Lemma append_assoc (a b c : string) : (a ++ b) ++ c = a ++ b ++ c.
Proof.
  induction a as [|d a IH]; [reflexivity|]. cbn [append]. now rewrite IH.
Qed.

(** The sentences of a text built from stripped, period-free, non-empty
    pieces are those pieces. *)
Lemma sentences_of_joined (l : list string) :
  l <> [] ->
  (forall x, In x l -> is_empty x = false /\ ~ char_in "." x /\ strip x = x) ->
  sentences_of (join ". " l ++ ".") = l /\
  sentences_of (" " ++ join ". " l ++ ".") = l.
Proof.
  unfold join. induction l as [|a l IH]; [congruence|].
  intros _ Hall.
  destruct (Hall a (or_introl eq_refl)) as (Hne & Hdot & Hstrip).
  assert (Hsp : ~ char_in "." (" " ++ a)).
  { intros [H|H]; [discriminate H | exact (Hdot H)]. }
  destruct l as [|b l].
  - cbn [concat]. unfold sentences_of.
    change (" " ++ a ++ ".") with ((" " ++ a) ++ String "." EmptyString).
    change (a ++ ".") with (a ++ String "." EmptyString).
    rewrite !split_piece by assumption.
    cbn [split filter map]. rewrite strip_space_prefix, Hstrip, Hne.
    cbn [negb is_empty strip lstrip rstrip filter map].
    rewrite ?strip_space_prefix, ?Hstrip. auto.
  - destruct IH as [_ IH]; [discriminate | intros x Hx; apply Hall; now right |].
    change (concat ". " (a :: b :: l)) with (a ++ ". " ++ concat ". " (b :: l)).
    assert (E1 : (a ++ ". " ++ concat ". " (b :: l)) ++ "."
                 = a ++ String "." (" " ++ concat ". " (b :: l) ++ ".")).
    { rewrite append_assoc. reflexivity. }
    rewrite E1.
    change (" " ++ a ++ String "." (" " ++ concat ". " (b :: l) ++ "."))
      with ((" " ++ a) ++ String "." (" " ++ concat ". " (b :: l) ++ ".")).
    unfold sentences_of in *.
    rewrite !split_piece by assumption.
    cbn [filter map]. rewrite strip_space_prefix, Hstrip, Hne. cbn [negb filter map].
    rewrite ?strip_space_prefix, ?Hstrip, IH. auto.
Qed.

Lemma sentences_of_stripped (summary x : string) :
  In x (sentences_of summary) -> strip x = x.
Proof.
  unfold sentences_of. intros H.
  apply in_map_iff in H. destruct H as (y & <- & _). apply strip_idem.
Qed.

(** X11. Summarising is idempotent: when the text returned for a summary is
    not empty, giving it back as the raw summary with the same sentence
    count returns it unchanged. *)
Theorem summary_idempotent (w w' : World) (title title' summary r : string)
        (sentences : Z) :
  is_empty (strip title) = false ->
  is_empty (strip title') = false ->
  1 <= sentences <= 10 ->
  page_exists (wiki_page w (strip title)) = Return true ->
  page_summary (wiki_page w (strip title)) = Return summary ->
  is_empty summary = false ->
  result_of (get_article_summary w title sentences) = Return r ->
  is_empty r = false ->
  page_exists (wiki_page w' (strip title')) = Return true ->
  page_summary (wiki_page w' (strip title')) = Return r ->
  result_of (get_article_summary w' title' sentences) = Return r.
Proof.
  intros Ht Ht' Hs Hex Hsum Hne Hres Hr Hex' Hsum'.
  rewrite (get_article_summary_found w title summary sentences) in Hres by assumption.
  rewrite (get_article_summary_found w' title' r sentences) by assumption.
  unfold result_of in *; cbn [snd] in *. injection Hres as Hres.
  set (kept := firstn (Z.to_nat sentences) (sentences_of summary)) in *.
  destruct kept as [|a l] eqn:E.
  { cbn in Hres. subst r. discriminate Hr. }
  assert (Hnil : firstn (Z.to_nat sentences) (sentences_of summary) <> [])
    by (fold kept; rewrite E; discriminate).
  destruct (summary_join_not_period summary _ Hnil) as (H1 & H2 & _).
  fold kept in H1, H2. rewrite E in H1, H2.
  rewrite H1, H2 in Hres. cbn [negb andb] in Hres.
  assert (Hkept : sentences_of r = a :: l).
  { rewrite <- Hres. apply sentences_of_joined; [discriminate|].
    intros x Hx.
    assert (Hin : In x (sentences_of summary)).
    { apply (firstn_incl (Z.to_nat sentences)). fold kept. rewrite E. exact Hx. }
    destruct (sentences_of_spec summary x Hin) as [Hx1 Hx2].
    split; [exact Hx1|]. split; [exact Hx2|].
    exact (sentences_of_stripped summary x Hin). }
  rewrite Hkept.
  assert (Hfull : firstn (Z.to_nat sentences) (a :: l) = a :: l).
  { apply firstn_all2.
    pose proof (firstn_le_length (Z.to_nat sentences) (sentences_of summary)) as Hl.
    fold kept in Hl. rewrite E in Hl. exact Hl. }
  rewrite Hfull, H1, H2. cbn [negb andb]. now rewrite Hres.
Qed.

Lemma summary_idempotent_witness :
  let w := world_with [] (page_with ("First." ++ nl ++ "Second. Third") "")
                      DeclinedElicitation in
  let w' := world_with [] (page_with "First. Second." "") DeclinedElicitation in
  result_of (get_article_summary w' "Again" 2) = Return "First. Second.".
Proof.
  intros w w'.
  assert (Hs : 1 <= 2 <= 10) by lia.
  exact (summary_idempotent w w' "Article" "Again"
           ("First." ++ nl ++ "Second. Third") "First. Second." 2
           eq_refl eq_refl Hs eq_refl eq_refl eq_refl eq_refl eq_refl eq_refl eq_refl).
Defined.

(* ================================================================== *)
(** ** Further properties: interactive disambiguation                 *)
(* ================================================================== *)

Lemma lookups_app (a b : list event) :
  lookups (a ++ b) = (lookups a ++ lookups b)%list.
Proof.
  induction a as [|ev a IH]; [reflexivity|].
  destruct ev; cbn [app lookups]; rewrite IH; reflexivity.
Qed.

Lemma elicitations_app (a b : list event) :
  elicitations (a ++ b) = (elicitations a ++ elicitations b)%list.
Proof.
  induction a as [|ev a IH]; [reflexivity|].
  destruct ev; cbn [app elicitations]; rewrite IH; reflexivity.
Qed.

Lemma summary_observed (w : World) (title : string) (sentences : Z) :
  elicitations (trace_of (get_article_summary w title sentences)) = [] /\
  (lookups (trace_of (get_article_summary w title sentences)) = [] \/
   lookups (trace_of (get_article_summary w title sentences)) = [strip title]).
Proof.
  destruct (summary_trace w title sentences) as [-> | ->]; cbn; auto.
Qed.

Lemma first_title_match_in (user_input title : string) (search_results : list string) :
  first_title_match user_input search_results = Some title -> In title search_results.
Proof.
  induction search_results as [|c rest IH]; [discriminate|].
  cbn [first_title_match]. destruct (str_in _ _).
  - intros H; injection H as ->. now left.
  - intros H. right. auto.
Qed.

(** What resolving a reply can look up: nothing, or one candidate. *)
Lemma accepted_selection_observed (w : World) (data : string)
      (search_results : list string) :
  elicitations (trace_of (accepted_selection (ToolObject get_article_summary) w data search_results)) = [] /\
  (lookups (trace_of (accepted_selection (ToolObject get_article_summary) w data search_results)) = [] \/
   exists c, In c search_results /\
             lookups (trace_of (accepted_selection (ToolObject get_article_summary) w data search_results)) = [strip c]).
Proof.
  unfold accepted_selection.
  destruct (first_title_match (strip data) search_results) as [title|] eqn:F.
  - apply first_title_match_in in F.
    destruct (summary_observed w title 3) as [He Hl].
    unfold trace_of in *. run_tool.
    destruct (get_article_summary w title 3) as [t r]. cbn [fst snd] in *.
    split; [exact He|].
    destruct Hl as [Hl|Hl]; [left; exact Hl | right; exists title; auto].
  - unfold number_selection.
    destruct (int (strip data)) as [n|]; [|cbn; auto].
    run_tool.
    destruct (Z.leb_spec 1 n) as [H1|H1]; [|cbn; auto].
    destruct (Z.leb_spec n (llen search_results)) as [H2|H2]; [|cbn; auto].
    cbn [andb].
    assert (Hin : In (nth (Z.to_nat (n - 1)) search_results "") search_results).
    { apply nth_In. unfold llen in H2. lia. }
    destruct (summary_observed w (nth (Z.to_nat (n - 1)) search_results "") 3)
      as [He Hl].
    unfold trace_of in *.
    destruct (get_article_summary w (nth (Z.to_nat (n - 1)) search_results "") 3)
      as [t [s|e]]; cbn [fst snd] in *.
    + rewrite !app_nil_r. cbn [app elicitations lookups].
      split; [exact He|].
      destruct Hl as [Hl|Hl]; [left; exact Hl | right; eauto].
    + destruct (is_ValueError e); cbn [fst snd];
        rewrite ?app_nil_r; cbn [app elicitations lookups];
        (split; [exact He|]);
        (destruct Hl as [Hl|Hl]; [left; exact Hl | right; eauto]).
Qed.

(** A search that raises made no request or one. *)
Lemma search_wikipedia_raises (w : World) (query : string) (limit : Z)
      (t : list event) (e : exn) :
  search_wikipedia w query limit = (t, Raise e) ->
  t = [] \/ t = [HttpGet (strip query) limit].
Proof.
  unfold search_wikipedia.
  destruct (is_empty query || is_empty (strip query));
    [intros H; injection H as <- _; now left|].
  destruct ((limit <? 1) || (limit >? 10));
    [intros H; injection H as <- _; now left|].
  run_tool. destruct (requests_get w (strip query) limit) as [a|e0];
    [|destruct e0]; cbn; intros H; injection H as <- _; now right.
Qed.

(** X12. With both names bound to tool objects that hold the server's
    functions as [fn], and two candidates or more, a prompt that is declined
    or cancelled ends the tool with the cancellation message; the user was
    asked once and no article was looked up. *)
Theorem declined_prompt_cancels (w : World) (query : string) (t : list event)
        (a b : string) (rest : list string) (reply : ElicitationResult) :
  search_wikipedia w query 8 = (t, Return (a :: b :: rest)) ->
  ctx_elicit w (elicit_message query (a :: b :: rest)) = Return reply ->
  reply = DeclinedElicitation \/ reply = CancelledElicitation ->
  exists r,
    result_of (interactive_search_with_tools w query) = Return r /\
    str_in "cancelled" (lower r) = true /\
    elicitations (trace_of (interactive_search_with_tools w query))
    = [elicit_message query (a :: b :: rest)] /\
    lookups (trace_of (interactive_search_with_tools w query)) = [].
Proof.
  intros Hs He Hr.
  destruct (search_wikipedia_returns _ _ _ _ _ Hs) as [Hq ->].
  unfold interactive_search_with_tools, interactive_search_in. rewrite Hq. run_tool. rewrite Hs, He.
  exists "Search cancelled or invalid selection.".
  destruct Hr as [-> | ->]; repeat split.
Qed.

Lemma declined_prompt_cancels_witness :
  let w := world_with ["Article 1"; "Article 2"] (page_with "A." "")
                      DeclinedElicitation in
  exists r,
    result_of (interactive_search_with_tools w "query") = Return r /\
    str_in "cancelled" (lower r) = true /\
    elicitations (trace_of (interactive_search_with_tools w "query"))
    = [elicit_message "query" ["Article 1"; "Article 2"]] /\
    lookups (trace_of (interactive_search_with_tools w "query")) = [].
Proof.
  intros w.
  exact (declined_prompt_cancels w "query" [HttpGet "query" 8] "Article 1" "Article 2"
           [] DeclinedElicitation eq_refl eq_refl (or_introl eq_refl)).
Defined.

(** X13. With both names bound to tool objects that hold the server's
    functions as [fn], the tool asks the user at most once and looks up at
    most one article, and that article is one of the titles the search
    returned. *)
Theorem interactive_search_looks_up_a_candidate (w : World) (query : string) :
  let run := interactive_search_with_tools w query in
  (List.length (elicitations (trace_of run)) <= 1)%nat /\
  (lookups (trace_of run) = [] \/
   exists t titles c,
     search_wikipedia w query 8 = (t, Return titles) /\
     In c titles /\ lookups (trace_of run) = [strip c]).
Proof.
  intros run. subst run. unfold interactive_search_with_tools, interactive_search_in.
  destruct (is_empty query || is_empty (strip query)); [cbn; auto|].
  run_tool.
  destruct (search_wikipedia w query 8) as [t [titles|e]] eqn:Hs;
    [|destruct (search_wikipedia_raises w query 8 t e Hs) as [-> | ->]; cbn; auto].
  destruct (search_wikipedia_returns _ _ _ _ _ Hs) as [_ ->].
  destruct titles as [|a [|b rest]].
  - cbn. auto.
  - destruct (summary_observed w a 3) as [He Hl]. unfold trace_of in *.
    destruct (get_article_summary w a 3) as [ts rs]. cbn [fst snd app] in *.
    cbn [elicitations lookups]. rewrite He. split; [cbn; lia|].
    destruct Hl as [Hl|Hl]; [left; exact Hl|].
    right. exists [HttpGet (strip query) 8], [a], a. cbn; auto.
  - destruct (ctx_elicit w (elicit_message query (a :: b :: rest))) as [[data| |]|e];
      try (cbn; split; [lia | now left]).
    destruct (accepted_selection_observed w data (a :: b :: rest)) as [He Hl].
    unfold trace_of in *.
    destruct (accepted_selection (ToolObject get_article_summary) w data (a :: b :: rest)) as [ts rs].
    cbn [fst snd app] in *. cbn [elicitations lookups]. rewrite He.
    split; [cbn; lia|].
    destruct Hl as [Hl|(c & Hc & Hl)]; [left; exact Hl|].
    right. exists [HttpGet (strip query) 8], (a :: b :: rest), c. auto.
Qed.

(** X14. With both names bound to tool objects that hold the server's
    functions as [fn], a blank query makes the tool raise before anything
    leaves the process, and a search that raises makes it raise the same
    exception: in both cases the user is never prompted and no article is
    looked up. *)
Theorem interactive_search_failed_search (w : World) (query : string) :
  (is_empty (strip query) = true ->
   interactive_search_with_tools w query = ([], Raise (ValueError "Query cannot be empty")))
  /\
  (forall e,
     result_of (search_wikipedia w query 8) = Raise e ->
     result_of (interactive_search_with_tools w query) = Raise e /\
     elicitations (trace_of (interactive_search_with_tools w query)) = [] /\
     lookups (trace_of (interactive_search_with_tools w query)) = []).
Proof.
  split.
  - intros Hb. unfold interactive_search_with_tools, interactive_search_in. rewrite Hb, orb_true_r. reflexivity.
  - intros e Hs. unfold interactive_search_with_tools, interactive_search_in.
    destruct (is_empty query || is_empty (strip query)) eqn:Hq.
    + unfold search_wikipedia in Hs. rewrite Hq in Hs. cbn in Hs.
      injection Hs as <-. repeat split.
    + destruct (search_wikipedia w query 8) as [t r] eqn:E.
      cbn [result_of snd] in Hs. subst r.
      destruct (search_wikipedia_raises _ _ _ _ _ E) as [-> | ->];
        run_tool; rewrite E; cbn; repeat split.
Qed.

Lemma interactive_search_failed_search_witness :
  let w := {| requests_get := fun _ _ => Raise (RequestException "timed out");
              wiki_page := fun _ => missing_page;
              ctx_elicit := fun _ => Return DeclinedElicitation |} in
  interactive_search_with_tools w "  " = ([], Raise (ValueError "Query cannot be empty")) /\
  result_of (interactive_search_with_tools w "python")
  = Raise (ValueError "Failed to search Wikipedia: timed out").
Proof.
  intros w. split.
  - exact (proj1 (interactive_search_failed_search w "  ") eq_refl).
  - exact (proj1 (proj2 (interactive_search_failed_search w "python") _ eq_refl)).
Defined.

(** *** Reading back a printed number *)
















(* ================================================================== *)
(** ** Further properties: the chat loop                              *)
(* ================================================================== *)

Lemma iteration_quits (agent : Agent) (st : option AgentRunResult)
      (input : outcome string) :
  quits input -> snd (chat_iteration agent st input) = Return Break.
Proof.
  intros (raw & -> & Hq). unfold chat_iteration, loop_body. now rewrite Hq.
Qed.

Lemma quits_not_raised (agent : Agent) (st : option AgentRunResult)
      (input : outcome string) (e : exn) :
  quits input -> ~ raised_in_iteration agent st input e.
Proof.
  intros (raw & -> & Hq) [H|(r & H & Hq' & _)]; [discriminate H|].
  injection H as <-. congruence.
Qed.

Lemma iteration_raises (agent : Agent) (st : option AgentRunResult)
      (input : outcome string) (e : exn) :
  raised_in_iteration agent st input e ->
  snd (chat_iteration agent st input)
  = if is_KeyboardInterrupt e then Return Break
    else if is_Exception e then Return Continue
    else Raise e.
Proof.
  intros [-> | (raw & -> & Hq & Hh & Hc & He & Ha)];
    unfold chat_iteration, loop_body; [|rewrite Hq, Hh, Hc, He, Ha];
    destruct e; reflexivity.
Qed.

Lemma iteration_quiet (agent : Agent) (st : option AgentRunResult)
      (input : outcome string) :
  ~ quits input -> (forall e, ~ raised_in_iteration agent st input e) ->
  snd (chat_iteration agent st input) = Return Continue.
Proof.
  intros Hq Hr.
  destruct input as [raw|e]; [|exfalso; apply (Hr e); now left].
  unfold chat_iteration, loop_body.
  destruct (str_mem (lower (strip raw)) ["quit"; "exit"; "q"]) eqn:Eq;
    [exfalso; apply Hq; exists raw; auto|].
  destruct (str_mem (lower (strip raw)) ["history"; "hist"; "h"]) eqn:Eh;
    [reflexivity|].
  destruct (str_mem (lower (strip raw)) ["clear"; "clear history"; "reset"]) eqn:Ec;
    [reflexivity|].
  destruct (is_empty (strip raw)) eqn:Ee; [reflexivity|].
  destruct (agent (strip raw) (get_message_history_for_next_run st))
    as [result|e] eqn:Ea; [reflexivity|].
  exfalso. apply (Hr e). right. exists raw. auto 10.
Qed.

Lemma iteration_exhaustive (agent : Agent) (st : option AgentRunResult)
      (input : outcome string) :
  quits input \/ (exists e, raised_in_iteration agent st input e)
  \/ (~ quits input /\ forall e, ~ raised_in_iteration agent st input e).
Proof.
  destruct input as [raw|e]; [|right; left; exists e; now left].
  destruct (str_mem (lower (strip raw)) ["quit"; "exit"; "q"]) eqn:Eq;
    [left; exists raw; auto|].
  right.
  assert (Hnq : ~ quits (Return raw)).
  { intros (r & H & Hq). injection H as <-. congruence. }
  destruct (str_mem (lower (strip raw)) ["history"; "hist"; "h"]) eqn:Eh.
  { right. split; [exact Hnq|].
    intros e [H|(r & H & _ & Hh & _)]; [discriminate H|].
    injection H as <-. congruence. }
  destruct (str_mem (lower (strip raw)) ["clear"; "clear history"; "reset"]) eqn:Ec.
  { right. split; [exact Hnq|].
    intros e [H|(r & H & _ & _ & Hc & _)]; [discriminate H|].
    injection H as <-. congruence. }
  destruct (is_empty (strip raw)) eqn:Ee.
  { right. split; [exact Hnq|].
    intros e [H|(r & H & _ & _ & _ & He & _)]; [discriminate H|].
    injection H as <-. congruence. }
  destruct (agent (strip raw) (get_message_history_for_next_run st))
    as [result|e] eqn:Ea.
  - right. split; [exact Hnq|].
    intros e [H|(r & H & _ & _ & _ & _ & Ha)]; [discriminate H|].
    injection H as <-. congruence.
  - left. exists e. right. exists raw. auto 10.
Qed.

(** X16. How an iteration of the chat loop ends, case by case.  It leaves
    the loop by [break] exactly when the stripped, lower-cased input is a
    quit command, or [KeyboardInterrupt] is raised by reading the input or
    by the agent call the input is forwarded to.  An exception leaves the
    loop and goes on to the caller exactly when it is raised at one of
    these two places and is neither an [Exception] nor
    [KeyboardInterrupt] ([SystemExit], [asyncio.CancelledError], ...).
    The loop runs on in every other case: after an [Exception] raised at
    either place, and after an iteration in which nothing was raised and
    the input was no quit command. *)
Theorem chat_iteration_leaves_iff (agent : Agent) (st : option AgentRunResult)
        (input : outcome string) :
  let quit :=
    exists raw, input = Return raw /\
                str_mem (lower (strip raw)) ["quit"; "exit"; "q"] = true in
  let raised (e : exn) :=
    input = Raise e \/
    exists raw,
      input = Return raw /\
      str_mem (lower (strip raw)) ["quit"; "exit"; "q"] = false /\
      str_mem (lower (strip raw)) ["history"; "hist"; "h"] = false /\
      str_mem (lower (strip raw)) ["clear"; "clear history"; "reset"] = false /\
      is_empty (strip raw) = false /\
      agent (strip raw) (get_message_history_for_next_run st) = Raise e in
  let ctl := snd (chat_iteration agent st input) in
  (ctl = Return Break <-> quit \/ raised KeyboardInterrupt)
  /\
  (forall e, ctl = Raise e <->
             raised e /\ is_Exception e = false /\ e <> KeyboardInterrupt)
  /\
  (ctl = Return Continue <->
   (exists e, raised e /\ is_Exception e = true)
   \/ (~ quit /\ forall e, ~ raised e)).
Proof.
  intros quit raised ctl.
  change quit with (quits input) in *.
  change raised with (raised_in_iteration agent st input) in *.
  subst ctl. clear quit raised.
  pose proof (iteration_exhaustive agent st input) as [Hq|[(e' & Hr)|(Hnq & Hnr)]].
  - rewrite (iteration_quits agent st input Hq).
    split; [|split].
    + split; auto.
    + intros e. split; [discriminate|]. intros (Hr & _ & _).
      destruct (quits_not_raised agent st input e Hq Hr).
    + split; [discriminate|].
      intros [(e & Hr & He)|(Hnq & _)]; [|contradiction].
      destruct (quits_not_raised agent st input e Hq Hr).
  - assert (Hu : forall e, raised_in_iteration agent st input e -> e = e').
    { intros e [H|(r & H & _ & _ & _ & _ & Ha)];
        destruct Hr as [H'|(r' & H' & _ & _ & _ & _ & Ha')]; congruence. }
    rewrite (iteration_raises agent st input e' Hr).
    split; [|split].
    + split.
      * intros H. right. destruct e'; cbn in H; try discriminate H. exact Hr.
      * intros [Hq|Hk].
        -- destruct (quits_not_raised agent st input e' Hq Hr).
        -- now rewrite <- (Hu _ Hk).
    + intros e. split.
      * intros H. destruct e'; cbn in H; try discriminate H;
          injection H as <-; (split; [exact Hr|split; [reflexivity|discriminate]]).
      * intros (He & Hx & Hk). rewrite (Hu _ He) in *.
        destruct e'; cbn in *; congruence.
    + split.
      * intros H. left. exists e'. split; [exact Hr|].
        destruct e'; cbn in *; congruence.
      * intros [(e & He & Hx)|(_ & Hn)]; [|destruct (Hn e' Hr)].
        rewrite (Hu _ He) in *. destruct e'; cbn in *; congruence.
  - rewrite (iteration_quiet agent st input Hnq Hnr).
    split; [|split].
    + split; [discriminate|]. intros [Hq|Hk]; [contradiction|destruct (Hnr _ Hk)].
    + intros e. split; [discriminate|]. intros (He & _). destruct (Hnr _ He).
    + split; auto.
Qed.

(** X17. The history command, the clear command and a blank line are
    handled without the agent: whatever the agent is, history and a blank
    line leave the session state as it was, and clear resets it, so that
    the inputs after a clear run as in a fresh session. *)
Theorem local_commands_skip_agent (agent : Agent) (st : option AgentRunResult)
        (raw : string) (rest : list (outcome string)) :
  let command := lower (strip raw) in
  str_mem command ["quit"; "exit"; "q"] = false ->
  (str_mem command ["history"; "hist"; "h"] = true ->
   chat_loop agent st (Return raw :: rest)
   = let (out, fin) := chat_loop agent st rest in
     (PrintHistory st :: PrintBlank :: out, fin))
  /\
  (str_mem command ["history"; "hist"; "h"] = false ->
   str_mem command ["clear"; "clear history"; "reset"] = true ->
   chat_loop agent st (Return raw :: rest)
   = let (out, fin) := chat_loop agent None rest in
     (PrintHistoryCleared :: PrintBlank :: out, fin))
  /\
  (str_mem command ["history"; "hist"; "h"] = false ->
   str_mem command ["clear"; "clear history"; "reset"] = false ->
   is_empty (strip raw) = true ->
   chat_loop agent st (Return raw :: rest) = chat_loop agent st rest).
Proof.
  intros command Hq. subst command.
  cbn [chat_loop]. unfold chat_iteration, loop_body. rewrite Hq.
  split; [|split].
  - intros ->. destruct (chat_loop agent st rest); reflexivity.
  - intros -> ->. destruct (chat_loop agent None rest); reflexivity.
  - intros -> -> ->. destruct (chat_loop agent st rest); reflexivity.
Qed.

Lemma local_commands_skip_agent_witness :
  let agent : Agent := fun _ _ => Raise (OtherException "unreachable") in
  let previous := {| output := "Hi"; new_messages := []; all_messages := [] |} in
  chat_loop agent (Some previous) [Return " Clear "; Return "h"]
  = ([PrintHistoryCleared; PrintBlank; PrintHistory None; PrintBlank],
     AwaitingInput None).
Proof.
  intros agent previous.
  exact (proj1 (proj2 (local_commands_skip_agent agent (Some previous) " Clear "
                         [Return "h"] eq_refl))
           eq_refl eq_refl).
Defined.

(** The state a run ends with. *)
Lemma chat_iteration_state (agent : Agent) (st : option AgentRunResult)
      (input : outcome string) :
  let st' := snd (fst (chat_iteration agent st input)) in
  st' = st \/ st' = None \/
  exists user_input history r, agent user_input history = Return r /\ st' = Some r.
Proof.
  unfold chat_iteration, loop_body.
  destruct input as [raw|e]; [|destruct e; cbn; auto].
  destruct (str_mem (lower (strip raw)) ["quit"; "exit"; "q"]); [cbn; auto|].
  destruct (str_mem (lower (strip raw)) ["history"; "hist"; "h"]); [cbn; auto|].
  destruct (str_mem (lower (strip raw)) ["clear"; "clear history"; "reset"]);
    [cbn; auto|].
  destruct (is_empty (strip raw)); [cbn; auto|].
  destruct (agent (strip raw) (get_message_history_for_next_run st))
    as [result|e] eqn:Ea.
  - cbn. right. right. eauto.
  - destruct e; cbn; auto.
Qed.

Lemma chat_iteration_assistant (agent : Agent) (st : option AgentRunResult)
      (input : outcome string) (text : string) :
  In (PrintAssistant text) (fst (fst (chat_iteration agent st input))) ->
  exists user_input history r,
    agent user_input history = Return r /\ output r = text.
Proof.
  unfold chat_iteration, loop_body.
  destruct input as [raw|e];
    [|destruct e; cbn; intros H; repeat (destruct H as [H|H]; try discriminate H);
      contradiction].
  destruct (str_mem (lower (strip raw)) ["quit"; "exit"; "q"]);
    [cbn; intros [H|[]]; discriminate H|].
  destruct (str_mem (lower (strip raw)) ["history"; "hist"; "h"]);
    [cbn; intros [H|[H|[]]]; discriminate H|].
  destruct (str_mem (lower (strip raw)) ["clear"; "clear history"; "reset"]);
    [cbn; intros [H|[H|[]]]; discriminate H|].
  destruct (is_empty (strip raw)); [cbn; intros []|].
  destruct (agent (strip raw) (get_message_history_for_next_run st))
    as [result|e] eqn:Ea.
  - cbn. intros [H|[H|[H|[H|[H|[]]]]]]; try discriminate H.
    injection H as <-. eauto.
  - destruct e; cbn; intros H;
      repeat (destruct H as [H|H]; try discriminate H); contradiction.
Qed.

(** X18. Whatever the inputs, the state a session ends with is its initial
    state, the cleared state, or a result the agent returned; and every
    assistant panel shown holds the output of a result the agent
    returned. *)
Theorem chat_loop_shows_agent_results (agent : Agent) (inputs : list (outcome string)) :
  forall st : option AgentRunResult,
    let run := chat_loop agent st inputs in
    (state_of (snd run) = st \/ state_of (snd run) = None \/
     exists user_input history r,
       agent user_input history = Return r /\ state_of (snd run) = Some r)
    /\
    (forall text, In (PrintAssistant text) (fst run) ->
       exists user_input history r,
         agent user_input history = Return r /\ output r = text).
Proof.
  induction inputs as [|input rest IH]; intros st; cbn zeta.
  - cbn. split; [auto | intros text []].
  - cbn [chat_loop].
    pose proof (chat_iteration_state agent st input) as Hst.
    pose proof (chat_iteration_assistant agent st input) as Hout.
    destruct (chat_iteration agent st input) as [[out st'] [[|]|e]];
      cbn [fst snd] in *.
    + cbn [state_of]. split; [exact Hst | exact Hout].
    + specialize (IH st'). cbn zeta in IH.
      destruct (chat_loop agent st' rest) as [out' fin]. cbn [fst snd] in *.
      destruct IH as [IHs IHo]. split.
      * destruct IHs as [E|[E|E]]; [rewrite E; exact Hst | auto | auto].
      * intros text Hin. apply in_app_or in Hin.
        destruct Hin as [Hin|Hin]; [exact (Hout text Hin) | exact (IHo text Hin)].
    + cbn [state_of]. split; [exact Hst | exact Hout].
Qed.

(** X19. Inputs that come after the loop was left are never read: a run
    that has terminated is not changed by what follows in the script. *)
Theorem terminated_loop_reads_no_more (agent : Agent)
        (pre rest : list (outcome string)) :
  forall (st st' : option AgentRunResult) (out : list console_output),
    chat_loop agent st pre = (out, Terminated st') ->
    chat_loop agent st (pre ++ rest) = (out, Terminated st').
Proof.
  induction pre as [|input pre IH]; intros st st' out H.
  - cbn in H. discriminate H.
  - cbn [chat_loop app] in *.
    destruct (chat_iteration agent st input) as [[o s] [[|]|e]];
      [exact H| |discriminate H].
    destruct (chat_loop agent s pre) as [o' f] eqn:E.
    injection H as <- ->.
    now rewrite (IH _ _ _ E).
Qed.

Lemma terminated_loop_reads_no_more_witness :
  let agent : Agent := fun _ _ => Raise (OtherException "unreachable") in
  chat_loop agent None ([Return "EXIT"] ++ [Return "hello"; Raise KeyboardInterrupt])
  = ([PrintThanks], Terminated None).
Proof.
  intros agent.
  exact (terminated_loop_reads_no_more agent [Return "EXIT"]
           [Return "hello"; Raise KeyboardInterrupt] None None [PrintThanks] eq_refl).
Defined.

(** X27. An exception that is neither an [Exception] nor
    [KeyboardInterrupt] ([SystemExit], [asyncio.CancelledError], ...) is
    caught by neither [except] clause of the chat loop: raised by reading
    the input, or by the agent call the input is forwarded to, it ends the
    run at once and goes on to the caller, with the session state as it
    was, no farewell and no error line, and the inputs that follow are
    not read. *)
Theorem uncaught_exception_ends_session
        (agent : Agent) (st0 st : option AgentRunResult)
        (pre rest : list (outcome string)) (out : list console_output)
        (e : exn) :
  chat_loop agent st0 pre = (out, AwaitingInput st) ->
  is_Exception e = false ->
  is_KeyboardInterrupt e = false ->
  chat_loop agent st0 (pre ++ Raise e :: rest) = (out, Propagated e st)
  /\
  (forall raw,
     let user_input := strip raw in
     str_mem (lower user_input) ["quit"; "exit"; "q"] = false ->
     str_mem (lower user_input) ["history"; "hist"; "h"] = false ->
     str_mem (lower user_input) ["clear"; "clear history"; "reset"] = false ->
     is_empty user_input = false ->
     agent user_input (get_message_history_for_next_run st) = Raise e ->
     chat_loop agent st0 (pre ++ Return raw :: rest)
     = ((out ++ [ProgressProcessing])%list, Propagated e st)).
Proof.
  intros Hpre He Hk. split.
  - rewrite (chat_loop_app agent pre _ _ _ _ Hpre).
    cbn [chat_loop]. unfold chat_iteration, loop_body. rewrite Hk, He.
    now rewrite app_nil_r.
  - intros raw user_input Hq Hh Hc Hne Ha.
    rewrite (chat_loop_app agent pre _ _ _ _ Hpre).
    cbn [chat_loop]. unfold chat_iteration, loop_body. fold user_input.
    rewrite Hq, Hh, Hc, Hne, Ha, He, Hk, He. reflexivity.
Qed.

Lemma uncaught_exception_ends_session_witness :
  let agent : Agent := fun _ _ => Raise CancelledError in
  chat_loop agent None [Return "h"; Raise SystemExit; Return "hello"]
  = ([PrintHistory None; PrintBlank], Propagated SystemExit None)
  /\
  chat_loop agent None [Return "hello"; Return "quit"]
  = ([ProgressProcessing], Propagated CancelledError None).
Proof.
  intros agent. split.
  - exact (proj1 (uncaught_exception_ends_session
                    agent None None [Return "h"] [Return "hello"]
                    [PrintHistory None; PrintBlank] SystemExit
                    eq_refl eq_refl eq_refl)).
  - exact (proj2 (uncaught_exception_ends_session
                    agent None None [] [Return "quit"] [] CancelledError
                    eq_refl eq_refl eq_refl)
             "hello" eq_refl eq_refl eq_refl eq_refl eq_refl).
Defined.

(* ================================================================== *)
(** ** Further properties: the chat history display                   *)
(* ================================================================== *)

Lemma user_messages_wellformed (now : Z) (parts : list ChatHistory.Part)
      (msg : ChatHistory.ChatMessage) :
  In msg (ChatHistory.user_messages now parts) ->
  ChatHistory.role msg = "user" /\ is_empty (ChatHistory.content msg) = false.
Proof.
  induction parts as [|part rest IH]; [intros []|].
  cbn [ChatHistory.user_messages].
  destruct (ChatHistory.has_content part) eqn:Hc; [|exact IH].
  destruct (String.eqb (ChatHistory.class_name part) "UserPromptPart"); [|exact IH].
  intros [<-|H]; [|exact (IH H)].
  cbn. split; [reflexivity|].
  unfold ChatHistory.has_content, ChatHistory.content_of in *.
  destruct (ChatHistory.part_content part); [|discriminate Hc].
  now apply negb_true_iff in Hc.
Qed.

Lemma text_parts_nonempty (parts : list ChatHistory.Part) (x : string) :
  In x (ChatHistory.text_parts parts) -> is_empty x = false.
Proof.
  induction parts as [|part rest IH]; [intros []|].
  cbn [ChatHistory.text_parts].
  destruct (ChatHistory.has_content part) eqn:Hc; [|exact IH].
  destruct (String.eqb (ChatHistory.class_name part) "TextPart"); [|exact IH].
  intros [<-|H]; [|exact (IH H)].
  unfold ChatHistory.has_content, ChatHistory.content_of in *.
  destruct (ChatHistory.part_content part); [|discriminate Hc].
  now apply negb_true_iff in Hc.
Qed.

(** The messages shown have one of the two roles and some content. *)
Lemma convert_messages_wellformed (now : Z) (messages : list ChatHistory.Message)
      (msg : ChatHistory.ChatMessage) :
  In msg (ChatHistory.convert_messages_for_display now messages) ->
  (ChatHistory.role msg = "user" \/ ChatHistory.role msg = "assistant") /\
  is_empty (ChatHistory.content msg) = false.
Proof.
  induction messages as [|m rest IH]; [intros []|].
  destruct m as [parts|parts t]; cbn [ChatHistory.convert_messages_for_display].
  - intros H. apply in_app_or in H. destruct H as [H|H]; [|exact (IH H)].
    destruct (user_messages_wellformed now parts msg H). auto.
  - destruct (ChatHistory.text_parts parts) as [|x l] eqn:E; [exact IH|].
    intros [<-|H]; [|exact (IH H)].
    cbn. split; [now right|].
    apply (join_last_char " " (x :: l)); [discriminate|].
    intros y Hy. apply (text_parts_nonempty parts). now rewrite E.
Qed.

(** Where a user message comes from. *)
Lemma user_messages_source (now : Z) (parts : list ChatHistory.Part)
      (msg : ChatHistory.ChatMessage) :
  In msg (ChatHistory.user_messages now parts) ->
  exists part,
    In part parts /\ ChatHistory.class_name part = "UserPromptPart" /\
    ChatHistory.part_content part = Some (ChatHistory.content msg).
Proof.
  induction parts as [|part rest IH]; [intros []|].
  cbn [ChatHistory.user_messages].
  assert (Hrest : In msg (ChatHistory.user_messages now rest) ->
                  exists p, In p (part :: rest) /\
                            ChatHistory.class_name p = "UserPromptPart" /\
                            ChatHistory.part_content p
                            = Some (ChatHistory.content msg)).
  { intros H. destruct (IH H) as (p & Hp & Hrest). exists p. split; [now right|exact Hrest]. }
  destruct (ChatHistory.has_content part) eqn:Hc; [|exact Hrest].
  destruct (String.eqb (ChatHistory.class_name part) "UserPromptPart") eqn:Ek;
    [|exact Hrest].
  intros [<-|H]; [|exact (Hrest H)].
  exists part. split; [now left|]. split; [now apply String.eqb_eq|].
  cbn [ChatHistory.content].
  unfold ChatHistory.has_content, ChatHistory.content_of in *.
  destruct (ChatHistory.part_content part); [reflexivity | discriminate Hc].
Qed.

(** Where a piece of an assistant message comes from. *)
Lemma text_parts_source (parts : list ChatHistory.Part) (x : string) :
  In x (ChatHistory.text_parts parts) ->
  exists part,
    In part parts /\ ChatHistory.class_name part = "TextPart" /\
    ChatHistory.part_content part = Some x /\ is_empty x = false.
Proof.
  induction parts as [|part rest IH]; [intros []|].
  cbn [ChatHistory.text_parts].
  assert (Hrest : In x (ChatHistory.text_parts rest) ->
                  exists p, In p (part :: rest) /\
                            ChatHistory.class_name p = "TextPart" /\
                            ChatHistory.part_content p = Some x /\
                            is_empty x = false).
  { intros H. destruct (IH H) as (p & Hp & Hrest). exists p. split; [now right|exact Hrest]. }
  destruct (ChatHistory.has_content part) eqn:Hc; [|exact Hrest].
  destruct (String.eqb (ChatHistory.class_name part) "TextPart") eqn:Ek;
    [|exact Hrest].
  intros [<-|H]; [|exact (Hrest H)].
  exists part. split; [now left|]. split; [now apply String.eqb_eq|].
  unfold ChatHistory.has_content, ChatHistory.content_of in *.
  destruct (ChatHistory.part_content part) as [c|]; [|discriminate Hc].
  split; [reflexivity | now apply negb_true_iff in Hc].
Qed.

(** X20. Every message that [convert_messages_for_display] produces has a
    non-empty content and comes from the messages in one of two ways.  It
    is a "user" message whose content is the content of a [UserPromptPart]
    of a request; or it is an "assistant" message whose content joins, with
    single spaces, one or more non-empty contents of [TextPart]s of one
    response.  So parts without content, and parts of any other class
    (system prompts, tool calls and returns), are never shown. *)
Theorem display_messages_wellformed (now : Z) (messages : list ChatHistory.Message)
        (msg : ChatHistory.ChatMessage) :
  In msg (ChatHistory.convert_messages_for_display now messages) ->
  is_empty (ChatHistory.content msg) = false /\
  ((ChatHistory.role msg = "user" /\
    exists parts part,
      In (ChatHistory.RequestMessage parts) messages /\ In part parts /\
      ChatHistory.class_name part = "UserPromptPart" /\
      ChatHistory.part_content part = Some (ChatHistory.content msg))
   \/
   (ChatHistory.role msg = "assistant" /\
    exists parts t texts,
      In (ChatHistory.ResponseMessage parts t) messages /\
      texts <> [] /\ ChatHistory.content msg = join " " texts /\
      forall x, In x texts ->
        exists part,
          In part parts /\ ChatHistory.class_name part = "TextPart" /\
          ChatHistory.part_content part = Some x /\ is_empty x = false)).
Proof.
  intros Hin.
  split; [exact (proj2 (convert_messages_wellformed now messages msg Hin))|].
  induction messages as [|m rest IH]; [destruct Hin|].
  assert (Hrest :
    In msg (ChatHistory.convert_messages_for_display now rest) ->
    (ChatHistory.role msg = "user" /\
     exists parts part,
       In (ChatHistory.RequestMessage parts) (m :: rest) /\ In part parts /\
       ChatHistory.class_name part = "UserPromptPart" /\
       ChatHistory.part_content part = Some (ChatHistory.content msg))
    \/
    (ChatHistory.role msg = "assistant" /\
     exists parts t texts,
       In (ChatHistory.ResponseMessage parts t) (m :: rest) /\
       texts <> [] /\ ChatHistory.content msg = join " " texts /\
       forall x, In x texts ->
         exists part,
           In part parts /\ ChatHistory.class_name part = "TextPart" /\
           ChatHistory.part_content part = Some x /\ is_empty x = false)).
  { intros H.
    destruct (IH H) as [(Hr & parts & part & Hm & Hp)
                       |(Hr & parts & t & texts & Hm & Hp)].
    - left. split; [exact Hr|]. exists parts, part. split; [now right|exact Hp].
    - right. split; [exact Hr|]. exists parts, t, texts.
      split; [now right|exact Hp]. }
  destruct m as [parts|parts t];
    cbn [ChatHistory.convert_messages_for_display] in Hin.
  - apply in_app_or in Hin. destruct Hin as [H|H]; [|exact (Hrest H)].
    left. split; [exact (proj1 (user_messages_wellformed now parts msg H))|].
    destruct (user_messages_source now parts msg H) as (part & Hp).
    exists parts, part. split; [now left|exact Hp].
  - destruct (ChatHistory.text_parts parts) as [|x l] eqn:E; [exact (Hrest Hin)|].
    destruct Hin as [<-|H]; [|exact (Hrest H)].
    right. split; [reflexivity|].
    exists parts, t, (x :: l). split; [now left|].
    split; [discriminate|]. split; [reflexivity|].
    intros y Hy. apply text_parts_source. now rewrite E.
Qed.

Lemma display_messages_wellformed_witness :
  let request :=
    [{| ChatHistory.class_name := "SystemPromptPart";
        ChatHistory.part_content := Some "You are a research assistant.";
        ChatHistory.part_timestamp := Some 1 |};
     {| ChatHistory.class_name := "UserPromptPart";
        ChatHistory.part_content := Some "Who was Ada Lovelace?";
        ChatHistory.part_timestamp := Some 2 |}] in
  let messages :=
    [ChatHistory.RequestMessage request;
     ChatHistory.ResponseMessage
       [{| ChatHistory.class_name := "ToolCallPart";
           ChatHistory.part_content := None;
           ChatHistory.part_timestamp := None |}] (Some 3)] in
  let msg := {| ChatHistory.role := "user";
                ChatHistory.content := "Who was Ada Lovelace?";
                ChatHistory.timestamp := 2 |} in
  ChatHistory.convert_messages_for_display 0 messages = [msg] /\
  is_empty (ChatHistory.content msg) = false /\
  ((ChatHistory.role msg = "user" /\
    exists parts part,
      In (ChatHistory.RequestMessage parts) messages /\ In part parts /\
      ChatHistory.class_name part = "UserPromptPart" /\
      ChatHistory.part_content part = Some (ChatHistory.content msg))
   \/
   (ChatHistory.role msg = "assistant" /\
    exists parts t texts,
      In (ChatHistory.ResponseMessage parts t) messages /\
      texts <> [] /\ ChatHistory.content msg = join " " texts /\
      forall x, In x texts ->
        exists part,
          In part parts /\ ChatHistory.class_name part = "TextPart" /\
          ChatHistory.part_content part = Some x /\ is_empty x = false)).
Proof.
  intros request messages msg. split; [reflexivity|].
  exact (display_messages_wellformed 0 messages msg (or_introl eq_refl)).
Defined.

Lemma message_cell_bounded (content : string) :
  len (ChatHistory.message_cell content) <= 80 /\
  (len content <= 80 -> ChatHistory.message_cell content = content) /\
  (80 < len content ->
   ChatHistory.message_cell content = slice_to content 77 ++ "..." /\
   len (ChatHistory.message_cell content) = 80).
Proof.
  unfold ChatHistory.message_cell.
  destruct (Z.gtb_spec (len content) 80) as [H|H].
  - rewrite len_app, len_slice_to by lia. change (len "...") with 3.
    repeat split; lia.
  - repeat split; lia.
Qed.

(** X21. When [display_chat_history] draws a table, the table has at least
    one row, every message cell holds at most 80 characters (a longer
    message is cut to its first 77 characters and three dots), and the
    row of a user message is cyan and that of an assistant message
    green. *)
Theorem history_table_rows (now : Z) (last_result : option (list ChatHistory.Message))
        (rows : list ChatHistory.Row) :
  ChatHistory.display_chat_history now last_result = ChatHistory.HistoryTable rows ->
  rows <> [] /\
  forall row, In row rows ->
    len (ChatHistory.row_cell row) <= 80 /\
    (ChatHistory.row_role row = "user" /\ ChatHistory.row_color row = "cyan" \/
     ChatHistory.row_role row = "assistant" /\ ChatHistory.row_color row = "green").
Proof.
  unfold ChatHistory.display_chat_history.
  destruct last_result as [all_messages|]; [|discriminate].
  pose proof (convert_messages_wellformed now all_messages) as Hwf.
  destruct (ChatHistory.convert_messages_for_display now all_messages)
    as [|m l]; [discriminate|].
  intros H. injection H as <-. split; [discriminate|].
  intros row Hin.
  change (In row (map ChatHistory.row_of (m :: l))) in Hin.
  apply in_map_iff in Hin. destruct Hin as (msg & <- & Hin).
  destruct (Hwf msg Hin) as [Hrole _].
  unfold ChatHistory.row_of. cbn.
  split; [apply message_cell_bounded|].
  destruct Hrole as [-> | ->]; cbn; auto.
Qed.

Lemma history_table_rows_witness :
  let long := replicate 100 "x" in
  let messages :=
    [ChatHistory.ResponseMessage
       [{| ChatHistory.class_name := "TextPart";
           ChatHistory.part_content := Some long;
           ChatHistory.part_timestamp := None |}] None] in
  let row := {| ChatHistory.row_time := 5; ChatHistory.row_color := "green";
                ChatHistory.row_role := "assistant";
                ChatHistory.row_cell := replicate 77 "x" ++ "..." |} in
  [row] <> [] /\
  forall r, In r [row] ->
    len (ChatHistory.row_cell r) <= 80 /\
    (ChatHistory.row_role r = "user" /\ ChatHistory.row_color r = "cyan" \/
     ChatHistory.row_role r = "assistant" /\ ChatHistory.row_color r = "green").
Proof.
  intros long messages row.
  exact (history_table_rows 5 (Some messages) [row] eq_refl).
Defined.

(* ================================================================== *)
(** ** Further properties: the client configuration                   *)
(* ================================================================== *)

(** When the validation of the environment succeeds. *)
Lemma validate_environment_accepts (env : Config.Environment) :
  Config.validate_environment env = ([], true) <->
  Config.server_path_kind env = Config.RegularFile /\
  ((exists key, Config.OPENAI_API_KEY env = Some key /\ 10 <= len key)
   \/
   (Config.falsy (Config.OPENAI_API_KEY env) = true /\
    Config.OLLAMA_MODEL env <> None /\ Config.OLLAMA_BASE_URL env <> None)).
Proof.
  unfold Config.validate_environment, Config.get_openai_api_key,
    Config.test_ollama_env_variables, Config.get_wikipedia_server_path,
    Config.is_file.
  destruct env as [key om ou path kind]. cbn [Config.OPENAI_API_KEY
    Config.OLLAMA_MODEL Config.OLLAMA_BASE_URL Config.server_path
    Config.server_path_kind].
  destruct key as [[|c k]|]; cbn [Config.falsy is_empty];
    destruct om, ou; cbn [Config.is_set forallb andb negb app];
    try (destruct (Z.ltb_spec (len (String c k)) 10));
    destruct kind; cbn [negb app];
    (split;
     [ intros Hv;
       first [ discriminate Hv
             | split; [reflexivity|];
               first [ left; eexists; split; [reflexivity | lia]
                     | right; repeat split; discriminate ] ]
     | intros [Hk [(key' & Hkey & Hlen) | (Hf & Hm & Hu)]];
       try discriminate Hk; try discriminate Hkey; try discriminate Hf;
       try congruence; try reflexivity;
       try (injection Hkey as <-; lia);
       try (injection Hkey as <-; unfold len in Hlen; cbn in Hlen; lia) ]).
Qed.

(** X22. [validate_environment] answers [True], with no error listed,
    exactly when the server path is a regular file and either an API key
    of at least 10 characters is set, or no API key is set (or an empty
    one) and both Ollama variables are.  A key shorter than 10 characters
    fails the validation even when Ollama is configured. *)
Theorem validate_environment_passes_iff (env : Config.Environment) :
  Config.validate_environment env = ([], true) <->
  Config.server_path_kind env = Config.RegularFile /\
  ((exists key, Config.OPENAI_API_KEY env = Some key /\ 10 <= len key)
   \/
   (Config.falsy (Config.OPENAI_API_KEY env) = true /\
    Config.OLLAMA_MODEL env <> None /\ Config.OLLAMA_BASE_URL env <> None)).
Proof.
  split; intros H.
  - apply validate_environment_accepts. exact H.
  - apply validate_environment_accepts. exact H.
Qed.

Lemma validate_short_key_fails :
  snd (Config.validate_environment
         {| Config.OPENAI_API_KEY := Some "sk-short";
            Config.OLLAMA_MODEL := Some "llama3";
            Config.OLLAMA_BASE_URL := Some "http://localhost:11434";
            Config.server_path := "/repo/solution/servers/wikipedia_server.py";
            Config.server_path_kind := Config.RegularFile |}) = false.
Proof. reflexivity. Qed.

(** X23. In an environment that [validate_environment] accepts,
    [get_agent_config] never fails on the choice of the model: it names
    the OpenAI model when an API key is set and otherwise builds the Ollama
    model from the base URL, with a timeout of 30. *)
Theorem validated_environment_has_model (env : Config.Environment) (prompt : string) :
  Config.validate_environment env = ([], true) ->
  exists m,
    Config.get_agent_config env (Return prompt)
    = Return {| Config.model := m; Config.system_prompt := prompt;
                Config.timeout := 30 |} /\
    (Config.falsy (Config.OPENAI_API_KEY env) = false ->
     m = Config.OpenAIModelName "openai:gpt-4o-mini") /\
    (Config.falsy (Config.OPENAI_API_KEY env) = true ->
     exists url, Config.OLLAMA_BASE_URL env = Some url /\
                 m = Config.OllamaModel (Config.OLLAMA_MODEL env) (url ++ "/v1")).
Proof.
  intros H. apply validate_environment_accepts in H.
  destruct H as [_ [(key & Hkey & Hlen) | (Hf & Hm & Hu)]].
  - unfold Config.get_agent_config, Config.get_openai_api_key.
    assert (Hf : Config.falsy (Config.OPENAI_API_KEY env) = false).
    { rewrite Hkey. cbn. destruct key; [cbn in Hlen; lia | reflexivity]. }
    rewrite Hf. cbn [negb]. eexists. split; [reflexivity|].
    split; [reflexivity | intros C; discriminate C].
  - unfold Config.get_agent_config, Config.get_openai_api_key, Config.get_ollama_model.
    rewrite Hf. cbn [negb].
    destruct (Config.OLLAMA_BASE_URL env) as [url|]; [|congruence].
    eexists. split; [reflexivity|].
    split; [intros C; discriminate C | intros _; eauto].
Qed.

Lemma validated_environment_has_model_witness :
  let env := {| Config.OPENAI_API_KEY := None;
                Config.OLLAMA_MODEL := Some "llama3";
                Config.OLLAMA_BASE_URL := Some "http://localhost:11434";
                Config.server_path := "/repo/solution/servers/wikipedia_server.py";
                Config.server_path_kind := Config.RegularFile |} in
  exists m,
    Config.get_agent_config env (Return "You are a research assistant.")
    = Return {| Config.model := m;
                Config.system_prompt := "You are a research assistant.";
                Config.timeout := 30 |} /\
    (Config.falsy (Config.OPENAI_API_KEY env) = false ->
     m = Config.OpenAIModelName "openai:gpt-4o-mini") /\
    (Config.falsy (Config.OPENAI_API_KEY env) = true ->
     exists url, Config.OLLAMA_BASE_URL env = Some url /\
                 m = Config.OllamaModel (Config.OLLAMA_MODEL env) (url ++ "/v1")).
Proof.
  intros env.
  exact (validated_environment_has_model env "You are a research assistant." eq_refl).
Defined.

(* ================================================================== *)
(** ** Further properties: smart_summarize                            *)
(* ================================================================== *)

Lemma append_marker_free (a b : string) :
  (a ++ nl ++ nl) ++ b = a ++ nl ++ nl ++ b.
Proof.
  induction a as [|c a IH]; [reflexivity|]. cbn [append]. now rewrite IH.
Qed.

(** X24. [smart_summarize] samples the client's model at most once (the
    samplings of a run number one at most), and only for an article that
    exists and whose text could be read: the prompt is then the fixed
    instruction followed by that text, with a budget of 800 tokens.  For a
    missing article it raises the not-found error, and what it returns is
    the sampled text as it is. *)
Theorem smart_summarize_samples_existing_articles
        (w : World) (ctx_sample : SmartSummarize.Sampler) (title : string) :
  let run := SmartSummarize.smart_summarize w ctx_sample title in
  let page := wiki_page w (strip title) in
  (List.length (samplings (fst run)) <= 1)%nat
  /\
  (forall prompt n,
     In (SmartSummarize.CtxSample prompt n) (fst run) ->
     exists raw_text,
       page_exists page = Return true /\ page_text page = Return raw_text /\
       prompt = SmartSummarize.sample_prompt raw_text /\ n = 800 /\
       endswith prompt raw_text = true /\
       snd run = ctx_sample prompt 800)
  /\
  (page_exists page = Return false ->
   snd run = Raise (ValueError ("Article '" ++ title ++ "' not found on Wikipedia")))
  /\
  (forall r, snd run = Return r ->
     exists raw_text, page_text page = Return raw_text /\
                      ctx_sample (SmartSummarize.sample_prompt raw_text) 800 = Return r).
Proof.
  intros run page. subst run page. unfold SmartSummarize.smart_summarize.
  destruct (page_exists (wiki_page w (strip title))) as [[|]|e].
  - destruct (page_text (wiki_page w (strip title))) as [raw_text|e].
    + destruct (ctx_sample (SmartSummarize.sample_prompt raw_text) 800)
        as [enhanced|e] eqn:Es; cbn [fst snd app].
      * split; [cbn; lia|]. split; [|split].
        -- intros prompt n [H|[H|[H|[H|[]]]]]; try discriminate H.
           injection H as <- <-. exists raw_text.
           repeat split; try reflexivity; [|now rewrite Es].
           unfold SmartSummarize.sample_prompt.
           rewrite <- (append_marker_free _ raw_text). apply endswith_app.
        -- discriminate.
        -- intros r H. injection H as <-. eauto.
      * split; [cbn; lia|]. split; [|split].
        -- intros prompt n [H|[H|[H|[]]]]; try discriminate H.
           injection H as <- <-. exists raw_text.
           repeat split; try reflexivity; [|now rewrite Es].
           unfold SmartSummarize.sample_prompt.
           rewrite <- (append_marker_free _ raw_text). apply endswith_app.
        -- discriminate.
        -- discriminate.
    + cbn [fst snd]. split; [cbn; lia|].
      split; [|split]; [|discriminate|discriminate].
      intros prompt n [H|[H|[]]]; discriminate H.
  - cbn [fst snd]. split; [cbn; lia|].
    split; [|split]; [|reflexivity|discriminate].
    intros prompt n [H|[H|[]]]; discriminate H.
  - cbn [fst snd]. split; [cbn; lia|].
    split; [|split]; [|discriminate|discriminate].
    intros prompt n [H|[H|[]]]; discriminate H.
Qed.
